(** * WhatsApp connection reconciliation engine: a shallow embedding

    The development embeds the session registry
    ([WhatsAppSessionService]), the WAHA reconciler ([WahaSyncService]),
    the quota gate ([quotaMiddleware]), the session routes
    ([POST /sessions], [GET /sessions], [GET /sessions/:name/auth/qr]) and
    the webhook verifier ([connectionService.validateHmacSignature]) and
    proves properties of them.  Concurrent sync triggers are modelled as
    runs of [syncSession] interleaved at their [await]s.

    Conventions.
    - A JavaScript string is a Rocq [string]: the bytes of its UTF-8
      encoding.  White space is ECMAScript's, lengths are counted in
      UTF-16 code units as the source counts them, and case conversion
      is the ASCII one.
    - [undefined] and [null] of an optional field are both [None]; the
      places where the source tells them apart are modelled explicitly.
    - A [Date] is its number of milliseconds since the epoch, in [Z].
    - The [whatsAppSession] table, keyed by its unique [name] column, is a
      [gmap string Row].
    - Every remote answer is read from a [Remote] oracle; each remote call
      is recorded in a trace. *)

From Stdlib Require Import ZArith NArith String Ascii List Bool Lia.
From stdpp Require Import base option gmap strings list fin_maps sorting.

Local Open Scope string_scope.
Local Open Scope Z_scope.

(** ** JavaScript helpers *)

Module Js.

(** [x || null] and [x || undefined] on an optional string: the empty
    string is falsy. *)
Definition orNull (o : option string) : option string :=
  match o with
  | Some s => if String.eqb s EmptyString then None else Some s
  | None => None
  end.

(** [x || d] on an optional string. *)
Definition orElse (o : option string) (d : string) : string :=
  match orNull o with
  | Some s => s
  | None => d
  end.

(** [if (x)] on an optional string. *)
Definition truthy (o : option string) : bool :=
  match orNull o with
  | Some _ => true
  | None => false
  end.

Definition lower_ascii (c : ascii) : ascii :=
  let n := nat_of_ascii c in
  if (Nat.leb 65 n && Nat.leb n 90)%bool then ascii_of_nat (n + 32) else c.

(** [s.toLowerCase()] *)
Fixpoint toLowerCase (s : string) : string :=
  match s with
  | EmptyString => EmptyString
  | String c r => String (lower_ascii c) (toLowerCase r)
  end.

(** [s.startsWith(p)] *)
Fixpoint startsWith (p s : string) : bool :=
  match p, s with
  | EmptyString, _ => true
  | String a p', String b s' => (Ascii.eqb a b && startsWith p' s')%bool
  | String _ _, EmptyString => false
  end.

(** [s.includes(p)] *)
Fixpoint includes (p s : string) : bool :=
  (startsWith p s ||
   match s with
   | EmptyString => false
   | String _ s' => includes p s'
   end)%bool.

Fixpoint drop (n : nat) (s : string) : string :=
  match n, s with
  | O, _ => s
  | S n', String _ r => drop n' r
  | S _, EmptyString => EmptyString
  end.

Fixpoint take (n : nat) (s : string) : string :=
  match n, s with
  | O, _ => EmptyString
  | S n', String c r => String c (take n' r)
  | S _, EmptyString => EmptyString
  end.

(** The string of the bytes [l]. *)
Definition bytes (l : list nat) : string :=
  fold_right (fun n s => String (ascii_of_nat n) s) EmptyString l.

(** The bytes of the character that starts with the byte [c]. *)
Definition utf8Width (c : ascii) : nat :=
  let n := nat_of_ascii c in
  if Nat.ltb n 192 then 1%nat
  else if Nat.ltb n 224 then 2%nat
  else if Nat.ltb n 240 then 3%nat
  else 4%nat.

(** The first UTF-16 code unit of a character of four bytes, of which
    [b0], [b1], [b2] are the first three: a high surrogate on its own,
    in the three bytes of its code point. *)
Definition highSurrogate (b0 b1 b2 : ascii) : string :=
  let top := (N_of_ascii b0 mod 8 * 256 + N_of_ascii b1 mod 64 * 4
              + N_of_ascii b2 mod 64 / 16)%N in
  let high := (55296 + top - 64)%N in
  String (ascii_of_N 237)
    (String (ascii_of_N (128 + high / 64 mod 64))
       (String (ascii_of_N (128 + high mod 64)) EmptyString)).

(** The first [n] UTF-16 code units of [s]; [pending] bytes of a
    character already counted are still to be copied.  A character
    outside the basic plane counts for two units. *)
Fixpoint takeUnits (n pending : nat) (s : string) : string :=
  match s with
  | EmptyString => EmptyString
  | String c r =>
      match pending with
      | S p => String c (takeUnits n p r)
      | O =>
          let width := utf8Width c in
          let units := if Nat.eqb width 4 then 2%nat else 1%nat in
          if Nat.leb units n
          then String c (takeUnits (n - units) (width - 1) r)
          else match n, r with
               | 1%nat, String b1 (String b2 _) => highSurrogate c b1 b2
               | _, _ => EmptyString
               end
      end
  end.

(** [s.substring(0, n)] *)
Definition substring0 (n : nat) (s : string) : string := takeUnits n 0 s.

(** [s.replace(p, '')] with a string pattern: removes the first
    occurrence of [p], wherever it is. *)
Fixpoint removeFirst (p s : string) : string :=
  if startsWith p s then drop (String.length p) s
  else match s with
       | EmptyString => EmptyString
       | String c r => String c (removeFirst p r)
       end.

(** The white space and the line terminators of ECMAScript, each in its
    UTF-8 bytes: U+0009 to U+000D, U+0020, U+00A0, U+1680, U+2000 to
    U+200A, U+2028, U+2029, U+202F, U+205F, U+3000 and U+FEFF. *)
Definition whiteSpace : list string :=
  List.map bytes
    [ [9]; [10]; [11]; [12]; [13]; [32]; [194; 160]; [225; 154; 128];
      [226; 128; 128]; [226; 128; 129]; [226; 128; 130]; [226; 128; 131];
      [226; 128; 132]; [226; 128; 133]; [226; 128; 134]; [226; 128; 135];
      [226; 128; 136]; [226; 128; 137]; [226; 128; 138];
      [226; 128; 168]; [226; 128; 169]; [226; 128; 175]; [226; 129; 159];
      [227; 128; 128]; [239; 187; 191] ]%nat.

(** [s] without its prefix [p] *)
Fixpoint stripPrefix (p s : string) : option string :=
  match p, s with
  | EmptyString, _ => Some s
  | String a p', String b s' => if Ascii.eqb a b then stripPrefix p' s' else None
  | String _ _, EmptyString => None
  end.

(** [s] without the one of [patterns] it starts with *)
Fixpoint stripAny (patterns : list string) (s : string) : option string :=
  match patterns with
  | [] => None
  | p :: rest =>
      match stripPrefix p s with
      | Some r => Some r
      | None => stripAny rest s
      end
  end.

Fixpoint stripAll (fuel : nat) (patterns : list string) (s : string) : string :=
  match fuel with
  | O => s
  | S fuel' =>
      match stripAny patterns s with
      | Some r => stripAll fuel' patterns r
      | None => s
      end
  end.

Fixpoint reverseOnto (s acc : string) : string :=
  match s with
  | EmptyString => acc
  | String c r => reverseOnto r (String c acc)
  end.

Definition reverse (s : string) : string := reverseOnto s EmptyString.

(** [s.trimStart()] *)
Definition trimStart (s : string) : string :=
  stripAll (String.length s) whiteSpace s.

(** [s.trimEnd()]: a white space at the end is its bytes, the first of
    which starts a character, so that it is found from the end. *)
Definition trimEnd (s : string) : string :=
  reverse (stripAll (String.length s) (List.map reverse whiteSpace) (reverse s)).

(** [s.trim()] *)
Definition trim (s : string) : string := trimEnd (trimStart s).

(** The double quote. *)
Definition quote : string := String (ascii_of_nat 34) EmptyString.

(** An integer in a template literal. *)
Fixpoint decimalDigits (fuel : nat) (n : Z) (acc : string) : string :=
  match fuel with
  | O => acc
  | S fuel' =>
      let acc' := String (ascii_of_nat (48 + Z.to_nat (n mod 10))) acc in
      if n / 10 =? 0 then acc' else decimalDigits fuel' (n / 10) acc'
  end.

Definition decimal (n : Z) : string :=
  if n <? 0
  then "-" ++ decimalDigits (S (Z.to_nat (Z.log2 (- n)))) (- n) EmptyString
  else decimalDigits (S (Z.to_nat (Z.log2 n))) n EmptyString.

End Js.

(** ** Data model *)

Inductive Provider := WAHA | EVOLUTION | QUEPASA.

Global Instance Provider_eq_dec : EqDecision Provider.
Proof. solve_decision. Defined.

Definition provider_eqb (a b : Provider) : bool := bool_decide (a = b).

(** The part of a session's JSON [config] the engine reads: the
    credentials of an imported Evolution instance; [cfg_rest] stands for
    the rest of the object. *)
Record Config := {
  evolutionUrl : option string;
  evolutionApiKey : option string;
  cfg_rest : string
}.

(** [WhatsAppSessionData.me] *)
Record Me := {
  me_id : string;
  me_pushName : string;
  me_lid : option string;
  me_jid : option string
}.

(** A row of the [whatsAppSession] table, without its key column [name]
    (the key of the map) and without its generated [id], which the engine
    only pastes into webhook URLs.  [provider] is optional: the routes
    fall back to WAHA on a row without one. *)
Record Row := {
  displayName : option string;
  status : string;
  provider : option Provider;
  config : option Config;
  meId : option string;
  mePushName : option string;
  meLid : option string;
  meJid : option string;
  qr : option string;
  qrExpiresAt : option Z;
  assignedWorker : option string;
  tenantId : option string;
  quepasaToken : option string;
  interactiveCampaignEnabled : bool;
  webhookSecret : option string;
  criadoEm : Z;
  atualizadoEm : Z
}.

(** [interface WhatsAppSessionData]: the argument of
    [createOrUpdateSession].  An omitted optional field is [None]. *)
Record WhatsAppSessionData := {
  d_name : string;
  d_displayName : option string;
  d_status : string;
  d_provider : Provider;
  d_config : option Config;
  d_me : option Me;
  d_qr : option string;
  d_qrExpiresAt : option Z;
  d_assignedWorker : option string;
  d_tenantId : option string;
  d_quepasaToken : option string;
  d_interactiveCampaignEnabled : option bool;
  d_webhookSecret : option string
}.

(** What [getSession] and [getAllSessions] return for a row. *)
Record Session := {
  s_name : string;
  s_displayName : string;
  s_status : string;
  s_provider : option Provider;
  s_config : option Config;
  s_me : option Me;
  s_qr : option string;
  s_qrExpiresAt : option Z;
  s_assignedWorker : option string;
  s_tenantId : option string;
  s_quepasaToken : option string
}.

Abbreviation Registry := (gmap string Row).

(** ** Effects: the registry, the trace of remote calls, exceptions *)

Inductive RemoteCall :=
| WahaGetSession (n : string)
| WahaPostSession (n : string) (webhookUrl : option string)
| WahaQrImage (n : string)
| EvolutionConnectionState (url apiKey n : string)
| EvolutionFetchInstances (url apiKey n : string)
| EvolutionGetInstanceStatus (n : string)
| EvolutionGetInstanceInfo (n : string)
| EvolutionGetQRCode (n : string)
| EvolutionCreateInstance (n : string) (webhookUrl : option string)
| QuepasaBotStatus (n : string)
| QuepasaHealthToken (url token : string)
| QuepasaHealthUser (url login password : string)
| QuepasaScan (url login token : string)
| QuepasaConfigureWebhook (token webhookUrl : string).

Record World := {
  db : Registry;
  calls : list RemoteCall
}.

Inductive Outcome (A : Type) :=
| Returned (a : A)
| Thrown (message : string).
Arguments Returned {A} a.
Arguments Thrown {A} message.

(** A computation of the source: it reads and writes the world and
    either returns or throws. *)
Definition M (A : Type) : Type := World -> Outcome A * World.

Definition ret {A} (a : A) : M A := fun w => (Returned a, w).

Definition throw {A} (message : string) : M A := fun w => (Thrown message, w).

Definition bind {A B} (m : M A) (k : A -> M B) : M B :=
  fun w =>
    match m w with
    | (Returned a, w') => k a w'
    | (Thrown e, w') => (Thrown e, w')
    end.

Notation "'let!' x ':=' m 'in' k" := (bind m (fun x => k))
  (at level 10, x name, m at level 200, k at level 200,
   format "'[v' 'let!'  x  ':='  m  'in' '/' k ']'").
Notation "m '>>' k" := (bind m (fun _ => k))
  (at level 90, right associativity).

(** [try { m } catch (e) { h e }]: what [m] wrote before throwing stays. *)
Definition tryCatch {A} (m : M A) (h : string -> M A) : M A :=
  fun w =>
    match m w with
    | (Returned a, w') => (Returned a, w')
    | (Thrown e, w') => h e w'
    end.

(** [for (const x of l) { body x }] *)
Fixpoint forEach {A} (l : list A) (body : A -> M unit) : M unit :=
  match l with
  | [] => ret tt
  | x :: l' => body x >> forEach l' body
  end.

(** A remote call: recorded, then answered by the oracle. *)
Definition remote {A} (c : RemoteCall) (answer : Outcome A) : M A :=
  fun w => (answer, {| db := db w; calls := calls w ++ [c] |}).

Definition readDb : M Registry := fun w => (Returned (db w), w).

Definition writeDb (f : Registry -> Registry) : M unit :=
  fun w => (Returned tt, {| db := f (db w); calls := calls w |}).

(** ** The session registry: [WhatsAppSessionService] *)

Definition rowMe (r : Row) : option Me :=
  match Js.orNull (meId r) with
  | Some i => Some {| me_id := i;
                      me_pushName := Js.orElse (mePushName r) EmptyString;
                      me_lid := meLid r;
                      me_jid := meJid r |}
  | None => None
  end.

Definition toSession (n : string) (r : Row) : Session :=
  {| s_name := n;
     s_displayName := Js.orElse (displayName r) n;
     s_status := status r;
     s_provider := provider r;
     s_config := config r;
     s_me := rowMe r;
     s_qr := qr r;
     s_qrExpiresAt := qrExpiresAt r;
     s_assignedWorker := assignedWorker r;
     s_tenantId := tenantId r;
     s_quepasaToken := quepasaToken r |}.

(** The [where] clause: [tenantId] is filtered on only when truthy. *)
Definition matchesTenant (tenant : option string) (r : Row) : bool :=
  match Js.orNull tenant with
  | Some t => bool_decide (tenantId r = Some t)
  | None => true
  end.

Definition newerFirst (a b : string * Row) : Prop :=
  atualizadoEm b.2 <= atualizadoEm a.2.

Global Instance newerFirst_dec a b : Decision (newerFirst a b).
Proof. unfold newerFirst. apply _. Defined.

(** [getAllSessions(tenantId)], [orderBy: { atualizadoEm: 'desc' }] *)
Definition allSessions (tenant : option string) (reg : Registry) : list Session :=
  (fun kr => toSession kr.1 kr.2) <$>
    merge_sort newerFirst
      (List.filter (fun kr => matchesTenant tenant kr.2) (map_to_list reg)).

Definition getAllSessions (tenant : option string) : M (list Session) :=
  let! reg := readDb in ret (allSessions tenant reg).

Definition findSession (n : string) (tenant : option string) (reg : Registry)
  : option Session :=
  match reg !! n with
  | Some r => if matchesTenant tenant r then Some (toSession n r) else None
  | None => None
  end.

Definition notFound : string := "Sessão não encontrada".

(** [getSession(name, tenantId)] *)
Definition getSession (n : string) (tenant : option string) : M Session :=
  let! reg := readDb in
  match findSession n tenant reg with
  | Some s => ret s
  | None => throw notFound
  end.

Definition meColumn (m : option Me) (f : Me -> option string) : option string :=
  match m with
  | Some v => Js.orNull (f v)
  | None => None
  end.

(** [updateData] applied to the stored row. *)
Definition updateRow (now : Z) (data : WhatsAppSessionData) (old : Row) : Row :=
  {| displayName := Some (Js.orElse (d_displayName data) (d_name data));
     status := d_status data;
     provider := Some (d_provider data);
     config := d_config data;
     meId := meColumn (d_me data) (fun m => Some (me_id m));
     mePushName := meColumn (d_me data) (fun m => Some (me_pushName m));
     meLid := meColumn (d_me data) me_lid;
     meJid := meColumn (d_me data) me_jid;
     qr := Js.orNull (d_qr data);
     qrExpiresAt := d_qrExpiresAt data;
     assignedWorker := Js.orNull (d_assignedWorker data);
     tenantId := Js.orNull (d_tenantId data);
     quepasaToken := Js.orNull (d_quepasaToken data);
     interactiveCampaignEnabled :=
       match d_interactiveCampaignEnabled data with
       | Some b => b
       | None => interactiveCampaignEnabled old
       end;
     webhookSecret :=
       match d_webhookSecret data with
       | Some s => Some s
       | None => webhookSecret old
       end;
     criadoEm := criadoEm old;
     atualizadoEm := now |}.

(** [createData] *)
Definition createRow (now : Z) (data : WhatsAppSessionData) : Row :=
  {| displayName := Some (Js.orElse (d_displayName data) (d_name data));
     status := d_status data;
     provider := Some (d_provider data);
     config := d_config data;
     meId := meColumn (d_me data) (fun m => Some (me_id m));
     mePushName := meColumn (d_me data) (fun m => Some (me_pushName m));
     meLid := meColumn (d_me data) me_lid;
     meJid := meColumn (d_me data) me_jid;
     qr := Js.orNull (d_qr data);
     qrExpiresAt := d_qrExpiresAt data;
     assignedWorker := Js.orNull (d_assignedWorker data);
     tenantId := Js.orNull (d_tenantId data);
     quepasaToken := Js.orNull (d_quepasaToken data);
     interactiveCampaignEnabled :=
       match d_interactiveCampaignEnabled data with
       | Some b => b
       | None => false
       end;
     webhookSecret := Js.orNull (d_webhookSecret data);
     criadoEm := now;
     atualizadoEm := now |}.

(** [prisma.whatsAppSession.upsert({ where: { name }, update, create })] *)
Definition upsert (now : Z) (data : WhatsAppSessionData) (reg : Registry) : Registry :=
  match reg !! d_name data with
  | Some old => <[d_name data := updateRow now data old]> reg
  | None => <[d_name data := createRow now data]> reg
  end.

(** [createOrUpdateSession(data)]; no caller uses the returned row. *)
Definition createOrUpdateSession (now : Z) (data : WhatsAppSessionData) : M unit :=
  writeDb (upsert now data).

(** A [WhatsAppSessionData] with only the required fields. *)
Definition sessionData (n st : string) (p : Provider) : WhatsAppSessionData :=
  {| d_name := n; d_displayName := None; d_status := st; d_provider := p;
     d_config := None; d_me := None; d_qr := None; d_qrExpiresAt := None;
     d_assignedWorker := None; d_tenantId := None; d_quepasaToken := None;
     d_interactiveCampaignEnabled := None; d_webhookSecret := None |}.

(** ** Provider answers *)

(** The outcome of a [fetch] followed by reading its body. *)
Inductive Fetched (A : Type) :=
| FetchThrows (message : string)  (* [fetch] rejects, or the body does not parse *)
| Status (code : Z) (statusText : string)  (* a response whose [ok] is false *)
| OkJson (body : A).              (* [response.ok], with the body read *)
Arguments FetchThrows {A} message.
Arguments Status {A} code statusText.
Arguments OkJson {A} body.

(** The body of WAHA's [GET /api/sessions/:name]. *)
Record WahaSession := {
  w_name : string;
  w_status : option string;
  w_config : option Config;
  w_me : option Me;
  w_assignedWorker : option string
}.

(** An element of Evolution's [fetchInstances]. *)
Record EvolutionInfo := {
  ownerJid : option string;
  owner : option string;
  profileName : option string
}.

(** The body of Quepasa's [/health] under a session token;
    [q_status] is [String(statusData.status)]. *)
Record QuepasaStatus := {
  q_success : bool;
  q_status : string;
  q_number : option string;
  q_wid : option string;
  q_id : option string;
  q_pushName : option string;
  q_name : option string
}.

(** A server of Quepasa's [/health] under the account's login;
    [srv_status] is [String(server.status || '')]. *)
Record QuepasaServer := {
  srv_status : string;
  srv_health : bool;
  srv_token : option string;
  srv_wid : option string;
  srv_number : option string;
  srv_name : option string
}.

Record QuepasaList := {
  l_success : bool;
  l_items : option (list QuepasaServer)
}.

(** The providers, as seen by the engine.  [evolutionApiService] and
    [configureQuepasaWebhook] are behind this interface as well.
    [quepasaBotStatus] is [/v3/bot/:name/status], answering
    [statusData?.bot?.connected === true]. *)
Record Remote := {
  wahaGetSession : string -> Outcome WahaSession;
  wahaPostSession : string -> option string -> Outcome string;
  wahaQrImage : string -> Fetched string;
  evolutionConnectionState : string -> string -> string -> Fetched (option string);
  evolutionFetchInstances : string -> string -> string -> Fetched (option EvolutionInfo);
  evolutionGetInstanceStatus : string -> Outcome string;
  evolutionGetInstanceInfo : string -> Outcome (option EvolutionInfo);
  evolutionGetQRCode : string -> Outcome (option string);
  evolutionCreateInstance : string -> option string -> Outcome (option string);
  quepasaBotStatus : string -> Fetched bool;
  quepasaHealthToken : string -> string -> Fetched QuepasaStatus;
  quepasaHealthUser : string -> string -> string -> Fetched QuepasaList;
  quepasaScan : string -> string -> string -> Fetched string;
  quepasaConfigureWebhook : string -> string -> Outcome bool
}.

(** [settingsService.getQuepasaConfig()] *)
Record QuepasaConfig := {
  quepasaUrl : option string;
  quepasaLogin : option string;
  quepasaPassword : option string
}.

(** [await fetch(...)]: a rejection is an exception. *)
Definition fetch {A} (c : RemoteCall) (answer : Fetched A) : M (Fetched A) :=
  match answer with
  | FetchThrows e => remote c (Thrown e)
  | other => remote c (Returned other)
  end.

(** ** Status mapping *)

(** A value read from an object literal used as a map: one of its own
    string values, or a member inherited from [Object.prototype]. *)
Inductive JsValue :=
| JsString (s : string)
| JsInherited (key : string).

Definition objectPrototypeKeys : list string :=
  ["constructor"; "toString"; "toLocaleString"; "valueOf"; "hasOwnProperty";
   "isPrototypeOf"; "propertyIsEnumerable"; "__proto__"; "__defineGetter__";
   "__defineSetter__"; "__lookupGetter__"; "__lookupSetter__"].

(** [stateMap[key]] *)
Definition stateMap (key : string) : option JsValue :=
  if String.eqb key "open" then Some (JsString "WORKING")
  else if String.eqb key "connecting" then Some (JsString "SCAN_QR_CODE")
  else if String.eqb key "close" then Some (JsString "STOPPED")
  else if String.eqb key "closed" then Some (JsString "STOPPED")
  else if existsb (String.eqb key) objectPrototypeKeys then Some (JsInherited key)
  else None.

(** [stateMap[rawState?.toLowerCase()] || 'STOPPED'], with
    [rawState = stateData?.instance?.state || stateData?.state || 'close'] *)
Definition mapEvolutionState (state : option string) : JsValue :=
  let rawState := Js.orElse state "close" in
  match stateMap (Js.toLowerCase rawState) with
  | Some v => v
  | None => JsString "STOPPED"
  end.

(** The Quepasa mapping of [GET /sessions]. *)
Definition mapQuepasaStatus (success : bool) (status : string) : string :=
  let statusLower := Js.toLowerCase status in
  if (success && Js.includes "ready" statusLower)%bool then "WORKING"
  else if (Js.includes "starting" statusLower || Js.includes "qrcode" statusLower)%bool
       then "SCAN_QR_CODE"
  else if (Js.includes "disconnected" statusLower || Js.includes "stopped" statusLower)%bool
       then "STOPPED"
  else "FAILED".

(** [wahaSession.status || 'STOPPED'] *)
Definition mapWahaStatus (status : option string) : string :=
  Js.orElse status "STOPPED".

(** [['WORKING', 'SCAN_QR_CODE', 'STOPPED', 'FAILED'].includes(v)] *)
Definition isInternalStatus (v : JsValue) : option string :=
  match v with
  | JsString s =>
      if existsb (String.eqb s) ["WORKING"; "SCAN_QR_CODE"; "STOPPED"; "FAILED"]
      then Some s else None
  | JsInherited _ => None
  end.

(** ** HTTP requests and responses *)

(** What [authMiddleware] leaves on the request, and the body fields the
    routes read. *)
Record Request := {
  role : option string;          (* [req.user?.role] *)
  reqTenantId : option string;   (* [req.tenantId] *)
  sessionName : string;          (* [req.params.sessionName] *)
  bodyName : option string;      (* [req.body.name] *)
  bodyProvider : option (option string);
                                 (* [req.body.provider]: [Some None] is [null] *)
  bodyInteractive : bool;        (* [req.body.interactiveCampaignEnabled] *)
  bodyTenantId : option string   (* [req.body.tenantId] *)
}.

Inductive Body :=
| ErrorBody (error : string)
| ErrorDetails (error details : string)
| ErrorStatus (error : string) (status : option string)
| QuotaBody (message : string) (current max : Z)
| SessionsBody (sessions : list Session)
| QrBody (qrCode : option string) (expiresAt : option Z) (status : option string)
         (provider : option Provider) (message : string)
| CreatedQuepasa (n status token : string) (webhook : option string)
| CreatedEvolution (qrCode : option string)
| CreatedWaha (result : string).

Record Response := {
  code : Z;
  body : Body
}.

Definition respond (c : Z) (b : Body) : M Response :=
  ret {| code := c; body := b |}.

Definition isSuperadmin (req : Request) : bool :=
  bool_decide (role req = Some "SUPERADMIN").

(** [req.user?.role === 'SUPERADMIN' ? undefined : req.tenantId] *)
Definition scopeOf (req : Request) : option string :=
  if isSuperadmin req then None else reqTenantId req.

Definition hasProvider (p : Provider) (s : Session) : bool :=
  bool_decide (s_provider s = Some p).

(** The path of [`${baseUrl}/api/webhooks/incoming/${id}/${secret}`],
    with the row's name standing for its generated id. *)
Definition webhookUrl (n secret : string) : string :=
  "/api/webhooks/incoming/" ++ n ++ "/" ++ secret.

(** [Date.now() + 300000]: a pairing artifact lives five minutes. *)
Definition qrTtl : Z := 300000.

(** ** The WAHA reconciler: [WahaSyncService] *)

Section Reconciler.

Variable R : Remote.
Variable now : Z.

(** The argument of [createOrUpdateSession] in [syncSession]. *)
Definition wahaSessionData (w : WahaSession) (existing : option Session)
  : WhatsAppSessionData :=
  {| d_name := w_name w;
     d_displayName :=
       Some (Js.orElse (s_displayName <$> existing) (w_name w));
     d_status := mapWahaStatus (w_status w);
     d_provider := WAHA;
     d_config := w_config w;
     d_me := w_me w;
     d_qr := Js.orNull (existing ≫= s_qr);
     d_qrExpiresAt := existing ≫= s_qrExpiresAt;
     d_assignedWorker := w_assignedWorker w;
     d_tenantId := Js.orNull (existing ≫= s_tenantId);
     d_quepasaToken := None;
     d_interactiveCampaignEnabled := None;
     d_webhookSecret := None |}.

(** The [try] block of [syncSession] up to its [return]. *)
Definition syncSessionWrite (n : string) : M unit :=
  let! wahaSession := remote (WahaGetSession n) (wahaGetSession R n) in
  let! existingSession :=
    tryCatch (let! s := getSession n None in ret (Some s))
             (fun _ => ret None) in
  createOrUpdateSession now (wahaSessionData wahaSession existingSession).

(** [WahaSyncService.syncSession(sessionName)].  The [try] block ends in
    [return getSession(...)] without [await]: a rejection of that last
    read is not caught by the [catch]. *)
Definition syncSession (n : string) : M Session :=
  let! written := tryCatch (syncSessionWrite n >> ret true)
                           (fun _ => ret false) in
  if written then getSession n None
  else tryCatch (getSession n None)
                (fun _ => throw ("Sessão " ++ n ++ " não encontrada")).

(** [sessionData.config] of [createSession]: no proxy, and the webhook
    when there is one. *)
Definition wahaNewConfig (webhook : option string) : Config :=
  {| evolutionUrl := None; evolutionApiKey := None;
     cfg_rest := Js.orElse webhook EmptyString |}.

Definition withConfig (c : option Config) (d : WhatsAppSessionData)
  : WhatsAppSessionData :=
  {| d_name := d_name d; d_displayName := d_displayName d;
     d_status := d_status d; d_provider := d_provider d;
     d_config := c; d_me := d_me d; d_qr := d_qr d;
     d_qrExpiresAt := d_qrExpiresAt d;
     d_assignedWorker := d_assignedWorker d; d_tenantId := d_tenantId d;
     d_quepasaToken := d_quepasaToken d;
     d_interactiveCampaignEnabled := d_interactiveCampaignEnabled d;
     d_webhookSecret := d_webhookSecret d |}.

(** [WahaSyncService.createSession(name, webhookUrl)] *)
Definition wahaCreateSession (n : string) (webhook : option string) : M string :=
  tryCatch
    (let! result := remote (WahaPostSession n webhook) (wahaPostSession R n webhook) in
     createOrUpdateSession now
       (withConfig (Some (wahaNewConfig webhook)) (sessionData n "STOPPED" WAHA)) >>
     ret result)
    (fun message =>
       if Js.includes "422" message then
         tryCatch
           (let! existingSession := remote (WahaGetSession n) (wahaGetSession R n) in
            createOrUpdateSession now
              (withConfig
                 (Some (default (wahaNewConfig webhook) (w_config existingSession)))
                 (sessionData n (mapWahaStatus (w_status existingSession)) WAHA)) >>
            ret (w_name existingSession))
           (fun _ => throw ("Sessão " ++ Js.quote ++ n ++ Js.quote ++
                            " já existe mas não foi possível obter detalhes"))
       else throw message).

End Reconciler.

(** ** [GET /sessions]: the batch sync *)

Section BatchSync.

Variable R : Remote.
Variable quepasaConfig : QuepasaConfig.
Variable now : Z.

(** One iteration of the WAHA loop, with its [try]/[catch]. *)
Definition syncWahaOne (session : Session) : M unit :=
  tryCatch (syncSession R now (s_name session) >> ret tt) (fun _ => ret tt).

Definition syncWaha (tenant : option string) : M unit :=
  tryCatch
    (let! wahaSessions := getAllSessions tenant in
     forEach (List.filter (hasProvider WAHA) wahaSessions) syncWahaOne)
    (fun _ => ret tt).

(** [prisma.whatsAppSession.findFirst({ where: { quepasaToken: token,
    name: { not: n } } })], as a test. *)
Definition tokenUsedByOther (token n : string) (reg : Registry) : bool :=
  existsb (fun kr => (bool_decide (quepasaToken kr.2 = Some token)
                      && negb (String.eqb kr.1 n))%bool)
          (map_to_list reg).

(** Registers the webhook of an interactive session that just
    connected. *)
Definition registerWebhook (n token : string) : M unit :=
  let! reg := readDb in
  match reg !! n with
  | Some fullSession =>
      match interactiveCampaignEnabled fullSession,
            Js.orNull (webhookSecret fullSession) with
      | true, Some secret =>
          remote (QuepasaConfigureWebhook token (webhookUrl n secret))
                 (quepasaConfigureWebhook R token (webhookUrl n secret)) >> ret tt
      | _, _ => ret tt
      end
  | None => ret tt
  end.

Definition isReady (server : QuepasaServer) : bool :=
  (Js.includes "ready" (Js.toLowerCase (srv_status server)) || srv_health server)%bool.

(** The loop over the account's servers, up to its [break]. *)
Fixpoint adoptReadyServer (session : Session) (servers : list QuepasaServer)
  : M unit :=
  match servers with
  | [] => ret tt
  | server :: rest =>
      match Js.orNull (srv_token server), isReady server with
      | Some token, true =>
          let! reg := readDb in
          if tokenUsedByOther token (s_name session) reg
          then adoptReadyServer session rest
          else
            createOrUpdateSession now
              {| d_name := s_name session;
                 d_displayName := Some (s_displayName session);
                 d_status := "WORKING";
                 d_provider := QUEPASA;
                 d_config := None;
                 d_me := Some {| me_id := Js.orElse (srv_wid server)
                                            (Js.orElse (srv_number server) "unknown");
                                 me_pushName := Js.orElse (srv_name server) "Quepasa";
                                 me_lid := None; me_jid := None |};
                 d_qr := None; d_qrExpiresAt := None;
                 d_assignedWorker := None;
                 d_tenantId := s_tenantId session;
                 d_quepasaToken := Some token;
                 d_interactiveCampaignEnabled := None;
                 d_webhookSecret := None |} >>
            registerWebhook (s_name session) token
      | _, _ => adoptReadyServer session rest
      end
  end.

(** The branch of a [400] from [/health]: the token is unknown to
    Quepasa. *)
Definition syncQuepasaUnknownToken (url login : string) (session : Session)
  : M unit :=
  if String.eqb (s_status session) "SCAN_QR_CODE" then
    tryCatch
      (let password := Js.orElse (quepasaPassword quepasaConfig) EmptyString in
       let! listResponse :=
         fetch (QuepasaHealthUser url login password)
               (quepasaHealthUser R url login password) in
       match listResponse with
       | OkJson listData =>
           match l_success listData, l_items listData with
           | true, Some items => adoptReadyServer session items
           | _, _ => ret tt
           end
       | _ => ret tt
       end)
      (fun _ => ret tt)
  else ret tt.

Definition quepasaMe (d : QuepasaStatus) : option Me :=
  match Js.orNull (q_number d), Js.orNull (q_wid d), Js.orNull (q_id d) with
  | None, None, None => None
  | number, wid, i =>
      Some {| me_id := default (default (default EmptyString i) wid) number;
              me_pushName := Js.orElse (q_pushName d) (Js.orElse (q_name d) "Quepasa");
              me_lid := None; me_jid := None |}
  end.

(** The branch of an [ok] answer from [/health]. *)
Definition syncQuepasaStatus (session : Session) (sessionToken : string)
    (statusData : QuepasaStatus) : M unit :=
  let mappedStatus := mapQuepasaStatus (q_success statusData) (q_status statusData) in
  let isNewlyConnected :=
    (String.eqb mappedStatus "WORKING"
     && negb (String.eqb (s_status session) "WORKING"))%bool in
  createOrUpdateSession now
    {| d_name := s_name session;
       d_displayName := None;
       d_status := mappedStatus;
       d_provider := QUEPASA;
       d_config := None;
       d_me := quepasaMe statusData;
       d_qr := None; d_qrExpiresAt := None;
       d_assignedWorker := None;
       d_tenantId := Js.orNull (s_tenantId session);
       d_quepasaToken := Some sessionToken;
       d_interactiveCampaignEnabled := None;
       d_webhookSecret := None |} >>
  if isNewlyConnected then registerWebhook (s_name session) sessionToken
  else ret tt.

(** One iteration of the Quepasa loop, with its [try]/[catch]. *)
Definition syncQuepasaOne (url login : string) (session : Session) : M unit :=
  tryCatch
    match Js.orNull (s_quepasaToken session) with
    | None => ret tt
    | Some sessionToken =>
        let! statusResponse :=
          fetch (QuepasaHealthToken url sessionToken)
                (quepasaHealthToken R url sessionToken) in
        match statusResponse with
        | Status c _ =>
            if c =? 400 then syncQuepasaUnknownToken url login session
            else ret tt
        | OkJson statusData => syncQuepasaStatus session sessionToken statusData
        | FetchThrows _ => ret tt
        end
    end
    (fun _ => ret tt).

(** One iteration of the Quepasa loop of the route's other variant, which
    asks [/v3/bot/:name/status] under the gateway's key. *)
Definition syncQuepasaByBotStatus (session : Session) : M unit :=
  tryCatch
    (let! quepasaStatus :=
       fetch (QuepasaBotStatus (s_name session))
             (quepasaBotStatus R (s_name session)) in
     match quepasaStatus with
     | OkJson isConnected =>
         createOrUpdateSession now
           {| d_name := s_name session;
              d_displayName := Some (s_displayName session);
              d_status := if isConnected then "WORKING" else "STOPPED";
              d_provider := QUEPASA;
              d_config := None; d_me := None; d_qr := None;
              d_qrExpiresAt := None; d_assignedWorker := None;
              d_tenantId := Js.orNull (s_tenantId session);
              d_quepasaToken := None;
              d_interactiveCampaignEnabled := None;
              d_webhookSecret := None |}
     | _ => ret tt
     end)
    (fun _ => ret tt).

Definition syncQuepasa (tenant : option string) : M unit :=
  tryCatch
    (let! quepasaSessions := getAllSessions tenant in
     match Js.orNull (quepasaUrl quepasaConfig),
           Js.orNull (quepasaLogin quepasaConfig) with
     | Some url, Some login =>
         forEach (List.filter (hasProvider QUEPASA) quepasaSessions)
                 (syncQuepasaOne url login)
     | _, _ => ret tt
     end)
    (fun _ => ret tt).

(** [getEvolutionCredentialsForSession(sessionName)] *)
Definition getEvolutionCredentialsForSession (n : string)
  : M (option (string * string)) :=
  let! reg := readDb in
  ret (match reg !! n ≫= config with
       | Some c =>
           match Js.orNull (evolutionUrl c), Js.orNull (evolutionApiKey c) with
           | Some url, Some apiKey => Some (url, apiKey)
           | _, _ => None
           end
       | None => None
       end).

(** [meData] of the Evolution loop. *)
Definition evolutionMe (mappedStatus : JsValue) (info : option EvolutionInfo)
  : option Me :=
  match mappedStatus, info with
  | JsString st, Some evolutionData =>
      if String.eqb st "WORKING" then
        match Js.orNull (ownerJid evolutionData), Js.orNull (owner evolutionData) with
        | None, None => None
        | a, b =>
            let jid := default (default EmptyString b) a in
            Some {| me_id := jid;
                    me_pushName := Js.orElse (profileName evolutionData)
                                             "Usuário WhatsApp";
                    me_lid := None;
                    me_jid := Some jid |}
        end
      else None
  | _, _ => None
  end.

(** The write that ends an iteration of the Evolution loop. *)
Definition storeEvolutionStatus (session : Session) (mappedStatus : JsValue)
    (info : option EvolutionInfo) : M unit :=
  match isInternalStatus mappedStatus with
  | Some st =>
      createOrUpdateSession now
        {| d_name := s_name session;
           d_displayName := Some (s_displayName session);
           d_status := st;
           d_provider := EVOLUTION;
           d_config := None;
           d_me := evolutionMe mappedStatus info;
           d_qr := Js.orNull (s_qr session);
           d_qrExpiresAt := s_qrExpiresAt session;
           d_assignedWorker := None;
           d_tenantId := Js.orNull (s_tenantId session);
           d_quepasaToken := None;
           d_interactiveCampaignEnabled := None;
           d_webhookSecret := None |}
  | None => ret tt
  end.

(** The status of an imported instance, read with its own credentials:
    a failed read is taken for [STOPPED]. *)
Definition customEvolutionStatus (url apiKey n : string) : M JsValue :=
  tryCatch
    (let! stateRes :=
       fetch (EvolutionConnectionState url apiKey n)
             (evolutionConnectionState R url apiKey n) in
     match stateRes with
     | OkJson state => ret (mapEvolutionState state)
     | _ => ret (JsString "STOPPED")
     end)
    (fun _ => ret (JsString "STOPPED")).

Definition customEvolutionInfo (url apiKey n : string) : M (option EvolutionInfo) :=
  tryCatch
    (let! infoRes :=
       fetch (EvolutionFetchInstances url apiKey n)
             (evolutionFetchInstances R url apiKey n) in
     match infoRes with
     | OkJson info => ret info
     | _ => ret None
     end)
    (fun _ => ret None).

(** One iteration of the Evolution loop, with its [try]/[catch]. *)
Definition syncEvolutionOne (session : Session) : M unit :=
  tryCatch
    (let! customCreds := getEvolutionCredentialsForSession (s_name session) in
     match customCreds with
     | Some (url, apiKey) =>
         let! mappedStatus := customEvolutionStatus url apiKey (s_name session) in
         let! instanceInfo := customEvolutionInfo url apiKey (s_name session) in
         storeEvolutionStatus session mappedStatus instanceInfo
     | None =>
         let! mappedStatus :=
           remote (EvolutionGetInstanceStatus (s_name session))
                  (evolutionGetInstanceStatus R (s_name session)) in
         let! instanceInfo :=
           tryCatch (remote (EvolutionGetInstanceInfo (s_name session))
                            (evolutionGetInstanceInfo R (s_name session)))
                    (fun _ => ret None) in
         storeEvolutionStatus session (JsString mappedStatus) instanceInfo
     end)
    (fun _ => ret tt).

Definition syncEvolution (tenant : option string) : M unit :=
  tryCatch
    (let! allSessions := getAllSessions tenant in
     forEach (List.filter (hasProvider EVOLUTION) allSessions) syncEvolutionOne)
    (fun _ => ret tt).

(** The route: the three loops, then the list read back. *)
Definition getSessionsRoute (req : Request) : M Response :=
  tryCatch
    (let tenant := reqTenantId req in
     syncWaha tenant >>
     syncQuepasa tenant >>
     syncEvolution tenant >>
     let! updatedSessions := getAllSessions tenant in
     respond 200 (SessionsBody updatedSessions))
    (fun _ => respond 500 (ErrorBody "Erro ao listar sessões WhatsApp")).

End BatchSync.

(** ** The quota gate: [quotaMiddleware] *)

Inductive Resource := users | contacts | campaigns | connections.
Inductive Action := create | update.

Record QuotaCheck := {
  resource : Resource;
  action : Action
}.

(** A row of [tenantQuota] with the counts of its tenant's other tables;
    the count of [whatsappSessions] is taken from the registry. *)
Record TenantQuota := {
  maxUsers : Z;
  maxContacts : Z;
  maxCampaigns : Z;
  maxConnections : Z;
  countUsers : Z;
  countContacts : Z;
  countCampaigns : Z
}.

(** [tenant._count.whatsappSessions] *)
Definition connectionCount (t : string) (reg : Registry) : Z :=
  Z.of_nat (length (List.filter (fun kr => bool_decide (tenantId kr.2 = Some t))
                                (map_to_list reg))).

(** What a middleware does: hand over to the next handler, or answer. *)
Inductive Gate :=
| Next
| Answer (r : Response).

Definition resourceName (r : Resource) : string :=
  match r with
  | users => "usuários"
  | contacts => "contatos"
  | campaigns => "campanhas"
  | connections => "conexões WhatsApp"
  end.

(** The message of a refusal at the cap. *)
Definition quotaMessage (r : Resource) (currentCount maxAllowed : Z) : string :=
  "Limite de " ++ resourceName r ++ " atingido (" ++ Js.decimal currentCount ++ "/"
  ++ Js.decimal maxAllowed
  ++ "). Faça upgrade do seu plano para continuar expandindo.".

Section Quota.

Variable tenantQuota : string -> option TenantQuota.

Definition quotaMiddleware (check : QuotaCheck) (req : Request) : M Gate :=
  tryCatch
    (if isSuperadmin req then ret Next
     else match Js.orNull (reqTenantId req) with
          | None =>
              ret (Answer {| code := 403;
                             body := ErrorBody "Acesso negado. Tenant não identificado." |})
          | Some t =>
              match tenantQuota t with
              | None =>
                  ret (Answer {| code := 403;
                                 body := ErrorBody
                                   "Configuração de quotas não encontrada para este tenant." |})
              | Some q =>
                  let! reg := readDb in
                  let '(currentCount, maxAllowed) :=
                    match resource check with
                    | users => (countUsers q, maxUsers q)
                    | contacts => (countContacts q, maxContacts q)
                    | campaigns => (countCampaigns q, maxCampaigns q)
                    | connections => (connectionCount t reg, maxConnections q)
                    end in
                  match action check with
                  | create =>
                      if maxAllowed <=? currentCount then
                        ret (Answer {| code := 403;
                                       body := QuotaBody
                                         (quotaMessage (resource check) currentCount
                                                       maxAllowed)
                                         currentCount maxAllowed |})
                      else ret Next
                  | update => ret Next
                  end
              end
          end)
    (fun _ => ret (Answer {| code := 500;
                             body := ErrorBody "Erro interno ao verificar quotas" |})).

Definition checkConnectionQuota : Request -> M Gate :=
  quotaMiddleware {| resource := connections; action := create |}.

(** [router.post(path, ..., checkConnectionQuota, handler)] *)
Definition guarded (handler : Request -> M Response) (req : Request) : M Response :=
  let! gate := checkConnectionQuota req in
  match gate with
  | Next => handler req
  | Answer r => ret r
  end.

End Quota.

(** ** [POST /sessions]: creation *)

Definition parseProvider (p : string) : option Provider :=
  if String.eqb p "WAHA" then Some WAHA
  else if String.eqb p "EVOLUTION" then Some EVOLUTION
  else if String.eqb p "QUEPASA" then Some QUEPASA
  else None.

(** [`${name.trim()}_${tenantId.substring(0, 8)}`] *)
Definition realNameOf (n tenant : string) : string :=
  Js.trim n ++ "_" ++ Js.substring0 8 tenant.

(** The tenant a creation is for: a SUPERADMIN may name it in the body. *)
Definition creationTenant (req : Request) : option string :=
  if isSuperadmin req
  then match Js.orNull (bodyTenantId req) with
       | Some t => Some t
       | None => reqTenantId req
       end
  else reqTenantId req.

(** The row of [prisma.whatsAppSession.create({ data })] *)
Definition newRow (now : Z) (display st : string) (p : Provider) (tenant : string)
    (token : option string) (interactive : bool) (secret : option string) : Row :=
  {| displayName := Some display; status := st; provider := Some p;
     config := None; meId := None; mePushName := None; meLid := None;
     meJid := None; qr := None; qrExpiresAt := None; assignedWorker := None;
     tenantId := Some tenant; quepasaToken := token;
     interactiveCampaignEnabled := interactive; webhookSecret := secret;
     criadoEm := now; atualizadoEm := now |}.

Section Creation.

Variable R : Remote.
Variable now : Z.
Variable freshSecret : string.  (* [generateWebhookSecret()] *)
Variable freshToken : string.   (* [generateQuepasaToken()] *)

(** The data of the write that ends an Evolution or WAHA creation. *)
Definition createdData (realName display : string) (p : Provider) (tenant : string)
    (qrCode : option string) (expires : option Z) (interactive : bool)
    (secret : option string) : WhatsAppSessionData :=
  {| d_name := realName; d_displayName := Some display;
     d_status := "SCAN_QR_CODE"; d_provider := p; d_config := None;
     d_me := None; d_qr := qrCode; d_qrExpiresAt := expires;
     d_assignedWorker := None; d_tenantId := Some tenant;
     d_quepasaToken := None;
     d_interactiveCampaignEnabled := Some interactive;
     d_webhookSecret := secret |}.

(** The QR code of [createInstance]'s answer, as a data URI. *)
Definition asDataUri (base64 : string) : string :=
  if Js.startsWith "data:image/" base64 then base64
  else "data:image/png;base64," ++ base64.

(** The handler, past its duplicate check. *)
Definition createFor (p : Provider) (realName display tenant : string)
    (interactive : bool) : M Response :=
  let secret := if interactive then Some freshSecret else None in
  let webhook :=
    match interactive, Js.orNull secret with
    | true, Some sec => Some (webhookUrl realName sec)
    | _, _ => None
    end in
  match p with
  | EVOLUTION =>
      writeDb (insert realName
                 (newRow now display "SCAN_QR_CODE" EVOLUTION tenant None
                         interactive secret)) >>
      let! result := remote (EvolutionCreateInstance realName webhook)
                            (evolutionCreateInstance R realName webhook) in
      let qrCode := asDataUri <$> Js.orNull result in
      let expires := match qrCode with Some _ => Some (now + qrTtl) | None => None end in
      createOrUpdateSession now
        (createdData realName display EVOLUTION tenant qrCode expires
                     interactive secret) >>
      respond 200 (CreatedEvolution result)
  | QUEPASA =>
      writeDb (insert realName
                 (newRow now display "STOPPED" QUEPASA tenant (Some freshToken)
                         interactive secret)) >>
      respond 200 (CreatedQuepasa realName "STOPPED" freshToken webhook)
  | WAHA =>
      writeDb (insert realName
                 (newRow now display "SCAN_QR_CODE" WAHA tenant None
                         interactive secret)) >>
      let! result := wahaCreateSession R now realName webhook in
      createOrUpdateSession now
        (createdData realName display WAHA tenant None None interactive secret) >>
      respond 200 (CreatedWaha result)
  end.

(** [provider = 'WAHA'] in the destructuring of the body, then the test
    [['WAHA', 'EVOLUTION', 'QUEPASA'].includes(provider)]: the default
    stands in for [undefined] only. *)
Definition requestedProvider (req : Request) : option Provider :=
  default (Some "WAHA") (bodyProvider req) ≫= parseProvider.

(** The handler of [POST /sessions]. *)
Definition createSessionHandler (req : Request) : M Response :=
  tryCatch
    (match Js.orNull (bodyName req) with
     | None => respond 400 (ErrorBody "Nome da sessão é obrigatório")
     | Some n =>
         match requestedProvider req with
         | None => respond 400 (ErrorBody "Provedor deve ser WAHA, EVOLUTION ou QUEPASA")
         | Some p =>
             match Js.orNull (creationTenant req) with
             | None => respond 400 (ErrorBody "TenantId é obrigatório")
             | Some tenant =>
                 let display := Js.trim n in
                 let realName := realNameOf n tenant in
                 let! reg := readDb in
                 match reg !! realName with
                 | Some _ =>
                     respond 409 (ErrorBody "Já existe uma conexão com este nome")
                 | None =>
                     createFor p realName display tenant (bodyInteractive req)
                 end
             end
         end
     end)
    (fun message => respond 500 (ErrorBody message)).

(** The route: the quota gate, then the handler. *)
Definition postSessionsRoute (tenantQuota : string -> option TenantQuota)
  : Request -> M Response :=
  guarded tenantQuota createSessionHandler.

End Creation.

(** ** [GET /sessions/:sessionName/auth/qr]: the pairing artifact *)

(** [s.qr && s.qrExpiresAt && s.qrExpiresAt > new Date()]: the test of
    the route, of its WAHA fallback and of the client's [openQRModal]. *)
Definition qrStillValid (now : Z) (s : Session) : bool :=
  match Js.orNull (s_qr s), s_qrExpiresAt s with
  | Some _, Some expiresAt => now <? expiresAt
  | _, _ => false
  end.








Section Pairing.

Variable R : Remote.
Variable quepasaConfig : QuepasaConfig.
Variable now : Z.
Variable freshToken : string.  (* [generateQuepasaToken()] *)

(** The data of the write that stores a fresh artifact. *)
Definition pairingData (n : string) (p : Provider) (qrCode token : option string)
    (tenant : option string) : WhatsAppSessionData :=
  {| d_name := n; d_displayName := None; d_status := "SCAN_QR_CODE";
     d_provider := p; d_config := None; d_me := None; d_qr := qrCode;
     d_qrExpiresAt := Some (now + qrTtl); d_assignedWorker := None;
     d_tenantId := tenant; d_quepasaToken := token;
     d_interactiveCampaignEnabled := None; d_webhookSecret := None |}.

Definition evolutionQr (sessionData' : Session) : M Response :=
  let n := s_name sessionData' in
  tryCatch
    (let! qrCodeData := remote (EvolutionGetQRCode n) (evolutionGetQRCode R n) in
     createOrUpdateSession now
       (pairingData n EVOLUTION qrCodeData None (s_tenantId sessionData')) >>
     respond 200 (QrBody qrCodeData (Some (now + qrTtl)) (Some "SCAN_QR_CODE")
                         (Some EVOLUTION) "QR code gerado via Evolution API"))
    (fun message =>
       respond 500 (ErrorDetails "Erro ao obter QR Code da Evolution API" message)).

Definition quepasaQr (sessionData' : Session) : M Response :=
  let n := s_name sessionData' in
  tryCatch
    (match Js.orNull (quepasaUrl quepasaConfig),
           Js.orNull (quepasaLogin quepasaConfig) with
     | Some url, Some login =>
         let! sessionToken :=
           match Js.orNull (s_quepasaToken sessionData') with
           | Some token => ret token
           | None =>
               createOrUpdateSession now
                 {| d_name := n; d_displayName := None;
                    d_status := s_status sessionData'; d_provider := QUEPASA;
                    d_config := None; d_me := None; d_qr := None;
                    d_qrExpiresAt := None; d_assignedWorker := None;
                    d_tenantId := s_tenantId sessionData';
                    d_quepasaToken := Some freshToken;
                    d_interactiveCampaignEnabled := None;
                    d_webhookSecret := None |} >>
               ret freshToken
           end in
         let! qrResponse := fetch (QuepasaScan url login sessionToken)
                                  (quepasaScan R url login sessionToken) in
         match qrResponse with
         | OkJson base64Image =>
             let qrBase64 := "data:image/png;base64," ++ base64Image in
             createOrUpdateSession now
               (pairingData n QUEPASA (Some qrBase64) (Some sessionToken)
                            (s_tenantId sessionData')) >>
             respond 200 (QrBody (Some qrBase64) (Some (now + qrTtl))
                                 (Some "SCAN_QR_CODE") (Some QUEPASA)
                                 "QR code gerado via Quepasa API")
         | Status c statusText =>
             throw ("Erro ao gerar QR Code Quepasa: " ++ Js.decimal c ++ " "
                    ++ statusText)
         | FetchThrows message => throw message
         end
     | _, _ => throw "Configure as credenciais Quepasa nas configurações do sistema"
     end)
    (fun message =>
       respond 500 (ErrorDetails "Erro ao obter QR Code da Quepasa API" message)).

Definition wahaQr (sessionData' : Session) : M Response :=
  let n := s_name sessionData' in
  let awaiting := String.eqb (s_status sessionData') "SCAN_QR_CODE" in
  let! sessionStatus :=
    tryCatch
      (let! w := remote (WahaGetSession n) (wahaGetSession R n) in
       ret (inl (w_status w)))
      (fun message =>
         if awaiting then ret (inl (Some "SCAN_QR_CODE"))
         else ret (inr message)) in
  match sessionStatus with
  | inr message =>
      respond 400
        (ErrorDetails
           "Não foi possível acessar a API WAHA para verificar o status da sessão"
           message)
  | inl wahaStatus =>
      let effectiveStatus := if awaiting then Some "SCAN_QR_CODE" else wahaStatus in
      if bool_decide (effectiveStatus = Some "SCAN_QR_CODE") then
        tryCatch
          (let! response := fetch (WahaQrImage n) (wahaQrImage R n) in
           match response with
           | OkJson base64Image =>
               let qrBase64 := "data:image/png;base64," ++ base64Image in
               createOrUpdateSession now
                 (pairingData n WAHA (Some qrBase64) None (s_tenantId sessionData')) >>
               respond 200 (QrBody (Some qrBase64) (Some (now + qrTtl))
                                   (Some "SCAN_QR_CODE") (Some WAHA)
                                   "QR code obtido da WAHA API e convertido para base64")
           | Status c statusText =>
               throw ("Erro ao buscar QR da WAHA: " ++ Js.decimal c ++ " "
                      ++ statusText)
           | FetchThrows message => throw message
           end)
          (fun message =>
             respond 500 (ErrorDetails "Erro ao obter QR Code da WAHA API" message))
      else if bool_decide (effectiveStatus = Some "WORKING") then
        respond 400 (ErrorStatus "Sessão já está conectada" effectiveStatus)
      else if qrStillValid now sessionData' then
        respond 200 (QrBody (s_qr sessionData') (s_qrExpiresAt sessionData')
                            effectiveStatus None
                            "QR code retornado do banco (sessão não disponível)")
      else
        respond 400 (ErrorStatus "Sessão não está disponível para QR code"
                                 effectiveStatus)
  end.

(** The provider's branch: a new artifact is asked for. *)
Definition issueFor (s : Session) : M Response :=
  match default WAHA (s_provider s) with
  | EVOLUTION => evolutionQr s
  | QUEPASA => quepasaQr s
  | WAHA => wahaQr s
  end.

(** The handler of the route. *)
Definition getQrRoute (req : Request) : M Response :=
  let n := sessionName req in
  let tenant := scopeOf req in
  tryCatch
    (let! saved :=
       tryCatch
         (let! savedSession := getSession n tenant in
          if qrStillValid now savedSession then
            ret (Some {| code := 200;
                         body := QrBody (s_qr savedSession)
                                        (s_qrExpiresAt savedSession)
                                        (Some (s_status savedSession)) None
                                        "QR code retornado do banco de dados" |})
          else ret None)
         (fun _ => ret (Some {| code := 404;
                                body := ErrorBody "Sessão não encontrada" |})) in
     match saved with
     | Some response => ret response
     | None =>
         let! found := tryCatch (let! s := getSession n tenant in ret (Some s))
                                (fun _ => ret None) in
         match found with
         | None => respond 404 (ErrorBody "Sessão não encontrada")
         | Some sessionData' => issueFor sessionData'
         end
     end)
    (fun _ => respond 500 (ErrorBody "Erro ao obter QR Code")).

End Pairing.

(** ** SHA-256 and HMAC (FIPS 180-4, RFC 2104), as [crypto.createHmac] *)

Module Sha256.

Local Open Scope list_scope.
Local Open Scope N_scope.

Definition w32 (x : N) : N := x mod 4294967296.
Definition add32 (a b : N) : N := w32 (a + b).
Definition rotr (n x : N) : N :=
  N.lor (N.shiftr x n) (w32 (N.shiftl x (32 - n))).
Definition not32 (x : N) : N := N.lxor x 4294967295.

Definition ch (x y z : N) : N := N.lxor (N.land x y) (N.land (not32 x) z).
Definition maj (x y z : N) : N :=
  N.lxor (N.lxor (N.land x y) (N.land x z)) (N.land y z).
Definition bsig0 (x : N) : N := N.lxor (N.lxor (rotr 2 x) (rotr 13 x)) (rotr 22 x).
Definition bsig1 (x : N) : N := N.lxor (N.lxor (rotr 6 x) (rotr 11 x)) (rotr 25 x).
Definition ssig0 (x : N) : N := N.lxor (N.lxor (rotr 7 x) (rotr 18 x)) (N.shiftr x 3).
Definition ssig1 (x : N) : N := N.lxor (N.lxor (rotr 17 x) (rotr 19 x)) (N.shiftr x 10).

(** The integer cube root, found bit by bit from bit [bits - 1] down. *)
Fixpoint icbrt (bits : nat) (n r : N) : N :=
  match bits with
  | O => r
  | S b =>
      let r' := r + N.shiftl 1 (N.of_nat b) in
      icbrt b n (if r' * r' * r' <=? n then r' else r)
  end.

Definition isPrime (k : N) : bool :=
  forallb (fun d => negb (k mod N.of_nat d =? 0)) (seq 2 (N.to_nat k - 2)).

(** The first [count] primes. *)
Definition firstPrimes (count : nat) : list N :=
  firstn count (List.filter isPrime (map N.of_nat (seq 2 320))).

(** The round constants: the first 32 bits of the fractional parts of
    the cube roots of the first 64 primes. *)
Definition K : list N :=
  Eval vm_compute in
    map (fun p => w32 (icbrt 40 (p * N.shiftl 1 96) 0)) (firstPrimes 64).

(** The eight working words. *)
Record State := {
  ha : N; hb : N; hc : N; hd : N; he : N; hf : N; hg : N; hh : N
}.

(** The first 32 bits of the fractional part of the square root of the
    [i]-th prime. *)
Definition sqrtFraction (i : nat) : N :=
  w32 (N.sqrt (nth i (firstPrimes 8) 0 * N.shiftl 1 64)).

(** The initial hash value. *)
Definition initial : State :=
  Eval vm_compute in
    {| ha := sqrtFraction 0; hb := sqrtFraction 1; hc := sqrtFraction 2;
       hd := sqrtFraction 3; he := sqrtFraction 4; hf := sqrtFraction 5;
       hg := sqrtFraction 6; hh := sqrtFraction 7 |}.

Fixpoint words (bytes : list N) : list N :=
  match bytes with
  | a :: b :: c :: d :: rest =>
      (a * 16777216 + b * 65536 + c * 256 + d) :: words rest
  | _ => []
  end.

(** The message schedule, newest word first. *)
Fixpoint extend (n : nat) (rev_w : list N) : list N :=
  match n with
  | O => rev_w
  | S n' =>
      let at_ i := nth i rev_w 0 in
      extend n' (add32 (add32 (ssig1 (at_ 1%nat)) (at_ 6%nat))
                       (add32 (ssig0 (at_ 14%nat)) (at_ 15%nat)) :: rev_w)
  end.

Definition schedule (block : list N) : list N :=
  rev (extend 48 (rev (words block))).

Definition round (s : State) (kw : N * N) : State :=
  let t1 := add32 (add32 (add32 (hh s) (bsig1 (he s)))
                         (add32 (ch (he s) (hf s) (hg s)) kw.1)) kw.2 in
  let t2 := add32 (bsig0 (ha s)) (maj (ha s) (hb s) (hc s)) in
  {| ha := add32 t1 t2; hb := ha s; hc := hb s; hd := hc s;
     he := add32 (hd s) t1; hf := he s; hg := hf s; hh := hg s |}.

Definition compress (s : State) (block : list N) : State :=
  let r := fold_left round (combine K (schedule block)) s in
  {| ha := add32 (ha s) (ha r); hb := add32 (hb s) (hb r);
     hc := add32 (hc s) (hc r); hd := add32 (hd s) (hd r);
     he := add32 (he s) (he r); hf := add32 (hf s) (hf r);
     hg := add32 (hg s) (hg r); hh := add32 (hh s) (hh r) |}.

Definition be32 (x : N) : list N :=
  [(x / 16777216) mod 256; (x / 65536) mod 256; (x / 256) mod 256; x mod 256].

(** Padding: a [0x80] byte, zeros, and the bit length on eight bytes. *)
Definition pad (msg : list N) : list N :=
  let len := N.of_nat (length msg) in
  let zeros := N.to_nat ((119 - len mod 64) mod 64) in
  msg ++ [128] ++ repeat 0 zeros
      ++ be32 ((len * 8) / 4294967296) ++ be32 (w32 (len * 8)).

Fixpoint blocks (n : nat) (s : State) (bytes : list N) : State :=
  match n with
  | O => s
  | S n' => blocks n' (compress s (firstn 64 bytes)) (skipn 64 bytes)
  end.

Definition digest (s : State) : list N :=
  be32 (ha s) ++ be32 (hb s) ++ be32 (hc s) ++ be32 (hd s)
  ++ be32 (he s) ++ be32 (hf s) ++ be32 (hg s) ++ be32 (hh s).

Definition sha256 (msg : list N) : list N :=
  let padded := pad msg in
  digest (blocks (Nat.div (length padded) 64) initial padded).

Definition xorWith (c : N) (key : list N) : list N := map (N.lxor c) key.

(** [HMAC(key, msg)], block size 64. *)
Definition hmac (key msg : list N) : list N :=
  let k0 := if (64 <? N.of_nat (length key)) then sha256 key else key in
  let k := k0 ++ repeat 0 (64 - length k0)%nat in
  sha256 (xorWith 0x5c k ++ sha256 (xorWith 0x36 k ++ msg)).

Fixpoint bytesOf (s : string) : list N :=
  match s with
  | EmptyString => []
  | String c r => N_of_ascii c :: bytesOf r
  end.

End Sha256.

(** ** The webhook verifier: [connectionService.validateHmacSignature] *)

Module Hex.

Local Open Scope list_scope.
Local Open Scope N_scope.

Definition digitChar (d : N) : ascii :=
  if d <? 10 then ascii_of_N (48 + d) else ascii_of_N (87 + d).

(** [digest('hex')]: two lower-case digits per byte. *)
Fixpoint encode (bytes : list N) : string :=
  match bytes with
  | [] => EmptyString
  | b :: rest => String (digitChar (b / 16)) (String (digitChar (b mod 16)) (encode rest))
  end.

(** The value of a hexadecimal digit, in either case. *)
Definition unhex (c : ascii) : option N :=
  let n := N_of_ascii c in
  if (48 <=? n) && (n <=? 57) then Some (n - 48)
  else if (97 <=? n) && (n <=? 102) then Some (n - 87)
  else if (65 <=? n) && (n <=? 70) then Some (n - 55)
  else None.

(** [Buffer.from(s, 'hex')]: decodes pairs of digits and stops at the
    first pair that is not hexadecimal; an odd last character is
    dropped. *)
Fixpoint decode (s : string) : list N :=
  match s with
  | String a (String b rest) =>
      match unhex a, unhex b with
      | Some x, Some y => (x * 16 + y) :: decode rest
      | _, _ => []
      end
  | _ => []
  end.

End Hex.

(** [crypto.timingSafeEqual(a, b)]: throws a [RangeError] on buffers of
    different lengths. *)
Definition timingSafeEqual (a b : list N) : option bool :=
  if Nat.eqb (length a) (length b) then Some (bool_decide (a = b)) else None.

(** [validateHmacSignature(signature, body, secret)]; a header that is
    absent makes [signature.replace] throw, and the [catch] answers
    [false]. *)
Definition validateHmacSignature (signature : option string) (body secret : string)
  : bool :=
  match signature with
  | None => false
  | Some sig =>
      let expectedSignature :=
        Hex.encode (Sha256.hmac (Sha256.bytesOf secret) (Sha256.bytesOf body)) in
      let receivedSignature := Js.removeFirst "sha256=" sig in
      match timingSafeEqual (Hex.decode expectedSignature)
                            (Hex.decode receivedSignature) with
      | Some equal => equal
      | None => false
      end
  end.

(** ** Concurrent sync triggers *)

(** The places where a run of [syncSession] can be suspended: each
    [await] gives the event loop the chance to run another trigger. *)
Inductive Point :=
| AtStart                                            (* nothing done yet *)
| AwaitingRemote                                     (* [wahaRequest] in flight *)
| RemoteAnswered (w : WahaSession)                   (* before [getSession] *)
| ExistingRead (w : WahaSession) (e : option Session)  (* before the upsert *)
| Written                                            (* before the last read *)
| RemoteFailed                                       (* in the [catch] *)
| Finished (result : Outcome Session).

(** A trigger: one call of [syncSession(t_name)]. *)
Record Trigger := {
  t_name : string;
  t_point : Point
}.

Record System := {
  registry : Registry;
  triggers : list Trigger;
  issued : list string   (* the names of the adapter calls made so far *)
}.

Section Interleaving.

Variable R : Remote.
Variable now : Z.

Definition readOutcome (n : string) (reg : Registry) : Outcome Session :=
  match findSession n None reg with
  | Some s => Returned s
  | None => Thrown notFound
  end.

(** One trigger runs up to its next [await]. *)
Definition advance (t : Trigger) (sys : System) : Trigger * System :=
  let n := t_name t in
  let at_ p := {| t_name := n; t_point := p |} in
  match t_point t with
  | AtStart =>
      (at_ AwaitingRemote,
       {| registry := registry sys; triggers := triggers sys;
          issued := issued sys ++ [n] |})
  | AwaitingRemote =>
      match wahaGetSession R n with
      | Returned w => (at_ (RemoteAnswered w), sys)
      | Thrown _ => (at_ RemoteFailed, sys)
      end
  | RemoteAnswered w =>
      (at_ (ExistingRead w (findSession n None (registry sys))), sys)
  | ExistingRead w e =>
      (at_ Written,
       {| registry := upsert now (wahaSessionData w e) (registry sys);
          triggers := triggers sys; issued := issued sys |})
  | Written => (at_ (Finished (readOutcome n (registry sys))), sys)
  | RemoteFailed =>
      (at_ (Finished
              match findSession n None (registry sys) with
              | Some s => Returned s
              | None => Thrown ("Sessão " ++ n ++ " não encontrada")
              end), sys)
  | Finished r => (t, sys)
  end.

(** The event loop resumes the trigger at position [i]. *)
Definition resume (i : nat) (sys : System) : System :=
  match triggers sys !! i with
  | Some t =>
      let '(t', sys') := advance t sys in
      {| registry := registry sys';
         triggers := <[i := t']> (triggers sys');
         issued := issued sys' |}
  | None => sys
  end.

(** A schedule: the positions resumed, in order. *)
Definition runSchedule (schedule : list nat) (sys : System) : System :=
  fold_left (fun s i => resume i s) schedule sys.

End Interleaving.

(** The adapter calls for [n] that are in flight. *)
Definition inFlight (n : string) (sys : System) : nat :=
  length (List.filter
            (fun t => (String.eqb (t_name t) n
                       && match t_point t with AwaitingRemote => true | _ => false end)%bool)
            (triggers sys)).

(** The number of times [n] occurs in a list of names. *)
Definition occurrences (n : string) (names : list string) : nat :=
  length (List.filter (String.eqb n) names).

(** The triggers for [n] that have made their adapter call. *)
Definition started (n : string) (sys : System) : nat :=
  length (List.filter
            (fun t => (String.eqb (t_name t) n
                       && match t_point t with AtStart => false | _ => true end)%bool)
            (triggers sys)).

(** Each call issued belongs to a trigger that has started, and the
    other way round. *)
Definition callsMatchTriggers (sys : System) : Prop :=
  forall n, occurrences n (issued sys) = started n sys.

Definition isFinished (t : Trigger) : bool :=
  match t_point t with Finished _ => true | _ => false end.

(** [names] triggered at once, none started. *)
Definition triggered (names : list string) (reg : Registry) : System :=
  {| registry := reg;
     triggers := (fun n => {| t_name := n; t_point := AtStart |}) <$> names;
     issued := [] |}.

(** ** Sample data *)

Module Sample.

(** A provider side on which every call fails. *)
Definition unreachable : Remote :=
  {| wahaGetSession := fun _ => Thrown "timeout";
     wahaPostSession := fun _ _ => Thrown "timeout";
     wahaQrImage := fun _ => FetchThrows "timeout";
     evolutionConnectionState := fun _ _ _ => FetchThrows "timeout";
     evolutionFetchInstances := fun _ _ _ => FetchThrows "timeout";
     evolutionGetInstanceStatus := fun _ => Thrown "timeout";
     evolutionGetInstanceInfo := fun _ => Thrown "timeout";
     evolutionGetQRCode := fun _ => Thrown "timeout";
     evolutionCreateInstance := fun _ _ => Thrown "timeout";
     quepasaBotStatus := fun _ => FetchThrows "timeout";
     quepasaHealthToken := fun _ _ => FetchThrows "timeout";
     quepasaHealthUser := fun _ _ _ => FetchThrows "timeout";
     quepasaScan := fun _ _ _ => FetchThrows "timeout";
     quepasaConfigureWebhook := fun _ _ => Thrown "timeout" |}.

(** A provider side that answers: WAHA reports every session as
    [WORKING], Evolution hands out the QR code ["NEW"]. *)
Definition responsive : Remote :=
  {| wahaGetSession := fun n =>
       Returned {| w_name := n; w_status := Some "WORKING"; w_config := None;
                   w_me := None; w_assignedWorker := None |};
     wahaPostSession := fun _ _ => Returned "created";
     wahaQrImage := fun _ => OkJson "UE5H";
     evolutionConnectionState := fun _ _ _ => OkJson (Some "open");
     evolutionFetchInstances := fun _ _ _ => OkJson None;
     evolutionGetInstanceStatus := fun _ => Returned "WORKING";
     evolutionGetInstanceInfo := fun _ => Returned None;
     evolutionGetQRCode := fun _ => Returned (Some "NEW");
     evolutionCreateInstance := fun _ _ => Returned (Some "UE5H");
     quepasaBotStatus := fun _ => OkJson true;
     quepasaHealthToken := fun _ _ =>
       OkJson {| q_success := true; q_status := "server status is ready";
                 q_number := None; q_wid := None; q_id := None;
                 q_pushName := None; q_name := None |};
     quepasaHealthUser := fun _ _ _ => Status 500 "Internal Server Error";
     quepasaScan := fun _ _ _ => OkJson "UE5H";
     quepasaConfigureWebhook := fun _ _ => Returned true |}.

Definition quepasa : QuepasaConfig :=
  {| quepasaUrl := Some "http://quepasa"; quepasaLogin := Some "admin";
     quepasaPassword := Some "pw" |}.

(** A stored session of tenant ["T1"]. *)
Definition row (p : Provider) (st : string) : Row :=
  newRow 1000 "sales" st p "T1" None false None.

Definition withToken (token : string) (r : Row) : Row :=
  {| displayName := displayName r; status := status r; provider := provider r;
     config := config r; meId := meId r; mePushName := mePushName r;
     meLid := meLid r; meJid := meJid r; qr := qr r;
     qrExpiresAt := qrExpiresAt r; assignedWorker := assignedWorker r;
     tenantId := tenantId r; quepasaToken := Some token;
     interactiveCampaignEnabled := interactiveCampaignEnabled r;
     webhookSecret := webhookSecret r; criadoEm := criadoEm r;
     atualizadoEm := atualizadoEm r |}.

Definition withQr (code : string) (expiresAt : Z) (r : Row) : Row :=
  {| displayName := displayName r; status := status r; provider := provider r;
     config := config r; meId := meId r; mePushName := mePushName r;
     meLid := meLid r; meJid := meJid r; qr := Some code;
     qrExpiresAt := Some expiresAt; assignedWorker := assignedWorker r;
     tenantId := tenantId r; quepasaToken := quepasaToken r;
     interactiveCampaignEnabled := interactiveCampaignEnabled r;
     webhookSecret := webhookSecret r; criadoEm := criadoEm r;
     atualizadoEm := atualizadoEm r |}.

Definition withConfig (c : Config) (r : Row) : Row :=
  {| displayName := displayName r; status := status r; provider := provider r;
     config := Some c; meId := meId r; mePushName := mePushName r;
     meLid := meLid r; meJid := meJid r; qr := qr r;
     qrExpiresAt := qrExpiresAt r; assignedWorker := assignedWorker r;
     tenantId := tenantId r; quepasaToken := quepasaToken r;
     interactiveCampaignEnabled := interactiveCampaignEnabled r;
     webhookSecret := webhookSecret r; criadoEm := criadoEm r;
     atualizadoEm := atualizadoEm r |}.

Definition withWebhook (secret : string) (r : Row) : Row :=
  {| displayName := displayName r; status := status r; provider := provider r;
     config := config r; meId := meId r; mePushName := mePushName r;
     meLid := meLid r; meJid := meJid r; qr := qr r;
     qrExpiresAt := qrExpiresAt r; assignedWorker := assignedWorker r;
     tenantId := tenantId r; quepasaToken := quepasaToken r;
     interactiveCampaignEnabled := true;
     webhookSecret := Some secret; criadoEm := criadoEm r;
     atualizadoEm := atualizadoEm r |}.

Definition world (reg : Registry) : World := {| db := reg; calls := [] |}.

(** Three sessions of tenant ["T1"], whose cap is three. *)
Definition fullRegistry : Registry :=
  {[ "sales_T1" := row QUEPASA "STOPPED";
     "support_T1" := row WAHA "WORKING";
     "billing_T1" := row EVOLUTION "WORKING" ]}.

(** A connected Quepasa session that holds its provider token. *)
Definition tokenRow : Row := withToken "tok" (row QUEPASA "WORKING").

Definition tokenRegistry : Registry := {[ "sales_T1" := tokenRow ]}.

(** An interactive session with its webhook secret. *)
Definition webhookRegistry : Registry :=
  {[ "sales_T1" := withWebhook "s3cr3t" (row WAHA "STOPPED") ]}.

(** The registry after the first creation of ["sales"]. *)
Definition salesRegistry : Registry := {[ "sales_T1" := row QUEPASA "STOPPED" ]}.

(** A session waiting to be paired, its artifact expiring at 2000. *)
Definition pairingRow : Row := withQr "OLD" 2000 (row EVOLUTION "SCAN_QR_CODE").

Definition pairingRegistry : Registry := {[ "sales_T1" := pairingRow ]}.




(** An imported Evolution instance, connected, and a WAHA session
    waiting to be paired. *)
Definition imported : Row :=
  withConfig {| evolutionUrl := Some "http://evo";
                evolutionApiKey := Some "key"; cfg_rest := "imported" |}
             (withQr "QR" 5000 (row EVOLUTION "WORKING")).

Definition mixedRegistry : Registry :=
  {[ "sales_T1" := imported; "support_T1" := row WAHA "SCAN_QR_CODE" ]}.

(** A request of a user of tenant ["T1"]. *)
Definition request (n : string) : Request :=
  {| role := Some "USER"; reqTenantId := Some "T1"; sessionName := n;
     bodyName := Some "sales"; bodyProvider := Some (Some "QUEPASA");
     bodyInteractive := false; bodyTenantId := None |}.

(** The quota of the scenario: three connections. *)
Definition quota (t : string) : option TenantQuota :=
  if String.eqb t "T1"
  then Some {| maxUsers := 5; maxContacts := 100; maxCampaigns := 10;
               maxConnections := 3; countUsers := 1; countContacts := 0;
               countCampaigns := 0 |}
  else None.

End Sample.

(** ** Vocabularies of the status mappings *)

(** The keys of Evolution's [stateMap]. *)
Definition evolutionVocabulary : list string :=
  ["open"; "connecting"; "close"; "closed"].

Definition evolutionKnows (raw : string) : bool :=
  existsb (String.eqb (Js.toLowerCase raw)) evolutionVocabulary.

(** The words the Quepasa mapping looks for. *)
Definition quepasaVocabulary : list string :=
  ["ready"; "starting"; "qrcode"; "disconnected"; "stopped"].

Definition quepasaKnows (raw : string) : bool :=
  existsb (fun word => Js.includes word (Js.toLowerCase raw)) quepasaVocabulary.

Definition inheritedKey (raw : string) : bool :=
  existsb (String.eqb (Js.toLowerCase raw)) objectPrototypeKeys.

(** * The rest of the engine *)

(** ** The other writers of [WhatsAppSessionService] *)

(** What Prisma throws when the row of an [update] or [delete] is not
    there. *)
Definition recordNotFound : string := "Record to update or delete does not exist.".

Definition notOwned : string := "Sessão não encontrada ou não pertence ao tenant".

(** The guard of [deleteSession] and [updateSessionStatus]: with a truthy
    [tenantId], the session must be found under that tenant. *)
Definition requireOwned (n : string) (tenant : option string) : M unit :=
  if Js.truthy tenant then
    let! reg := readDb in
    match findSession n tenant reg with
    | Some _ => ret tt
    | None => throw notOwned
    end
  else ret tt.

(** [prisma.whatsAppSession.update({ where: { name }, data })], with the
    data as a function of the stored row. *)
Definition updateStored (n : string) (f : Row -> Row) : M unit :=
  let! reg := readDb in
  match reg !! n with
  | Some old => writeDb (insert n (f old))
  | None => throw recordNotFound
  end.

(** [deleteSession(name, tenantId)] *)
Definition deleteSession (n : string) (tenant : option string) : M unit :=
  requireOwned n tenant >>
  let! reg := readDb in
  match reg !! n with
  | Some _ => writeDb (delete n)
  | None => throw recordNotFound
  end.

(** The [additionalData] of [updateSessionStatus]: the fields it reads of
    a [Partial<WhatsAppSessionData>]. *)
Record StatusExtras := {
  x_me : option Me;
  x_qr : option string;
  x_qrExpiresAt : option Z;
  x_assignedWorker : option string;
  x_tenantId : option string
}.

Definition noExtras : StatusExtras :=
  {| x_me := None; x_qr := None; x_qrExpiresAt := None;
     x_assignedWorker := None; x_tenantId := None |}.

(** A column assigned [v] when [v] is defined: Prisma leaves a column
    alone when its value is [undefined]. *)
Definition assigned {A} (v : option A) (old : option A) : option A :=
  match v with
  | Some a => Some a
  | None => old
  end.

(** [updateData] of [updateSessionStatus] applied to the stored row. *)
Definition statusRow (now : Z) (st : string) (extras : StatusExtras) (old : Row) : Row :=
  {| displayName := displayName old;
     status := st;
     provider := provider old;
     config := config old;
     meId := match x_me extras with Some m => Some (me_id m) | None => meId old end;
     mePushName :=
       match x_me extras with Some m => Some (me_pushName m) | None => mePushName old end;
     meLid := match x_me extras with Some m => assigned (me_lid m) (meLid old)
              | None => meLid old end;
     meJid := match x_me extras with Some m => assigned (me_jid m) (meJid old)
              | None => meJid old end;
     qr := assigned (x_qr extras) (qr old);
     qrExpiresAt := assigned (x_qrExpiresAt extras) (qrExpiresAt old);
     assignedWorker := assigned (x_assignedWorker extras) (assignedWorker old);
     tenantId := assigned (x_tenantId extras) (tenantId old);
     quepasaToken := quepasaToken old;
     interactiveCampaignEnabled := interactiveCampaignEnabled old;
     webhookSecret := webhookSecret old;
     criadoEm := criadoEm old;
     atualizadoEm := now |}.

(** [updateSessionStatus(name, status, additionalData, tenantId)] *)
Definition updateSessionStatus (now : Z) (n st : string) (extras : StatusExtras)
    (tenant : option string) : M unit :=
  requireOwned n tenant >> updateStored n (statusRow now st extras).

(** The [additionalFields] of [updateStatusFast].  Its nullable fields
    tell [undefined] ([None]) from [null] ([Some None]). *)
Record FastFields := {
  f_qr : option (option string);
  f_qrExpiresAt : option (option Z);
  f_assignedWorker : option (option string);
  f_quepasaToken : option (option string);
  f_displayName : option string
}.

Definition noFields : FastFields :=
  {| f_qr := None; f_qrExpiresAt := None; f_assignedWorker := None;
     f_quepasaToken := None; f_displayName := None |}.

(** [updateData] of [updateStatusFast] applied to the stored row. *)
Definition fastRow (now : Z) (st : string) (meData : option Me) (fields : FastFields)
    (old : Row) : Row :=
  {| displayName := assigned (f_displayName fields) (displayName old);
     status := st;
     provider := provider old;
     config := config old;
     meId := match meData with Some m => Some (me_id m) | None => meId old end;
     mePushName :=
       match meData with Some m => Some (me_pushName m) | None => mePushName old end;
     meLid := match meData with Some m => Js.orNull (me_lid m) | None => meLid old end;
     meJid := match meData with Some m => Js.orNull (me_jid m) | None => meJid old end;
     qr := default (qr old) (f_qr fields);
     qrExpiresAt := default (qrExpiresAt old) (f_qrExpiresAt fields);
     assignedWorker := default (assignedWorker old) (f_assignedWorker fields);
     tenantId := tenantId old;
     quepasaToken := default (quepasaToken old) (f_quepasaToken fields);
     interactiveCampaignEnabled := interactiveCampaignEnabled old;
     webhookSecret := webhookSecret old;
     criadoEm := criadoEm old;
     atualizadoEm := now |}.

(** [updateStatusFast(name, status, meData, additionalFields)] *)
Definition updateStatusFast (now : Z) (n st : string) (meData : option Me)
    (fields : FastFields) : M unit :=
  updateStored n (fastRow now st meData fields).

(** An element of the [updates] of [batchUpdateStatus]. *)
Record StatusUpdate := {
  u_name : string;
  u_status : string;
  u_me : option Me
}.

(** [u.me?.x || undefined]: the column is written only with a truthy
    value. *)
Definition truthyColumn (m : option Me) (f : Me -> option string)
    (old : option string) : option string :=
  assigned (meColumn m f) old.

Definition batchRow (now : Z) (u : StatusUpdate) (old : Row) : Row :=
  {| displayName := displayName old;
     status := u_status u;
     provider := provider old;
     config := config old;
     meId := truthyColumn (u_me u) (fun m => Some (me_id m)) (meId old);
     mePushName := truthyColumn (u_me u) (fun m => Some (me_pushName m)) (mePushName old);
     meLid := truthyColumn (u_me u) me_lid (meLid old);
     meJid := truthyColumn (u_me u) me_jid (meJid old);
     qr := qr old;
     qrExpiresAt := qrExpiresAt old;
     assignedWorker := assignedWorker old;
     tenantId := tenantId old;
     quepasaToken := quepasaToken old;
     interactiveCampaignEnabled := interactiveCampaignEnabled old;
     webhookSecret := webhookSecret old;
     criadoEm := criadoEm old;
     atualizadoEm := now |}.

(** The operations of the transaction, applied in order; [None] when one
    of them finds no row. *)
Fixpoint applyBatch (now : Z) (updates : list StatusUpdate) (reg : Registry)
  : option Registry :=
  match updates with
  | [] => Some reg
  | u :: rest =>
      match reg !! u_name u with
      | Some old => applyBatch now rest (<[u_name u := batchRow now u old]> reg)
      | None => None
      end
  end.

(** [batchUpdateStatus(updates)]: one transaction, committed whole or
    rolled back. *)
Definition batchUpdateStatus (now : Z) (updates : list StatusUpdate) : M unit :=
  match updates with
  | [] => ret tt
  | _ =>
      let! reg := readDb in
      match applyBatch now updates reg with
      | Some reg' => writeDb (fun _ => reg')
      | None => throw recordNotFound
      end
  end.

(** The rows behind [allSessions], in its order. *)
Definition listedRows (tenant : option string) (reg : Registry) : list (string * Row) :=
  merge_sort newerFirst
    (List.filter (fun kr => matchesTenant tenant kr.2) (map_to_list reg)).

(** The columns no status update touches: ownership, provider, config,
    token, webhook settings and the creation date. *)
Definition keepsIdentity (old new : Row) : Prop :=
  provider new = provider old
  /\ config new = config old
  /\ quepasaToken new = quepasaToken old
  /\ interactiveCampaignEnabled new = interactiveCampaignEnabled old
  /\ webhookSecret new = webhookSecret old
  /\ criadoEm new = criadoEm old.

(** The pairing artifact and the owner are kept as well. *)
Definition keepsPairing (old new : Row) : Prop :=
  qr new = qr old /\ qrExpiresAt new = qrExpiresAt old
  /\ tenantId new = tenantId old /\ displayName new = displayName old.

(** Two status updates for sessions of [Sample.fullRegistry]. *)
Definition sampleBatch : list StatusUpdate :=
  [ {| u_name := "sales_T1"; u_status := "WORKING"; u_me := None |};
    {| u_name := "support_T1"; u_status := "STOPPED"; u_me := None |} ].

(** ** The quota gate, for every resource *)

(** [currentCount] and [maxAllowed] of [quotaMiddleware]. *)
Definition usage (r : Resource) (q : TenantQuota) (t : string) (reg : Registry) : Z * Z :=
  match r with
  | users => (countUsers q, maxUsers q)
  | contacts => (countContacts q, maxContacts q)
  | campaigns => (countCampaigns q, maxCampaigns q)
  | connections => (connectionCount t reg, maxConnections q)
  end.

(** A SUPERADMIN who names a tenant in the body. *)
Definition superadminFor (tenant label : string) : Request :=
  {| role := Some "SUPERADMIN"; reqTenantId := None; sessionName := EmptyString;
     bodyName := Some label; bodyProvider := Some (Some "QUEPASA");
     bodyInteractive := false; bodyTenantId := Some tenant |}.



Definition requestOf (tenant label kind : string) : Request :=
  {| role := Some "USER"; reqTenantId := Some tenant; sessionName := EmptyString;
     bodyName := Some label; bodyProvider := Some (Some kind);
     bodyInteractive := false; bodyTenantId := None |}.


(** The label ["sales"] after a no-break space (U+00A0) and before a line
    separator (U+2028) and a space. *)
Definition paddedLabel : string :=
  Js.bytes [194; 160]%nat ++ "sales" ++ Js.bytes [226; 128; 168; 32]%nat.

(** ** Tokens across the registry *)

(** No Quepasa token is held by two sessions. *)
Definition uniqueTokens (reg : Registry) : Prop :=
  forall n1 n2 r1 r2 token,
    reg !! n1 = Some r1 -> reg !! n2 = Some r2 ->
    quepasaToken r1 = Some token -> quepasaToken r2 = Some token ->
    n1 = n2.

(** Two Quepasa sessions of tenant ["T1"]: ["sales_T1"] is connected
    under the token ["tok"]; ["leads_T1"], created after it, waits to be
    paired under a token that Quepasa no longer knows. *)
Definition waitingRow : Row :=
  Sample.withToken "stale"
    (newRow 1200 "leads" "SCAN_QR_CODE" QUEPASA "T1" None false None).

Definition twoTokens : Registry :=
  {[ "sales_T1" := Sample.tokenRow; "leads_T1" := waitingRow ]}.

(** A Quepasa account with two ready servers, the first under the token
    of ["sales_T1"], the second under a token no session holds; [/health]
    answers 400 to the token ["stale"]. *)
Definition readyServer (token : string) : QuepasaServer :=
  {| srv_status := "Ready"; srv_health := true; srv_token := Some token;
     srv_wid := None; srv_number := Some "5511999990000"; srv_name := None |}.

Definition adopting : Remote :=
  {| wahaGetSession := wahaGetSession Sample.responsive;
     wahaPostSession := wahaPostSession Sample.responsive;
     wahaQrImage := wahaQrImage Sample.responsive;
     evolutionConnectionState := evolutionConnectionState Sample.responsive;
     evolutionFetchInstances := evolutionFetchInstances Sample.responsive;
     evolutionGetInstanceStatus := evolutionGetInstanceStatus Sample.responsive;
     evolutionGetInstanceInfo := evolutionGetInstanceInfo Sample.responsive;
     evolutionGetQRCode := evolutionGetQRCode Sample.responsive;
     evolutionCreateInstance := evolutionCreateInstance Sample.responsive;
     quepasaBotStatus := quepasaBotStatus Sample.responsive;
     quepasaHealthToken := fun url token =>
       if String.eqb token "stale" then Status 400 "Bad Request"
       else quepasaHealthToken Sample.responsive url token;
     quepasaHealthUser := fun _ _ _ =>
       OkJson {| l_success := true;
                 l_items := Some [readyServer "tok"; readyServer "free"] |};
     quepasaScan := quepasaScan Sample.responsive;
     quepasaConfigureWebhook := quepasaConfigureWebhook Sample.responsive |}.

(** What an iteration may do to the registry: tokens stay unique and
    only the row of its session changes. *)
Definition keepsTokens (n : string) (w w' : World) : Prop :=
  uniqueTokens (db w')
  /\ forall m, m <> n -> db w' !! m = db w !! m.


(** * The routes of one session *)

(** ** Replies *)

Inductive Payload :=
| Failure (error : string)                      (* [{ error }] *)
| SessionBody (s : Session)                     (* the session itself *)
| ResultBody (result : string)                  (* the provider's answer, passed on *)
| QrStatus (qrCode : option string) (st : string)  (* [{ qr, status }] *)
| MessageBody (message : string)                (* [{ message }] *)
| SuccessBody (message : string)                (* [{ success: true, message }] *)
| ImportedBody (message st : string).           (* [{ success: true, message, status }] *)

Record Reply := {
  r_code : Z;
  r_payload : Payload
}.

Definition reply (c : Z) (p : Payload) : M Reply :=
  ret {| r_code := c; r_payload := p |}.

Definition sessionNotFound : Reply :=
  {| r_code := 404; r_payload := Failure "Sessão não encontrada" |}.

(** [try { sessionData = await getSession(name, tenantId) } catch { ... }] *)
Definition lookupSession (n : string) (tenant : option string) : M (option Session) :=
  tryCatch (let! s := getSession n tenant in ret (Some s)) (fun _ => ret None).

(** ** [GET /sessions/:sessionName] and [PATCH .../assign-tenant] *)

Section SessionRoutes.

Variable R : Remote.
Variable now : Z.

(** The route falls back on [WahaSyncService.syncSession], which is not
    given the tenant. *)
Definition getSessionRoute (req : Request) : M Reply :=
  let n := sessionName req in
  let tenant := scopeOf req in
  tryCatch
    (let! found := lookupSession n tenant in
     match found with
     | Some session => reply 200 (SessionBody session)
     | None =>
         let! session := syncSession R now n in
         reply 200 (SessionBody session)
     end)
    (fun _ => reply 500 (Failure "Erro ao obter informações da sessão")).

(** The argument of [createOrUpdateSession] in [assign-tenant]. *)
Definition assignedData (n : string) (session : Session) (p : Provider)
    (tenant : string) : WhatsAppSessionData :=
  {| d_name := n; d_displayName := None; d_status := s_status session;
     d_provider := p; d_config := None;
     d_me := (fun m => {| me_id := me_id m; me_pushName := me_pushName m;
                          me_lid := Js.orNull (me_lid m);
                          me_jid := Js.orNull (me_jid m) |}) <$> s_me session;
     d_qr := Js.orNull (s_qr session);
     d_qrExpiresAt := s_qrExpiresAt session;
     d_assignedWorker := None; d_tenantId := Some tenant;
     d_quepasaToken := None;
     d_interactiveCampaignEnabled := None; d_webhookSecret := None |}.

(** A row without provider makes the write pass [provider: null], which
    the upsert refuses. *)
Definition assignTenantRoute (req : Request) : M Reply :=
  let n := sessionName req in
  tryCatch
    (if negb (isSuperadmin req) then
       reply 403 (Failure "Apenas SUPERADMIN pode associar sessões a tenants")
     else
       match Js.orNull (bodyTenantId req) with
       | None => reply 400 (Failure "tenantId é obrigatório")
       | Some tenant =>
           let! session := getSession n None in
           match s_provider session with
           | Some p =>
               createOrUpdateSession now (assignedData n session p tenant) >>
               reply 200 (SuccessBody "Sessão associada ao tenant com sucesso")
           | None => throw "Argument `provider` must not be null."
           end
       end)
    (fun _ => reply 500 (Failure "Erro ao associar sessão ao tenant")).

(** [WahaSyncService.syncSessionWithExisting(sessionName, existingSession)]
    for a session that was loaded before; it answers the loaded session
    with the status and the account WAHA reports. *)
Definition withReported (existing : Session) (w : WahaSession) : Session :=
  {| s_name := s_name existing; s_displayName := s_displayName existing;
     s_status := mapWahaStatus (w_status w); s_provider := s_provider existing;
     s_config := s_config existing; s_me := w_me w; s_qr := s_qr existing;
     s_qrExpiresAt := s_qrExpiresAt existing;
     s_assignedWorker := s_assignedWorker existing;
     s_tenantId := s_tenantId existing;
     s_quepasaToken := s_quepasaToken existing |}.

Definition syncSessionWithExisting (n : string) (existingSession : Session)
  : M Session :=
  tryCatch
    (let! wahaSession := remote (WahaGetSession n) (wahaGetSession R n) in
     createOrUpdateSession now (wahaSessionData wahaSession (Some existingSession)) >>
     ret (withReported existingSession wahaSession))
    (fun _ => ret existingSession).

End SessionRoutes.

(** ** Starting, stopping and removing a session *)

(** The provider operations of these routes. *)
Inductive LifecycleCall :=
| WahaListSessions
| WahaDeleteSession (n : string)
| WahaStartSession (n : string)
| WahaStopSession (n : string)
| WahaRestartSession (n : string)
| WahaSessionStatus (n : string)
| WahaSessionMe (n : string)
| EvolutionDeleteInstance (n : string)
| EvolutionRestartInstance (n : string)
| QuepasaDeleteInfo (url token : string).

(** Their answers; JSON passed on to the client unread is a [string].
    [evolutionErrorText] is the text of a [connectionState] answer whose
    [ok] is false. *)
Record Lifecycle := {
  wahaListSessions : Outcome (list WahaSession);
  wahaDeleteSession : string -> Outcome unit;
  wahaStartSession : string -> Outcome string;
  wahaStopSession : string -> Outcome string;
  wahaRestartSession : string -> Outcome string;
  wahaSessionStatus : string -> Outcome string;
  wahaSessionMe : string -> Outcome string;
  evolutionDeleteInstance : string -> Outcome unit;
  evolutionRestartInstance : string -> Outcome string;
  quepasaDeleteInfo : string -> string -> Outcome unit;
  evolutionErrorText : string -> string -> string -> string
}.

(** The state of these routes: the world of the engine, the operations
    asked of the providers, and the sessions for which a sync is
    scheduled by [setTimeout]. *)
Record Stage := {
  world : World;
  operations : list LifecycleCall;
  timers : list string
}.

Definition L (A : Type) : Type := Stage -> Outcome A * Stage.

Definition retL {A} (a : A) : L A := fun st => (Returned a, st).

Definition throwL {A} (e : string) : L A := fun st => (Thrown e, st).

Definition bindL {A B} (m : L A) (k : A -> L B) : L B :=
  fun st =>
    match m st with
    | (Returned a, st') => k a st'
    | (Thrown e, st') => (Thrown e, st')
    end.

Notation "'let*' x ':=' m 'in' k" := (bindL m (fun x => k))
  (at level 10, x name, m at level 200, k at level 200,
   format "'[v' 'let*'  x  ':='  m  'in' '/' k ']'").
Notation "m '>>>' k" := (bindL m (fun _ => k))
  (at level 90, right associativity).

Definition tryCatchL {A} (m : L A) (h : string -> L A) : L A :=
  fun st =>
    match m st with
    | (Returned a, st') => (Returned a, st')
    | (Thrown e, st') => h e st'
    end.

(** A computation of the engine, run on the world of the stage. *)
Definition lift {A} (m : M A) : L A :=
  fun st =>
    let '(o, w') := m (world st) in
    (o, {| world := w'; operations := operations st; timers := timers st |}).

(** A provider operation: recorded, then answered by the oracle. *)
Definition operate {A} (c : LifecycleCall) (answer : Outcome A) : L A :=
  fun st =>
    (answer, {| world := world st; operations := operations st ++ [c];
                timers := timers st |}).

(** [setTimeout(() => syncSession(n), 2000)] *)
Definition schedule (n : string) : L unit :=
  fun st =>
    (Returned tt, {| world := world st; operations := operations st;
                     timers := timers st ++ [n] |}).

Definition replyL (c : Z) (p : Payload) : L Reply :=
  retL {| r_code := c; r_payload := p |}.

(** [url.replace(/\/$/, '')] *)
Fixpoint stripTrailingSlash (s : string) : string :=
  match s with
  | EmptyString => EmptyString
  | String c rest =>
      if (Ascii.eqb c "/" && String.eqb rest EmptyString)%bool then EmptyString
      else String c (stripTrailingSlash rest)
  end.

(** The body of [POST /sessions/import-evolution]. *)
Record ImportRequest := {
  i_request : Request;
  i_url : option string;
  i_instanceName : option string;
  i_apiKey : option string;
  i_displayName : option string;
  i_interactive : bool
}.

Section LifecycleRoutes.

Variable R : Remote.
Variable Lc : Lifecycle.
Variable quepasaConfig : QuepasaConfig.
Variable now : Z.
Variable freshSecret : string.  (* [generateWebhookSecret()] *)
Variable freshToken : string.   (* [generateQuepasaToken()] *)

(** *** [WahaSyncService], the rest *)

(** The argument of [createOrUpdateSession] in [syncAllSessions];
    [sessionMap] is read before the loop. *)
Definition syncAllSessions : L (list Session) :=
  tryCatchL
    (let* wahaSessions := operate WahaListSessions (wahaListSessions Lc) in
     let* dbSessions := lift (getAllSessions None) in
     let sessionMap (n : string) :=
       List.find (fun s => String.eqb (s_name s) n) (rev dbSessions) in
     lift (forEach wahaSessions
             (fun wahaSession =>
                createOrUpdateSession now
                  (wahaSessionData wahaSession (sessionMap (w_name wahaSession))))) >>>
     lift (getAllSessions None))
    (fun _ => lift (getAllSessions None)).

(** [WahaSyncService.deleteSession(sessionName)] *)
Definition wahaSyncDelete (n : string) : L unit :=
  tryCatchL (operate (WahaDeleteSession n) (wahaDeleteSession Lc n))
            (fun _ => retL tt) >>>
  lift (deleteSession n None).

(** [WahaSyncService.stopSession(sessionName)] *)
Definition wahaSyncStop (n : string) : L string :=
  let* result := operate (WahaStopSession n) (wahaStopSession Lc n) in
  lift (updateSessionStatus now n "STOPPED" noExtras None) >>>
  retL result.

(** [WahaSyncService.restartSession(sessionName)]: the sync that follows
    is left to a timer. *)
Definition wahaSyncRestart (n : string) : L string :=
  let* result := operate (WahaRestartSession n) (wahaRestartSession Lc n) in
  schedule n >>>
  retL result.

(** *** The routes *)

(** [POST /sessions/:sessionName/start] *)
Definition startEvolution (n : string) (sessionData' : Session) : L Reply :=
  tryCatchL
    (let* result := lift (remote (EvolutionGetQRCode n) (evolutionGetQRCode R n)) in
     match Js.orNull result with
     | Some qrCode =>
         lift (createOrUpdateSession now
                 {| d_name := n; d_displayName := None; d_status := "SCAN_QR_CODE";
                    d_provider := EVOLUTION; d_config := None; d_me := None;
                    d_qr := Some qrCode; d_qrExpiresAt := Some (now + qrTtl);
                    d_assignedWorker := None;
                    d_tenantId := s_tenantId sessionData';
                    d_quepasaToken := None;
                    d_interactiveCampaignEnabled := None;
                    d_webhookSecret := None |})
     | None => retL tt
     end >>>
     replyL 200 (QrStatus result "SCAN_QR_CODE"))
    (fun message => throwL ("Erro ao iniciar sessão WhatsApp: " ++ message)).

Definition startQuepasa (n : string) (sessionData' : Session) : L Reply :=
  tryCatchL
    (match Js.orNull (quepasaUrl quepasaConfig),
           Js.orNull (quepasaLogin quepasaConfig) with
     | Some url, Some login =>
         let* sessionToken :=
           match Js.orNull (s_quepasaToken sessionData') with
           | Some token => retL token
           | None =>
               lift (createOrUpdateSession now
                       {| d_name := n; d_displayName := None;
                          d_status := s_status sessionData'; d_provider := QUEPASA;
                          d_config := None; d_me := None; d_qr := None;
                          d_qrExpiresAt := None; d_assignedWorker := None;
                          d_tenantId := s_tenantId sessionData';
                          d_quepasaToken := Some freshToken;
                          d_interactiveCampaignEnabled := None;
                          d_webhookSecret := None |}) >>>
               retL freshToken
           end in
         let* qrResponse := lift (fetch (QuepasaScan url login sessionToken)
                                        (quepasaScan R url login sessionToken)) in
         match qrResponse with
         | OkJson base64Image =>
             let qrBase64 := "data:image/png;base64," ++ base64Image in
             lift (createOrUpdateSession now
                     {| d_name := n; d_displayName := None;
                        d_status := "SCAN_QR_CODE"; d_provider := QUEPASA;
                        d_config := None; d_me := None; d_qr := Some qrBase64;
                        d_qrExpiresAt := Some (now + qrTtl);
                        d_assignedWorker := None;
                        d_tenantId := s_tenantId sessionData';
                        d_quepasaToken := Some sessionToken;
                        d_interactiveCampaignEnabled := None;
                        d_webhookSecret := None |}) >>>
             replyL 200 (QrStatus (Some qrBase64) "SCAN_QR_CODE")
         | Status c statusText =>
             throwL ("Erro ao gerar QR Code Quepasa: " ++ Js.decimal c ++ " "
                     ++ statusText)
         | FetchThrows message => throwL message
         end
     | _, _ => throwL "Configure as credenciais Quepasa nas configurações do sistema"
     end)
    (fun message => throwL ("Erro ao iniciar sessão Quepasa: " ++ message)).

Definition startRoute (req : Request) : L Reply :=
  let n := sessionName req in
  tryCatchL
    (let* found := lift (lookupSession n (scopeOf req)) in
     match found with
     | None => retL sessionNotFound
     | Some sessionData' =>
         match default WAHA (s_provider sessionData') with
         | EVOLUTION => startEvolution n sessionData'
         | QUEPASA => startQuepasa n sessionData'
         | WAHA =>
             let* result := operate (WahaStartSession n) (wahaStartSession Lc n) in
             replyL 200 (ResultBody result)
         end
     end)
    (fun _ => replyL 500 (Failure "Erro ao iniciar sessão WhatsApp")).

(** [POST /sessions/:sessionName/stop]: only Evolution has a branch of
    its own. *)
Definition stopRoute (req : Request) : L Reply :=
  let n := sessionName req in
  tryCatchL
    (let* found := lift (lookupSession n (scopeOf req)) in
     match found with
     | None => retL sessionNotFound
     | Some sessionData' =>
         match default WAHA (s_provider sessionData') with
         | EVOLUTION =>
             lift (createOrUpdateSession now
                     {| d_name := n; d_displayName := None; d_status := "STOPPED";
                        d_provider := EVOLUTION; d_config := None; d_me := None;
                        d_qr := None; d_qrExpiresAt := None;
                        d_assignedWorker := None;
                        d_tenantId := s_tenantId sessionData';
                        d_quepasaToken := None;
                        d_interactiveCampaignEnabled := None;
                        d_webhookSecret := None |}) >>>
             replyL 200 (MessageBody "Sessão Evolution parada (conceitual)")
         | _ =>
             let* result := wahaSyncStop n in
             replyL 200 (ResultBody result)
         end
     end)
    (fun _ => replyL 500 (Failure "Erro ao parar sessão WhatsApp")).

(** [POST /sessions/:sessionName/restart]: the route has no
    [authMiddleware] and reads the session without tenant. *)
Definition restartRoute (req : Request) : L Reply :=
  let n := sessionName req in
  tryCatchL
    (let* found := lift (lookupSession n None) in
     let sessionProvider :=
       match found with
       | Some savedSession => default WAHA (s_provider savedSession)
       | None => WAHA
       end in
     match sessionProvider with
     | EVOLUTION =>
         let* result :=
           operate (EvolutionRestartInstance n) (evolutionRestartInstance Lc n) in
         lift (createOrUpdateSession now (sessionData n "SCAN_QR_CODE" EVOLUTION)) >>>
         replyL 200 (ResultBody result)
     | _ =>
         let* result := wahaSyncRestart n in
         replyL 200 (ResultBody result)
     end)
    (fun _ => replyL 500 (Failure "Erro ao reiniciar sessão WhatsApp")).

(** The Quepasa branch of the removal, up to the registry. *)
Definition removeFromQuepasa (n : string) (tenant : option string) : L unit :=
  tryCatchL
    (let* savedSession := lift (getSession n tenant) in
     match Js.orNull (quepasaUrl quepasaConfig),
           Js.orNull (quepasaLogin quepasaConfig) with
     | Some url, Some _ =>
         match Js.orNull (s_quepasaToken savedSession) with
         | Some sessionToken =>
             operate (QuepasaDeleteInfo url sessionToken)
                     (quepasaDeleteInfo Lc url sessionToken)
         | None => retL tt
         end
     | _, _ => retL tt
     end)
    (fun _ => retL tt).

(** [DELETE /sessions/:sessionName] *)
Definition deleteRoute (req : Request) : L Reply :=
  let n := sessionName req in
  let tenant := scopeOf req in
  tryCatchL
    (let* found := lift (lookupSession n tenant) in
     match found with
     | None => retL sessionNotFound
     | Some savedSession =>
         match default WAHA (s_provider savedSession) with
         | EVOLUTION =>
             tryCatchL (operate (EvolutionDeleteInstance n)
                                (evolutionDeleteInstance Lc n))
                       (fun _ => retL tt) >>>
             tryCatchL (lift (deleteSession n tenant)) (fun _ => retL tt)
         | QUEPASA =>
             removeFromQuepasa n tenant >>>
             tryCatchL (lift (deleteSession n tenant)) (fun _ => retL tt)
         | WAHA => wahaSyncDelete n
         end >>>
         replyL 200 (SuccessBody "Sessão removida com sucesso")
     end)
    (fun _ => replyL 500 (Failure "Erro ao remover sessão WhatsApp")).

(** [GET /sessions/:sessionName/status] and [.../me] *)
Definition statusRoute (req : Request) : L Reply :=
  let n := sessionName req in
  tryCatchL
    (let* found := lift (lookupSession n (scopeOf req)) in
     match found with
     | None => retL sessionNotFound
     | Some _ =>
         let* st := operate (WahaSessionStatus n) (wahaSessionStatus Lc n) in
         replyL 200 (ResultBody st)
     end)
    (fun _ => replyL 500 (Failure "Erro ao obter status da sessão")).

Definition meRoute (req : Request) : L Reply :=
  let n := sessionName req in
  tryCatchL
    (let* found := lift (lookupSession n (scopeOf req)) in
     match found with
     | None => retL sessionNotFound
     | Some _ =>
         let* me := operate (WahaSessionMe n) (wahaSessionMe Lc n) in
         replyL 200 (ResultBody me)
     end)
    (fun _ => replyL 500 (Failure "Erro ao obter informações do usuário")).

(** [POST /sessions/import-evolution], past the quota gate.  A state
    that the map sends to an inherited member is no status the upsert
    takes. *)
Definition importedData (instanceName normalizedUrl apiKey st : string)
    (req : ImportRequest) : WhatsAppSessionData :=
  {| d_name := instanceName;
     d_displayName := Some (Js.orElse (i_displayName req) instanceName);
     d_status := st; d_provider := EVOLUTION;
     d_config := Some {| evolutionUrl := Some normalizedUrl;
                         evolutionApiKey := Some apiKey;
                         cfg_rest := "imported" |};
     d_me := None; d_qr := None; d_qrExpiresAt := None;
     d_assignedWorker := None;
     d_tenantId := reqTenantId (i_request req);
     d_quepasaToken := None;
     d_interactiveCampaignEnabled := Some (i_interactive req);
     d_webhookSecret := Some freshSecret |}.

Definition importHandler (req : ImportRequest) : L Reply :=
  tryCatchL
    (match Js.orNull (i_url req), Js.orNull (i_instanceName req),
           Js.orNull (i_apiKey req) with
     | Some url, Some instanceName, Some apiKey =>
         let normalizedUrl := stripTrailingSlash url in
         let* verifyResponse :=
           lift (fetch (EvolutionConnectionState normalizedUrl apiKey instanceName)
                       (evolutionConnectionState R normalizedUrl apiKey instanceName)) in
         match verifyResponse with
         | OkJson state =>
             match mapEvolutionState state with
             | JsString mappedStatus =>
                 lift (createOrUpdateSession now
                         (importedData instanceName normalizedUrl apiKey
                                       mappedStatus req)) >>>
                 replyL 200 (ImportedBody
                               ("Sessão " ++ instanceName ++ " importada com sucesso")
                               mappedStatus)
             | JsInherited _ => throwL "Invalid value for argument `status`."
             end
         | _ =>
             replyL 400
               (Failure
                  ("Instância não encontrada ou credenciais inválidas. Verifique a URL, instância e API Key. Detalhe: "
                   ++ evolutionErrorText Lc normalizedUrl apiKey instanceName))
         end
     | _, _, _ => replyL 400 (Failure "URL, instanceName e apiKey são obrigatórios")
     end)
    (fun message => replyL 500 (Failure message)).

End LifecycleRoutes.

(** The provider operation of a removal. *)
Definition removalOf (n : string) (s : Session) (c : LifecycleCall) : Prop :=
  match default WAHA (s_provider s) with
  | WAHA => c = WahaDeleteSession n
  | EVOLUTION => c = EvolutionDeleteInstance n
  | QUEPASA =>
      exists url token, c = QuepasaDeleteInfo url token
                        /\ Js.orNull (s_quepasaToken s) = Some token
  end.

(** ** Sample stages *)

(** Providers that cannot be reached, and providers that accept every
    operation. *)
Definition offline : Lifecycle :=
  {| wahaListSessions := Thrown "timeout";
     wahaDeleteSession := fun _ => Thrown "timeout";
     wahaStartSession := fun _ => Thrown "timeout";
     wahaStopSession := fun _ => Thrown "timeout";
     wahaRestartSession := fun _ => Thrown "timeout";
     wahaSessionStatus := fun _ => Thrown "timeout";
     wahaSessionMe := fun _ => Thrown "timeout";
     evolutionDeleteInstance := fun _ => Thrown "timeout";
     evolutionRestartInstance := fun _ => Thrown "timeout";
     quepasaDeleteInfo := fun _ _ => Thrown "timeout";
     evolutionErrorText := fun _ _ _ => "Not Found" |}.

Definition online : Lifecycle :=
  {| wahaListSessions :=
       Returned [ {| w_name := "support_T1"; w_status := Some "WORKING";
                     w_config := None; w_me := None; w_assignedWorker := None |} ];
     wahaDeleteSession := fun _ => Returned tt;
     wahaStartSession := fun _ => Returned "started";
     wahaStopSession := fun _ => Returned "stopped";
     wahaRestartSession := fun _ => Returned "restarted";
     wahaSessionStatus := fun _ => Returned "WORKING";
     wahaSessionMe := fun _ => Returned "me";
     evolutionDeleteInstance := fun _ => Returned tt;
     evolutionRestartInstance := fun _ => Returned "restarted";
     quepasaDeleteInfo := fun _ _ => Returned tt;
     evolutionErrorText := fun _ _ _ => "Not Found" |}.

Definition stageOf (reg : Registry) : Stage :=
  {| world := Sample.world reg; operations := []; timers := [] |}.

(** A user of [tenant] asking for the session [n]. *)
Definition visitor (tenant n : string) : Request :=
  {| role := Some "USER"; reqTenantId := Some tenant; sessionName := n;
     bodyName := None; bodyProvider := None; bodyInteractive := false;
     bodyTenantId := None |}.

(** An import by a user of [tenant]. *)
Definition importOf (tenant url instanceName apiKey : string) : ImportRequest :=
  {| i_request := visitor tenant EmptyString;
     i_url := Some url; i_instanceName := Some instanceName;
     i_apiKey := Some apiKey; i_displayName := None; i_interactive := false |}.

(** What [syncAllSessions] leaves in the row of a session that WAHA
    lists: the reported status under the provider WAHA, the tenant the
    row had, and no Quepasa token. *)
Definition listedByWaha (before : Registry) (ws : WahaSession) (new : Row) : Prop :=
  status new = mapWahaStatus (w_status ws)
  /\ provider new = Some WAHA
  /\ quepasaToken new = None
  /\ tenantId new = Js.orNull (before !! w_name ws ≫= tenantId).

(** * Settings and the WAHA client *)

(** ** [SettingsService] *)

(** The row of [globalSettings]. *)
Record Settings := {
  g_wahaHost : option string;
  g_wahaApiKey : option string;
  g_evolutionHost : option string;
  g_evolutionApiKey : option string;
  g_quepasaUrl : option string;
  g_quepasaLogin : option string;
  g_quepasaPassword : option string;
  g_logoUrl : option string;
  g_companyName : option string;
  g_faviconUrl : option string;
  g_pageTitle : option string;
  g_iconUrl : option string
}.

(** The argument of [updateSettings]: [None] is [undefined], [Some None]
    is [null]. *)
Record SettingsPatch := {
  p_wahaHost : option (option string);
  p_wahaApiKey : option (option string);
  p_evolutionHost : option (option string);
  p_evolutionApiKey : option (option string);
  p_quepasaUrl : option (option string);
  p_quepasaLogin : option (option string);
  p_quepasaPassword : option (option string);
  p_logoUrl : option (option string);
  p_companyName : option (option string);
  p_faviconUrl : option (option string);
  p_pageTitle : option (option string);
  p_iconUrl : option (option string)
}.

(** The table with its singleton row, whether the database answers, and
    the two fields of the service. *)
Record Store := {
  table : option Settings;
  reachable : bool;
  cachedSettings : option Settings;
  cacheExpiry : Z
}.

Definition CACHE_TTL_MS : Z := 30000.

(** What [getSettings] returns when the database fails and nothing is
    cached. *)
Definition fallbackSettings : Settings :=
  {| g_wahaHost := Some EmptyString; g_wahaApiKey := Some EmptyString;
     g_evolutionHost := Some EmptyString; g_evolutionApiKey := Some EmptyString;
     g_quepasaUrl := Some EmptyString; g_quepasaLogin := Some EmptyString;
     g_quepasaPassword := Some EmptyString; g_logoUrl := None;
     g_companyName := Some EmptyString;
     g_faviconUrl := Some "/api/uploads/default_favicon.png";
     g_pageTitle := Some "Sistema de Gestão de Contatos";
     g_iconUrl := Some "/api/uploads/default_icon.png" |}.

(** [patched v old]: [v !== undefined ? v : old] *)
Definition patched (v : option (option string)) (old : option string) : option string :=
  match v with
  | Some given => given
  | None => old
  end.

(** [v || d] on a field of the patch. *)
Definition given (v : option (option string)) (d : string) : option string :=
  Some (Js.orElse (mjoin v) d).

Section SettingsService.

(** The values the schema gives to the columns a [create] leaves out. *)
Variable columnDefaults : Settings.

(** The row [getSettings] creates when the table is empty. *)
Definition defaultRow : Settings :=
  {| g_wahaHost := Some EmptyString; g_wahaApiKey := Some EmptyString;
     g_evolutionHost := Some EmptyString; g_evolutionApiKey := Some EmptyString;
     g_quepasaUrl := g_quepasaUrl columnDefaults;
     g_quepasaLogin := g_quepasaLogin columnDefaults;
     g_quepasaPassword := g_quepasaPassword columnDefaults;
     g_logoUrl := g_logoUrl columnDefaults;
     g_companyName := Some "Astra Campaign";
     g_faviconUrl := Some "/api/uploads/default_favicon.png";
     g_pageTitle := Some "Sistema de Gestão de Contatos";
     g_iconUrl := Some "/api/uploads/default_icon.png" |}.

(** [getSettings()], called at [now]; it does not throw. *)
Definition getSettings (now : Z) (st : Store) : Settings * Store :=
  let miss :=
    if reachable st then
      let settings := default defaultRow (table st) in
      (settings, {| table := Some settings; reachable := true;
                    cachedSettings := Some settings;
                    cacheExpiry := now + CACHE_TTL_MS |})
    else (default fallbackSettings (cachedSettings st), st) in
  match cachedSettings st with
  | Some cached => if now <? cacheExpiry st then (cached, st) else miss
  | None => miss
  end.

(** The [data] of the [update] branch. *)
Definition mergeSettings (data : SettingsPatch) (settings : Settings) : Settings :=
  {| g_wahaHost := patched (p_wahaHost data) (g_wahaHost settings);
     g_wahaApiKey := patched (p_wahaApiKey data) (g_wahaApiKey settings);
     g_evolutionHost := patched (p_evolutionHost data) (g_evolutionHost settings);
     g_evolutionApiKey := patched (p_evolutionApiKey data) (g_evolutionApiKey settings);
     g_quepasaUrl := patched (p_quepasaUrl data) (g_quepasaUrl settings);
     g_quepasaLogin := patched (p_quepasaLogin data) (g_quepasaLogin settings);
     g_quepasaPassword := patched (p_quepasaPassword data) (g_quepasaPassword settings);
     g_logoUrl := patched (p_logoUrl data) (g_logoUrl settings);
     g_companyName := patched (p_companyName data) (g_companyName settings);
     g_faviconUrl := patched (p_faviconUrl data) (g_faviconUrl settings);
     g_pageTitle := patched (p_pageTitle data) (g_pageTitle settings);
     g_iconUrl := patched (p_iconUrl data) (g_iconUrl settings) |}.

(** The [data] of the [create] branch. *)
Definition createSettings (data : SettingsPatch) : Settings :=
  {| g_wahaHost := given (p_wahaHost data) EmptyString;
     g_wahaApiKey := given (p_wahaApiKey data) EmptyString;
     g_evolutionHost := given (p_evolutionHost data) EmptyString;
     g_evolutionApiKey := given (p_evolutionApiKey data) EmptyString;
     g_quepasaUrl := given (p_quepasaUrl data) EmptyString;
     g_quepasaLogin := given (p_quepasaLogin data) EmptyString;
     g_quepasaPassword := given (p_quepasaPassword data) EmptyString;
     g_logoUrl := Js.orNull (mjoin (p_logoUrl data));
     g_companyName := given (p_companyName data) "Astra Campaign";
     g_faviconUrl := given (p_faviconUrl data) "/api/uploads/default_favicon.png";
     g_pageTitle := given (p_pageTitle data) "Sistema de Gestão de Contatos";
     g_iconUrl := given (p_iconUrl data) "/api/uploads/default_icon.png" |}.

(** [updateSettings(data)]: the error of the database is rethrown, and
    then the cache is as it was. *)
Definition updateSettings (data : SettingsPatch) (st : Store)
  : Outcome Settings * Store :=
  if reachable st then
    let settings :=
      match table st with
      | Some stored => mergeSettings data stored
      | None => createSettings data
      end in
    (Returned settings, {| table := Some settings; reachable := true;
                           cachedSettings := None; cacheExpiry := 0 |})
  else (Thrown "Can't reach database server", st).

(** [getQuepasaConfig()] *)
Definition getQuepasaConfig (now : Z) (st : Store) : QuepasaConfig * Store :=
  let '(settings, st') := getSettings now st in
  ({| quepasaUrl := g_quepasaUrl settings; quepasaLogin := g_quepasaLogin settings;
      quepasaPassword := g_quepasaPassword settings |}, st').

(** [getWahaConfig()]: host and key. *)
Definition getWahaConfig (now : Z) (st : Store)
  : (option string * option string) * Store :=
  let '(settings, st') := getSettings now st in
  ((g_wahaHost settings, g_wahaApiKey settings), st').

End SettingsService.

(** ** [wahaRequest] *)

(** [process.env] *)
Record WahaEnv := {
  WAHA_BASE_URL : option string;
  DEFAULT_WAHA_HOST : option string;
  WAHA_API_KEY : option string;
  DEFAULT_WAHA_API_KEY : option string
}.

(** What [fetch] and reading the body do: a rejection, or a response
    with its body. *)
Inductive HttpAnswer :=
| Rejects (message : string)
| Responds (ok : bool) (st : Z) (statusText : string) (payload : string).

Definition wahaError (st : Z) (statusText : string) : string :=
  "WAHA API Error: " ++ Js.decimal st ++ " " ++ statusText.

Definition wahaNotConfigured : string :=
  "Configurações WAHA não encontradas. Configure o Host e API Key nas configurações do sistema.".

Section WahaRequest.

Variable columnDefaults : Settings.
Variable env : WahaEnv.
Variable http : string -> string -> HttpAnswer.  (* by URL and [X-API-KEY] *)

Definition wahaBaseUrl (host : option string) : string :=
  Js.orElse host (Js.orElse (WAHA_BASE_URL env)
                            (Js.orElse (DEFAULT_WAHA_HOST env) EmptyString)).

Definition wahaApiKey (apiKey : option string) : string :=
  Js.orElse apiKey (Js.orElse (WAHA_API_KEY env)
                              (Js.orElse (DEFAULT_WAHA_API_KEY env) EmptyString)).

(** [wahaRequest(endpoint, options)] at [now]; the text of the answer
    stands for its parsed JSON as well. *)
Definition wahaRequest (now : Z) (endpoint : string) (st : Store)
  : Outcome string * Store :=
  let '((host, apiKey), st') := getWahaConfig columnDefaults now st in
  let base := wahaBaseUrl host in
  let key := wahaApiKey apiKey in
  if (String.eqb base EmptyString || String.eqb key EmptyString)%bool
  then (Thrown wahaNotConfigured, st')
  else
    match http (base ++ endpoint) key with
    | Rejects message => (Thrown message, st')
    | Responds false code statusText _ => (Thrown (wahaError code statusText), st')
    | Responds true _ _ payload => (Returned payload, st')
    end.

End WahaRequest.

(** ** The countdown of the pairing dialog *)

(** [Math.max(0, Math.ceil((expiry - now) / 1000))], both in
    milliseconds. *)
Definition calculateTimeLeft (now expiry : Z) : Z :=
  Z.max 0 (- ((now - expiry) / 1000)).

(** The component [QRCountdown]: its state [timeLeft], and whether its
    interval timer is set. *)
Record Countdown := {
  timeLeft : Z;
  ticking : bool
}.

(** [useState(0)]: the state at the first paint, before the effect. *)
Definition mounted : Countdown := {| timeLeft := 0; ticking := false |}.

(** The effect, run at [now] on the browser's clock: the state is set and
    the timer started. *)
Definition effect (expiry now : Z) : Countdown :=
  {| timeLeft := calculateTimeLeft now expiry; ticking := true |}.

(** The timer fires at [now]: the state is set again, and the timer is
    cleared once nothing is left. *)
Definition tick (expiry : Z) (c : Countdown) (now : Z) : Countdown :=
  if ticking c then
    let newTimeLeft := calculateTimeLeft now expiry in
    {| timeLeft := newTimeLeft; ticking := negb (newTimeLeft <=? 0) |}
  else c.

(** What the component paints. *)
Inductive Painted :=
| Expired                    (* [QR Code expirado] *)
| ExpiresIn (seconds : Z).   (* [Expira em {timeLeft}s] *)

Definition paint (c : Countdown) : Painted :=
  if timeLeft c <=? 0 then Expired else ExpiresIn (timeLeft c).

(** The component after its effect at [started] and the firings of its
    timer at the instants [firings], all read on the browser's clock. *)
Definition QRCountdown (expiry started : Z) (firings : list Z) : Countdown :=
  fold_left (tick expiry) firings (effect expiry started).

(** The clock does not go back from [t] through [l]. *)
Fixpoint advances (t : Z) (l : list Z) : Prop :=
  match l with
  | [] => True
  | u :: rest => t <= u /\ advances u rest
  end.

(** The expiry [openQRModal] gives the dialog for an answer of the route:
    the answer's, or one minute from [now] when it carries none. *)
Definition modalExpiry (now : Z) (expiresAt : option Z) : Z :=
  default (now + 60000) expiresAt.

(** A store whose table holds [s]. *)
Definition storeOf (s : Settings) : Store :=
  {| table := Some s; reachable := true; cachedSettings := None; cacheExpiry := 0 |}.

Definition noPatch : SettingsPatch :=
  {| p_wahaHost := None; p_wahaApiKey := None; p_evolutionHost := None;
     p_evolutionApiKey := None; p_quepasaUrl := None; p_quepasaLogin := None;
     p_quepasaPassword := None; p_logoUrl := None; p_companyName := None;
     p_faviconUrl := None; p_pageTitle := None; p_iconUrl := None |}.

(** The patch that sets the WAHA host only. *)
Definition hostPatch (host : string) : SettingsPatch :=
  {| p_wahaHost := Some (Some host); p_wahaApiKey := None; p_evolutionHost := None;
     p_evolutionApiKey := None; p_quepasaUrl := None; p_quepasaLogin := None;
     p_quepasaPassword := None; p_logoUrl := None; p_companyName := None;
     p_faviconUrl := None; p_pageTitle := None; p_iconUrl := None |}.

Definition noEnv : WahaEnv :=
  {| WAHA_BASE_URL := None; DEFAULT_WAHA_HOST := None; WAHA_API_KEY := None;
     DEFAULT_WAHA_API_KEY := None |}.

(** Settings with a WAHA host and key. *)
Definition wahaSettings : Settings :=
  {| g_wahaHost := Some "http://waha"; g_wahaApiKey := Some "key";
     g_evolutionHost := None; g_evolutionApiKey := None; g_quepasaUrl := None;
     g_quepasaLogin := None; g_quepasaPassword := None; g_logoUrl := None;
     g_companyName := None; g_faviconUrl := None; g_pageTitle := None;
     g_iconUrl := None |}.

(** A WAHA that answers 422 to every request, and the providers as
    [wahaRequest] shows them then. *)
Definition conflict : string -> string -> HttpAnswer :=
  fun _ _ => Responds false 422 "Unprocessable Entity" EmptyString.

Definition behindConflict : Remote :=
  {| wahaGetSession := wahaGetSession Sample.responsive;
     wahaPostSession := fun _ _ =>
       (wahaRequest wahaSettings noEnv conflict 1000 "/api/sessions"
                    (storeOf wahaSettings)).1;
     wahaQrImage := wahaQrImage Sample.responsive;
     evolutionConnectionState := evolutionConnectionState Sample.responsive;
     evolutionFetchInstances := evolutionFetchInstances Sample.responsive;
     evolutionGetInstanceStatus := evolutionGetInstanceStatus Sample.responsive;
     evolutionGetInstanceInfo := evolutionGetInstanceInfo Sample.responsive;
     evolutionGetQRCode := evolutionGetQRCode Sample.responsive;
     evolutionCreateInstance := evolutionCreateInstance Sample.responsive;
     quepasaBotStatus := quepasaBotStatus Sample.responsive;
     quepasaHealthToken := quepasaHealthToken Sample.responsive;
     quepasaHealthUser := quepasaHealthUser Sample.responsive;
     quepasaScan := quepasaScan Sample.responsive;
     quepasaConfigureWebhook := quepasaConfigureWebhook Sample.responsive |}.

(** The same WAHA when the session can then not be read. *)
Definition unreadable : Remote :=
  {| wahaGetSession := fun _ => Thrown "timeout";
     wahaPostSession := wahaPostSession behindConflict;
     wahaQrImage := wahaQrImage behindConflict;
     evolutionConnectionState := evolutionConnectionState behindConflict;
     evolutionFetchInstances := evolutionFetchInstances behindConflict;
     evolutionGetInstanceStatus := evolutionGetInstanceStatus behindConflict;
     evolutionGetInstanceInfo := evolutionGetInstanceInfo behindConflict;
     evolutionGetQRCode := evolutionGetQRCode behindConflict;
     evolutionCreateInstance := evolutionCreateInstance behindConflict;
     quepasaBotStatus := quepasaBotStatus behindConflict;
     quepasaHealthToken := quepasaHealthToken behindConflict;
     quepasaHealthUser := quepasaHealthUser behindConflict;
     quepasaScan := quepasaScan behindConflict;
     quepasaConfigureWebhook := quepasaConfigureWebhook behindConflict |}.

(** * Connections: [connectionService] *)

Inductive ConnectionStatus := ACTIVE | INACTIVE | ERROR.

(** A row of [connection], without its relations ([campaigns],
    [webhookSubscriptions]); a session shown as a connection has the same
    fields. *)
Record Connection := {
  c_id : string;
  c_provider : Provider;
  c_instanceName : string;
  c_phoneNumber : string;
  c_status : ConnectionStatus;
  c_webhookSecret : string;
  c_callbackUrl : string;
  c_tenantId : option string;
  c_createdAt : Z
}.

Definition connectionStatusOf (st : string) : ConnectionStatus :=
  if String.eqb st "WORKING" then ACTIVE
  else if String.eqb st "ERROR" then ERROR
  else INACTIVE.

Definition createdFirst (a b : string * Connection) : Prop :=
  c_createdAt b.2 <= c_createdAt a.2.

Global Instance createdFirst_dec a b : Decision (createdFirst a b).
Proof. unfold createdFirst. apply _. Defined.

Definition bornFirst (a b : string * Row) : Prop :=
  criadoEm b.2 <= criadoEm a.2.

Global Instance bornFirst_dec a b : Decision (bornFirst a b).
Proof. unfold bornFirst. apply _. Defined.

(** [where: tenantId ? { tenantId } : undefined] on [connection] *)
Definition ofTenant (tenant : option string) (c : Connection) : bool :=
  match Js.orNull tenant with
  | Some t => bool_decide (c_tenantId c = Some t)
  | None => true
  end.

(** The two queries of [listConnections]: the connections, keyed by id,
    and the sessions, keyed by name, the most recently created first. *)
Definition connectionsOf (tenant : option string) (table' : gmap string Connection)
  : list (string * Connection) :=
  merge_sort createdFirst
    (List.filter (fun kc => ofTenant tenant kc.2) (map_to_list table')).

Definition sessionsOf (tenant : option string) (reg : Registry) : list (string * Row) :=
  merge_sort bornFirst
    (List.filter (fun kr => matchesTenant tenant kr.2) (map_to_list reg)).

Section Connections.

Variable now : Z.
Variable baseUrl : string.  (* [process.env.APP_URL || 'http://localhost:3001'] *)

(** The column [id] of [whatsAppSession]: the id the database generated
    for the row of a name.  The registry is keyed by [name], the other
    unique column. *)
Variable sessionId : string -> string.

(** The conversion of [listConnections] and [getConnection]. *)
Definition sessionAsConnection (n : string) (session : Row) : Connection :=
  {| c_id := sessionId n;
     c_provider := default WAHA (provider session);
     c_instanceName := n;
     c_phoneNumber := Js.orElse (meJid session) (Js.orElse (displayName session) n);
     c_status := connectionStatusOf (status session);
     c_webhookSecret := EmptyString;
     c_callbackUrl := EmptyString;
     c_tenantId := Js.orNull (tenantId session);
     c_createdAt := now |}.

(** [createConnection(data)], with the id and the secret it draws. *)
Definition createConnection (freshId freshSecret : string) (p : Provider)
    (instanceName phoneNumber : string) (tenant : option string)
    (table' : gmap string Connection) : Connection * gmap string Connection :=
  let connection :=
    {| c_id := freshId; c_provider := p; c_instanceName := instanceName;
       c_phoneNumber := phoneNumber; c_status := ACTIVE;
       c_webhookSecret := freshSecret; c_callbackUrl := EmptyString;
       c_tenantId := tenant; c_createdAt := now |} in
  let updatedConnection :=
    {| c_id := c_id connection; c_provider := c_provider connection;
       c_instanceName := c_instanceName connection;
       c_phoneNumber := c_phoneNumber connection; c_status := c_status connection;
       c_webhookSecret := c_webhookSecret connection;
       c_callbackUrl := baseUrl ++ "/api/webhooks/wa/" ++ c_id connection ++ "/callback";
       c_tenantId := c_tenantId connection;
       c_createdAt := c_createdAt connection |} in
  (updatedConnection, <[freshId := updatedConnection]> table').

(** [listConnections(tenantId)] *)
Definition listConnections (tenant : option string)
    (table' : gmap string Connection) (reg : Registry) : list Connection :=
  (snd <$> connectionsOf tenant table')
  ++ ((fun kr => sessionAsConnection kr.1 kr.2) <$> sessionsOf tenant reg).

(** [whatsAppSession.findUnique({ where: { id } })] *)
Definition sessionById (id : string) (reg : Registry) : option (string * Row) :=
  List.find (fun kr => String.eqb (sessionId kr.1) id) (map_to_list reg).

(** [getConnection(id)] *)
Definition getConnection (id : string) (table' : gmap string Connection)
    (reg : Registry) : option Connection :=
  match table' !! id with
  | Some connection => Some connection
  | None => (fun kr => sessionAsConnection kr.1 kr.2) <$> sessionById id reg
  end.

End Connections.

(** Ids as a database could have generated them: distinct for distinct
    names, and no name is its own id. *)
Definition sampleId (n : string) : string := "id-" ++ n.

(** One connection of tenant ["T1"], created at 1500. *)
Definition oneConnection : gmap string Connection :=
  {[ "c1" := {| c_id := "c1"; c_provider := WAHA; c_instanceName := "sales";
                c_phoneNumber := "5511"; c_status := ACTIVE;
                c_webhookSecret := "secret";
                c_callbackUrl := "http://app/api/webhooks/wa/c1/callback";
                c_tenantId := Some "T1"; c_createdAt := 1500 |} ]}.

Definition noConnections : gmap string Connection := ∅.
(** * Properties *)

(** Unfolds the operations of [M] in the goal. *)
Ltac run_m :=
  unfold getSession, getAllSessions, createOrUpdateSession, respond, fetch;
  unfold bind, tryCatch, remote, readDb, writeDb, ret, throw; cbn [fst snd db calls].

(** ** The registry *)

Lemma upsert_lookup_existing now data (reg : Registry) old :
  reg !! d_name data = Some old ->
  upsert now data reg !! d_name data = Some (updateRow now data old).
Proof.
  intros Hold. unfold upsert. rewrite Hold. apply lookup_insert_eq.
Qed.

Lemma upsert_lookup_fresh now data (reg : Registry) :
  reg !! d_name data = None ->
  upsert now data reg !! d_name data = Some (createRow now data).
Proof.
  intros Hnone. unfold upsert. rewrite Hnone. apply lookup_insert_eq.
Qed.

Lemma upsert_lookup_other now data (reg : Registry) n :
  n <> d_name data ->
  upsert now data reg !! n = reg !! n.
Proof.
  intros Hne. unfold upsert.
  destruct (reg !! d_name data); by rewrite lookup_insert_ne.
Qed.

Lemma createOrUpdateSession_run now data w :
  createOrUpdateSession now data w
  = (Returned tt, {| db := upsert now data (db w); calls := calls w |}).
Proof. reflexivity. Qed.

(** C10.  A [createOrUpdateSession] that omits [interactiveCampaignEnabled]
    and [webhookSecret] leaves both stored fields of an existing session
    as they were; when it creates the session they are [false] and
    [null]. *)
Theorem C10_omitted_webhook_fields_kept now data w
    (Hflag : d_interactiveCampaignEnabled data = None)
    (Hsecret : d_webhookSecret data = None) :
  let w' := (createOrUpdateSession now data w).2 in
  match db w !! d_name data with
  | Some old =>
      exists new, db w' !! d_name data = Some new
        /\ interactiveCampaignEnabled new = interactiveCampaignEnabled old
        /\ webhookSecret new = webhookSecret old
  | None =>
      exists new, db w' !! d_name data = Some new
        /\ interactiveCampaignEnabled new = false
        /\ webhookSecret new = None
  end.
Proof.
  rewrite createOrUpdateSession_run. cbn [snd db].
  destruct (db w !! d_name data) as [old|] eqn:Hrow.
  - exists (updateRow now data old). split.
    + by apply upsert_lookup_existing.
    + cbn. by rewrite Hflag, Hsecret.
  - exists (createRow now data). split.
    + by apply upsert_lookup_fresh.
    + cbn. by rewrite Hflag, Hsecret.
Qed.

Lemma C10_witness :
  let data := sessionData "sales_T1" "WORKING" WAHA in
  let w := Sample.world Sample.webhookRegistry in
  exists new, db (createOrUpdateSession 2000 data w).2 !! "sales_T1" = Some new
    /\ interactiveCampaignEnabled new = true
    /\ webhookSecret new = Some "s3cr3t".
Proof.
  exact (C10_omitted_webhook_fields_kept 2000
           (sessionData "sales_T1" "WORKING" WAHA)
           (Sample.world Sample.webhookRegistry) eq_refl eq_refl).
Defined.


Lemma findSession_unscoped n (reg : Registry) :
  findSession n None reg = toSession n <$> reg !! n.
Proof. unfold findSession. by destruct (reg !! n). Qed.

Lemma syncSession_answered R now n w ws :
  wahaGetSession R n = Returned ws ->
  w_name ws = n ->
  exists new,
    upsert now (wahaSessionData ws (findSession n None (db w))) (db w) !! n = Some new
    /\ quepasaToken new = None
    /\ syncSession R now n w
       = (Returned (toSession n new),
          {| db := upsert now (wahaSessionData ws (findSession n None (db w))) (db w);
             calls := calls w ++ [WahaGetSession n] |}).
Proof.
  intros Hans Hname.
  set (data := wahaSessionData ws (findSession n None (db w))).
  assert (Hd : d_name data = n) by (subst data; cbn; done).
  assert (Hnew : exists new, upsert now data (db w) !! n = Some new /\ quepasaToken new = None).
  { destruct (db w !! n) as [old|] eqn:Hrow.
    - exists (updateRow now data old). split; [|done].
      pose proof (upsert_lookup_existing now data (db w) old) as H.
      rewrite Hd in H. by apply H.
    - exists (createRow now data). split; [|done].
      pose proof (upsert_lookup_fresh now data (db w)) as H.
      rewrite Hd in H. by apply H. }
  destruct Hnew as (new & Hlook & Htok). exists new. split; [done|]. split; [done|].
  unfold syncSession, syncSessionWrite. run_m. rewrite Hans. cbn.
  destruct (findSession n None (db w)) eqn:Hf; cbn; fold data;
    rewrite findSession_unscoped, Hlook; reflexivity.
Qed.

(** C1.  The registry writes of the reconciler do not keep a stored
    token.  [createOrUpdateSession] stores [null] over it whenever its
    argument omits [quepasaToken]; [syncSession] omits it, and so does the
    Quepasa loop that asks [/v3/bot/:name/status]. *)
Theorem C1_omitted_token_is_nulled R now n w old t
    (Hrow : db w !! n = Some old)
    (Htoken : quepasaToken old = Some t) :
  (forall data, d_name data = n -> d_quepasaToken data = None ->
     exists new, db (createOrUpdateSession now data w).2 !! n = Some new
                 /\ quepasaToken new = None)
  /\ (forall ws, wahaGetSession R n = Returned ws -> w_name ws = n ->
        exists new, db (syncSession R now n w).2 !! n = Some new
                    /\ quepasaToken new = None)
  /\ (forall s connected, s_name s = n ->
        quepasaBotStatus R n = OkJson connected ->
        exists new, db (syncQuepasaByBotStatus R now s w).2 !! n = Some new
                    /\ quepasaToken new = None).
Proof.
  assert (Hdrop : forall data, d_name data = n -> d_quepasaToken data = None ->
            exists new, upsert now data (db w) !! n = Some new
                        /\ quepasaToken new = None).
  { intros data Hd Homit. exists (updateRow now data old). split.
    - rewrite <- Hd in Hrow |- *. by apply upsert_lookup_existing.
    - cbn. by rewrite Homit. }
  split; [exact Hdrop|]. split.
  - intros ws Hanswer Hname.
    destruct (syncSession_answered R now n w ws Hanswer Hname)
      as (new & Hlook & Htok & Hrun).
    exists new. rewrite Hrun. cbn. done.
  - intros s connected Hs Hanswer. unfold syncQuepasaByBotStatus. run_m.
    rewrite Hs, Hanswer. cbn. by apply Hdrop.
Qed.

Lemma C1_witness :
  let w := Sample.world Sample.tokenRegistry in
  (exists new, db (syncSession Sample.responsive 2000 "sales_T1" w).2 !! "sales_T1"
               = Some new /\ quepasaToken new = None)
  /\ (exists new,
        db (syncQuepasaByBotStatus Sample.responsive 2000
              (toSession "sales_T1" Sample.tokenRow) w).2 !! "sales_T1" = Some new
        /\ quepasaToken new = None).
Proof.
  destruct (C1_omitted_token_is_nulled Sample.responsive 2000 "sales_T1"
              (Sample.world Sample.tokenRegistry) Sample.tokenRow "tok"
              ltac:(vm_compute; reflexivity) eq_refl) as (_ & Hsync & Hloop).
  split.
  - exact (Hsync _ eq_refl eq_refl).
  - exact (Hloop (toSession "sales_T1" Sample.tokenRow) true eq_refl eq_refl).
Defined.

(** The stored token of the witness, before and after one sync. *)
Example C1_token_before_and_after :
  let stored := Sample.tokenRow in
  let reg := Sample.tokenRegistry in
  quepasaToken <$> reg !! "sales_T1" = Some (Some "tok")
  /\ quepasaToken <$> db (syncSession Sample.responsive 2000 "sales_T1"
                            (Sample.world reg)).2 !! "sales_T1" = Some None
  /\ quepasaToken <$> db (syncQuepasaByBotStatus Sample.responsive 2000
                            (toSession "sales_T1" stored)
                            (Sample.world reg)).2 !! "sales_T1" = Some None.
Proof. repeat split; reflexivity. Qed.

(** ** Status mapping *)

Lemma existsb_eqb_false (key : string) (l : list string) :
  existsb (String.eqb key) l = false ->
  Forall (fun k => String.eqb key k = false) l.
Proof.
  induction l as [|k l IH]; cbn; intros H; constructor.
  - by destruct (String.eqb key k).
  - apply IH. by destruct (String.eqb key k).
Qed.

Lemma stateMap_unknown (key : string) :
  existsb (String.eqb key) evolutionVocabulary = false ->
  existsb (String.eqb key) objectPrototypeKeys = false ->
  stateMap key = None.
Proof.
  intros Hvoc Hproto. unfold stateMap. rewrite Hproto.
  apply existsb_eqb_false in Hvoc. unfold evolutionVocabulary in Hvoc.
  rewrite !Forall_cons in Hvoc. destruct Hvoc as (H1 & H2 & H3 & H4 & _).
  by rewrite H1, H2, H3, H4.
Qed.

(** C2, the claim at a status outside Evolution's vocabulary: it is
    mapped to [STOPPED], not to [FAILED]. *)
Lemma C2_counterexample :
  evolutionKnows "refused" = false
  /\ mapEvolutionState (Some "refused") = JsString "STOPPED"
  /\ mapEvolutionState (Some "refused") <> JsString "FAILED".
Proof. split; [reflexivity|]. split; [reflexivity|discriminate]. Qed.

(** C2, amended.  The Quepasa mapping sends every status that contains
    none of its words to [FAILED].  Evolution's state map sends every
    state outside its four keys (compared in lower case, the names of
    [Object.prototype] members apart) and an absent state to [STOPPED].
    The WAHA reconciler stores the status WAHA reports as it is, and
    [STOPPED] when there is none. *)
Theorem C2_unmapped_status (raw : string) (success : bool) :
  (quepasaKnows raw = false -> mapQuepasaStatus success raw = "FAILED")
  /\ (evolutionKnows raw = false -> inheritedKey raw = false ->
      mapEvolutionState (Some raw) = JsString "STOPPED")
  /\ mapEvolutionState None = JsString "STOPPED"
  /\ (raw <> EmptyString -> mapWahaStatus (Some raw) = raw)
  /\ mapWahaStatus None = "STOPPED".
Proof.
  repeat split.
  - unfold quepasaKnows, quepasaVocabulary, mapQuepasaStatus. cbn [existsb].
    intros H. repeat (apply orb_false_elim in H; destruct H as [? H]).
    repeat match goal with
           | E : Js.includes _ _ = false |- _ => rewrite E; clear E
           end.
    by rewrite andb_false_r.
  - intros Hvoc Hproto. unfold mapEvolutionState, Js.orElse, Js.orNull.
    destruct (String.eqb raw EmptyString) eqn:Hraw; [reflexivity|].
    by rewrite stateMap_unknown.
  - intros Hraw. unfold mapWahaStatus, Js.orElse, Js.orNull.
    destruct (String.eqb_spec raw EmptyString); done.
Qed.

Lemma C2_witness :
  mapQuepasaStatus true "banana" = "FAILED"
  /\ mapEvolutionState (Some "Banana") = JsString "STOPPED"
  /\ mapWahaStatus (Some "STARTING") = "STARTING".
Proof.
  destruct (C2_unmapped_status "banana" true) as (Hq & _).
  destruct (C2_unmapped_status "Banana" true) as (_ & He & _).
  destruct (C2_unmapped_status "STARTING" true) as (_ & _ & _ & Hw & _).
  split; [exact (Hq eq_refl)|].
  split; [exact (He eq_refl eq_refl)|].
  exact (Hw ltac:(discriminate)).
Defined.

(** ** The webhook verifier *)

Lemma unhex_digitChar (d : N) :
  (d < 16)%N -> Hex.unhex (Hex.digitChar d) = Some d.
Proof.
  intros Hd.
  assert (exists k, (k < 16)%nat /\ d = N.of_nat k) as (k & Hk & ->)
    by (exists (N.to_nat d); lia).
  do 16 (destruct k as [|k]; [reflexivity|]). lia.
Qed.

Lemma decode_encode (bytes : list N) :
  Forall (fun b => (b < 256)%N) bytes ->
  Hex.decode (Hex.encode bytes) = bytes.
Proof.
  induction 1 as [|b bytes Hb _ IH]; [reflexivity|].
  cbn [Hex.encode Hex.decode].
  rewrite !unhex_digitChar, IH.
  - f_equal. rewrite N.mul_comm. symmetry. apply N.div_mod'.
  - apply N.mod_lt. lia.
  - apply N.Div0.div_lt_upper_bound. lia.
Qed.

Lemma digest_bytes (s : Sha256.State) :
  Forall (fun b => (b < 256)%N) (Sha256.digest s) /\ length (Sha256.digest s) = 32%nat.
Proof.
  split; [|reflexivity].
  unfold Sha256.digest, Sha256.be32. cbn [app].
  repeat constructor; apply N.mod_lt; lia.
Qed.

Lemma hmac_bytes (key msg : list N) :
  Forall (fun b => (b < 256)%N) (Sha256.hmac key msg)
  /\ length (Sha256.hmac key msg) = 32%nat.
Proof. unfold Sha256.hmac, Sha256.sha256. apply digest_bytes. Qed.

(** Known answers: FIPS 180-4 (["abc"]) and RFC 4231, test case 2. *)
Example sha256_abc :
  Hex.encode (Sha256.sha256 (Sha256.bytesOf "abc"))
  = "ba7816bf8f01cfea414140de5dae2223b00361a396177a9cb410ff61f20015ad".
Proof. vm_compute. reflexivity. Qed.

Example hmac_rfc4231_2 :
  Hex.encode (Sha256.hmac (Sha256.bytesOf "Jefe")
                          (Sha256.bytesOf "what do ya want for nothing?"))
  = "5bdcc146bf60754e6a042426089575c75a003f089d2739839dec58b964ec3843".
Proof. vm_compute. reflexivity. Qed.

(** C9, the claim at two signatures that are not the hexadecimal HMAC of
    the body: one of its letters in upper case (a single-byte mutation),
    and two stray characters after it (a malformed header).  Both are
    accepted. *)
Lemma C9_counterexample :
  let expected := Hex.encode (Sha256.hmac (Sha256.bytesOf "k") (Sha256.bytesOf "{}")) in
  let mutated := "Add853b103fbcc936a194f9eb15e29c4ff08af6e47d5d1bca4f20218e31e4fff" in
  let malformed :=
    "sha256=add853b103fbcc936a194f9eb15e29c4ff08af6e47d5d1bca4f20218e31e4fffzz" in
  expected = "add853b103fbcc936a194f9eb15e29c4ff08af6e47d5d1bca4f20218e31e4fff"
  /\ Js.removeFirst "sha256=" mutated <> expected
  /\ validateHmacSignature (Some mutated) "{}" "k" = true
  /\ Js.removeFirst "sha256=" malformed <> expected
  /\ validateHmacSignature (Some malformed) "{}" "k" = true.
Proof.
  vm_compute. split; [reflexivity|]. split; [discriminate|].
  split; [reflexivity|]. split; [discriminate|reflexivity].
Qed.

(** C9, amended.  Verification accepts exactly when the bytes decoded
    from the signature (the first ["sha256="] removed, hexadecimal digits
    of either case read in pairs up to the first pair that is not
    hexadecimal) are the 32 bytes of the HMAC-SHA256 of the raw body
    under the secret.  It answers [false], without throwing, in every
    other case, a missing header included. *)
Theorem C9_accepts_iff_decoded_hmac (signature : option string) (body secret : string) :
  validateHmacSignature signature body secret = true
  <-> exists sig, signature = Some sig
        /\ Hex.decode (Js.removeFirst "sha256=" sig)
           = Sha256.hmac (Sha256.bytesOf secret) (Sha256.bytesOf body).
Proof.
  unfold validateHmacSignature.
  destruct signature as [sig|]; [|split; [discriminate | intros (? & ? & _); discriminate]].
  destruct (hmac_bytes (Sha256.bytesOf secret) (Sha256.bytesOf body)) as [Hb Hlen].
  rewrite decode_encode by exact Hb.
  unfold timingSafeEqual. split.
  - intros H. exists sig. split; [reflexivity|].
    destruct (Nat.eqb _ _); [|discriminate].
    apply bool_decide_eq_true in H. by symmetry.
  - intros (s & [= <-] & Heq). rewrite Heq, Nat.eqb_refl.
    by apply bool_decide_eq_true.
Qed.

(** ** The quota gate and the creation route *)

Lemma quota_refuses tenantQuota req w t q :
  isSuperadmin req = false ->
  Js.orNull (reqTenantId req) = Some t ->
  tenantQuota t = Some q ->
  maxConnections q <= connectionCount t (db w) ->
  checkConnectionQuota tenantQuota req w
  = (Returned (Answer {| code := 403;
                         body := QuotaBody (quotaMessage connections
                                              (connectionCount t (db w))
                                              (maxConnections q))
                                           (connectionCount t (db w))
                                           (maxConnections q) |}), w).
Proof.
  intros Hrole Htenant Hquota Hfull.
  unfold checkConnectionQuota, quotaMiddleware. run_m.
  rewrite Hrole, Htenant, Hquota. cbn -[quotaMessage].
  apply Z.leb_le in Hfull. by rewrite Hfull.
Qed.

(** C4.  A creation request of a caller who is not SUPERADMIN, for a
    tenant whose connection count has reached its cap, is answered 403
    with the quota payload by the gate; the handler does not run: the
    registry is the same and no remote call is made. *)
Theorem C4_quota_refusal_leaves_no_state R now freshSecret freshToken tenantQuota
    req w t q
    (Hrole : isSuperadmin req = false)
    (Htenant : Js.orNull (reqTenantId req) = Some t)
    (Hquota : tenantQuota t = Some q)
    (Hfull : maxConnections q <= connectionCount t (db w)) :
  exists message,
    postSessionsRoute R now freshSecret freshToken tenantQuota req w
    = (Returned {| code := 403;
                   body := QuotaBody message (connectionCount t (db w))
                                     (maxConnections q) |}, w).
Proof.
  eexists. unfold postSessionsRoute, guarded. unfold bind at 1.
  by rewrite (quota_refuses tenantQuota req w t q).
Qed.

Lemma C4_witness :
  exists message,
    postSessionsRoute Sample.responsive 2000 "secret" "token" Sample.quota
      (Sample.request "") (Sample.world Sample.fullRegistry)
    = (Returned {| code := 403; body := QuotaBody message 3 3 |},
       Sample.world Sample.fullRegistry).
Proof.
  exact (C4_quota_refusal_leaves_no_state Sample.responsive 2000 "secret" "token"
           Sample.quota (Sample.request "") (Sample.world Sample.fullRegistry) "T1"
           {| maxUsers := 5; maxContacts := 100; maxCampaigns := 10;
              maxConnections := 3; countUsers := 1; countContacts := 0;
              countCampaigns := 0 |}
           eq_refl eq_refl eq_refl ltac:(vm_compute; discriminate)).
Defined.

Lemma handler_conflict R now freshSecret freshToken req w n p tenant :
  Js.orNull (bodyName req) = Some n ->
  requestedProvider req = Some p ->
  Js.orNull (creationTenant req) = Some tenant ->
  is_Some (db w !! realNameOf n tenant) ->
  createSessionHandler R now freshSecret freshToken req w
  = (Returned {| code := 409;
                 body := ErrorBody "Já existe uma conexão com este nome" |}, w).
Proof.
  intros Hname Hprov Htenant [row Hrow].
  unfold createSessionHandler. run_m.
  by rewrite Hname, Hprov, Htenant, Hrow.
Qed.

Lemma handler_bad_provider R now freshSecret freshToken req w n :
  Js.orNull (bodyName req) = Some n ->
  requestedProvider req = None ->
  createSessionHandler R now freshSecret freshToken req w
  = (Returned {| code := 400;
                 body := ErrorBody "Provedor deve ser WAHA, EVOLUTION ou QUEPASA" |}, w).
Proof.
  intros Hname Hprov. unfold createSessionHandler. run_m.
  by rewrite Hname, Hprov.
Qed.

Lemma gate_outcome tenantQuota req w :
  exists g, checkConnectionQuota tenantQuota req w = (Returned g, w).
Proof.
  unfold checkConnectionQuota, quotaMiddleware. run_m.
  destruct (isSuperadmin req); [by eexists|].
  destruct (Js.orNull (reqTenantId req)); [|by eexists].
  destruct (tenantQuota s); [|by eexists]. cbn.
  destruct (_ <=? _); by eexists.
Qed.

(** C5, the claim in the scenario of the specification: tenant ["T1"] has
    three sessions of three allowed, ["sales"] among them; a second
    creation of ["sales"] is answered 403 by the quota gate, not 409. *)
Lemma C5_counterexample :
  is_Some (Sample.fullRegistry !! realNameOf "sales" "T1")
  /\ exists message,
       postSessionsRoute Sample.responsive 2000 "secret" "token" Sample.quota
         (Sample.request "") (Sample.world Sample.fullRegistry)
       = (Returned {| code := 403; body := QuotaBody message 3 3 |},
          Sample.world Sample.fullRegistry).
Proof.
  split; [by eexists|]. eexists. vm_compute. reflexivity.
Qed.

(** C5, amended.  A creation request whose derived name is already in the
    registry never reaches a provider and never changes the registry.  It
    is answered 409 when it passes the quota gate and names a provider
    (or none); the gate's answer comes first when the gate refuses, and a
    400 when the provider is not one of the three. *)
Theorem C5_duplicate_is_refused_first R now freshSecret freshToken tenantQuota
    req w n tenant
    (Hname : Js.orNull (bodyName req) = Some n)
    (Htenant : Js.orNull (creationTenant req) = Some tenant)
    (Hdup : is_Some (db w !! realNameOf n tenant)) :
  exists r,
    postSessionsRoute R now freshSecret freshToken tenantQuota req w = (Returned r, w)
    /\ (checkConnectionQuota tenantQuota req w = (Returned Next, w) ->
        is_Some (requestedProvider req) ->
        r = {| code := 409; body := ErrorBody "Já existe uma conexão com este nome" |})
    /\ (forall a, checkConnectionQuota tenantQuota req w = (Returned (Answer a), w) ->
        r = a)
    /\ (checkConnectionQuota tenantQuota req w = (Returned Next, w) ->
        requestedProvider req = None ->
        code r = 400).
Proof.
  destruct (gate_outcome tenantQuota req w) as [g Hg].
  unfold postSessionsRoute, guarded. unfold bind at 1. rewrite Hg.
  destruct g as [|a].
  - destruct (requestedProvider req) as [p|] eqn:Hp.
    + exists {| code := 409; body := ErrorBody "Já existe uma conexão com este nome" |}.
      split; [by eapply handler_conflict|].
      split; [done|]. split; [intros ? [=]|intros _ [=]].
    + eexists. split; [by eapply handler_bad_provider|].
      split; [intros _ [? [=]]|]. split; [intros ? [=]|done].
  - exists a. split; [done|]. split; [intros [=]|]. split; [by intros ? [= ->]|intros [=]].
Qed.

Lemma C5_witness :
  exists r,
    postSessionsRoute Sample.responsive 2000 "secret" "token" Sample.quota
      (Sample.request "")
      (Sample.world Sample.salesRegistry)
    = (Returned r, Sample.world Sample.salesRegistry)
    /\ r = {| code := 409; body := ErrorBody "Já existe uma conexão com este nome" |}.
Proof.
  destruct (C5_duplicate_is_refused_first Sample.responsive 2000 "secret" "token"
              Sample.quota (Sample.request "")
              (Sample.world Sample.salesRegistry)
              "sales" "T1" eq_refl eq_refl ltac:(by eexists))
    as (r & Hrun & Hconflict & _).
  exists r. split; [exact Hrun|].
  apply Hconflict; [reflexivity | by eexists].
Defined.

(** The label may come with white space around it, a no-break space and
    a line separator included: the derived name is the same. *)
Example C5_padded_label :
  realNameOf paddedLabel "T1" = "sales_T1"
  /\ postSessionsRoute Sample.responsive 2000 "secret" "token" Sample.quota
       (requestOf "T1" paddedLabel "QUEPASA") (Sample.world Sample.salesRegistry)
     = (Returned {| code := 409; body := ErrorBody "Já existe uma conexão com este nome" |},
        Sample.world Sample.salesRegistry).
Proof. split; vm_compute; reflexivity. Qed.

(** ** The pairing artifact *)






Lemma upsert_stores_qr now data (reg : Registry) :
  exists new, upsert now data reg !! d_name data = Some new
    /\ qr new = Js.orNull (d_qr data)
    /\ qrExpiresAt new = d_qrExpiresAt data.
Proof.
  destruct (reg !! d_name data) as [old|] eqn:Hrow.
  - exists (updateRow now data old). split; [by apply upsert_lookup_existing|done].
  - exists (createRow now data). split; [by apply upsert_lookup_fresh|done].
Qed.

Lemma last_snoc_call (l : list RemoteCall) c : last (l ++ [c]) = Some c.
Proof. apply last_snoc. Qed.

Section PairingFacts.

Variable R : Remote.
Variable quepasaConfig : QuepasaConfig.
Variable now : Z.
Variable freshToken : string.

(** Closes a goal [freshlyIssued] after a run that ended in one write. *)
Ltac issued data reg :=
  destruct (upsert_stores_qr now data reg) as (new & Hnew & Hq & He);
  do 6 eexists; split; [reflexivity|];
  split; [discriminate|];
  split; [apply last_snoc_call|]; split; [reflexivity|];
  split; [cbn; rewrite ?length_app; cbn; lia|];
  split; [exact Hnew|]; split; [exact Hq | exact He].











End PairingFacts.




(** The answer of the witness: the artifact ["NEW"] of the provider. *)
Example C7_expired_answer :
  (getQrRoute Sample.responsive Sample.quepasa 2001 "token"
     (Sample.request "sales_T1")
     (Sample.world Sample.pairingRegistry)).1
  = Returned {| code := 200;
                body := QrBody (Some "NEW") (Some 302001) (Some "SCAN_QR_CODE")
                               (Some EVOLUTION) "QR code gerado via Evolution API" |}.
Proof. vm_compute. reflexivity. Qed.

(** ** The batch sync *)

Lemma tryCatch_swallow (m : M unit) w :
  exists w', tryCatch m (fun _ => ret tt) w = (Returned tt, w').
Proof.
  unfold tryCatch, ret. destruct (m w) as [[[]|e] w']; by eexists.
Qed.

Lemma forEach_all {A} (body : A -> M unit) (l : list A) w :
  (forall x v, exists v', body x v = (Returned tt, v')) ->
  forEach l body w = (Returned tt, fold_left (fun v x => (body x v).2) l w).
Proof.
  intros Htotal. revert w. induction l as [|x l IH]; intros w; [reflexivity|].
  cbn [forEach fold_left]. unfold bind.
  destruct (Htotal x w) as [v' Hx]. rewrite Hx. apply IH.
Qed.

Lemma orNull_idem (o : option string) : Js.orNull (Js.orNull o) = Js.orNull o.
Proof.
  destruct o as [s|]; [|reflexivity]. cbn.
  destruct (String.eqb s EmptyString) eqn:Hs; [reflexivity|]. cbn. by rewrite Hs.
Qed.

Lemma upsert_columns now data (reg : Registry) :
  exists new, upsert now data reg !! d_name data = Some new
    /\ status new = d_status data
    /\ qr new = Js.orNull (d_qr data)
    /\ qrExpiresAt new = d_qrExpiresAt data.
Proof.
  destruct (reg !! d_name data) as [old|] eqn:Hrow.
  - exists (updateRow now data old). split; [by apply upsert_lookup_existing|done].
  - exists (createRow now data). split; [by apply upsert_lookup_fresh|done].
Qed.

Section BatchFacts.

Variable R : Remote.
Variable quepasaConfig : QuepasaConfig.
Variable now : Z.

Lemma syncWahaOne_total s w :
  exists w', syncWahaOne R now s w = (Returned tt, w').
Proof. apply tryCatch_swallow. Qed.

Lemma syncQuepasaOne_total url login s w :
  exists w', syncQuepasaOne R quepasaConfig now url login s w = (Returned tt, w').
Proof. apply tryCatch_swallow. Qed.

Lemma syncEvolutionOne_total s w :
  exists w', syncEvolutionOne R now s w = (Returned tt, w').
Proof. apply tryCatch_swallow. Qed.

Lemma getSessionsRoute_total req w :
  exists sessions w',
    getSessionsRoute R quepasaConfig now req w
    = (Returned {| code := 200; body := SessionsBody sessions |}, w').
Proof.
  unfold getSessionsRoute, syncWaha, syncQuepasa, syncEvolution.
  unfold tryCatch at 1. unfold bind at 1.
  destruct (tryCatch_swallow
              (let! wahaSessions := getAllSessions (reqTenantId req) in
               forEach (List.filter (hasProvider WAHA) wahaSessions)
                       (syncWahaOne R now)) w) as [w1 ->].
  unfold bind at 1.
  match goal with
  | |- context [tryCatch ?m (fun _ => ret tt) w1] =>
      destruct (tryCatch_swallow m w1) as [w2 ->]
  end.
  unfold bind at 1.
  match goal with
  | |- context [tryCatch ?m (fun _ => ret tt) w2] =>
      destruct (tryCatch_swallow m w2) as [w3 ->]
  end.
  run_m. by do 2 eexists.
Qed.

Lemma syncWahaOne_failed s w e :
  wahaGetSession R (s_name s) = Thrown e ->
  syncWahaOne R now s w
  = (Returned tt, {| db := db w; calls := calls w ++ [WahaGetSession (s_name s)] |}).
Proof.
  intros Hfail. unfold syncWahaOne, syncSession, syncSessionWrite. run_m.
  rewrite Hfail. cbn. by destruct (findSession _ _ _).
Qed.

Lemma syncQuepasaOne_failed url login s w token :
  Js.orNull (s_quepasaToken s) = Some token ->
  (exists e, quepasaHealthToken R url token = FetchThrows e)
  \/ (exists c t, quepasaHealthToken R url token = Status c t /\ c <> 400) ->
  syncQuepasaOne R quepasaConfig now url login s w
  = (Returned tt,
     {| db := db w; calls := calls w ++ [QuepasaHealthToken url token] |}).
Proof.
  intros Htoken Hfail. unfold syncQuepasaOne. run_m. rewrite Htoken.
  destruct Hfail as [[e ->]|(c & t & -> & Hc)]; cbn; [done|].
  apply Z.eqb_neq in Hc. by rewrite Hc.
Qed.

Lemma syncEvolutionOne_failed s w e :
  getEvolutionCredentialsForSession (s_name s) w = (Returned None, w) ->
  evolutionGetInstanceStatus R (s_name s) = Thrown e ->
  syncEvolutionOne R now s w
  = (Returned tt,
     {| db := db w; calls := calls w ++ [EvolutionGetInstanceStatus (s_name s)] |}).
Proof.
  intros Hcreds Hfail. unfold syncEvolutionOne.
  unfold tryCatch at 1. unfold bind at 1. rewrite Hcreds.
  run_m. by rewrite Hfail.
Qed.

(** An imported instance whose status cannot be read is written as
    [STOPPED]. *)
Lemma syncEvolutionOne_imported_failed s w url apiKey :
  getEvolutionCredentialsForSession (s_name s) w = (Returned (Some (url, apiKey)), w) ->
  (forall state, evolutionConnectionState R url apiKey (s_name s) <> OkJson state) ->
  exists new w',
    syncEvolutionOne R now s w = (Returned tt, w')
    /\ db w' !! s_name s = Some new
    /\ status new = "STOPPED"
    /\ qr new = Js.orNull (s_qr s)
    /\ qrExpiresAt new = s_qrExpiresAt s
    /\ forall n, n <> s_name s -> db w' !! n = db w !! n.
Proof.
  intros Hcreds Hfail. unfold syncEvolutionOne.
  unfold tryCatch at 1. unfold bind at 1. rewrite Hcreds.
  unfold customEvolutionStatus, customEvolutionInfo, storeEvolutionStatus.
  run_m.
  destruct (evolutionConnectionState R url apiKey (s_name s)) as [e|c|state];
    [| |by destruct (Hfail state)]; cbn;
    destruct (evolutionFetchInstances R url apiKey (s_name s)) as [?|?|info]; cbn;
    match goal with
    | |- context [upsert now ?data ?reg] =>
        destruct (upsert_columns now data reg) as (new & Hlook & Hst & Hq & He);
        cbn in Hlook, Hst, Hq, He; rewrite orNull_idem in Hq;
        exists new; eexists; (split; [reflexivity|]); cbn;
        (split; [exact Hlook|]); (split; [exact Hst|]);
        (split; [exact Hq|]); (split; [exact He|]);
        intros n Hn; by apply upsert_lookup_other
    end.
Qed.

End BatchFacts.

(** C8, the claim on an imported Evolution instance: its status call
    times out and the batch stores [STOPPED] over [WORKING]. *)
Lemma C8_counterexample :
  let w := Sample.world Sample.mixedRegistry in
  let after := (getSessionsRoute Sample.unreachable Sample.quepasa 2000
                                 (Sample.request "") w).2 in
  evolutionConnectionState Sample.unreachable "http://evo" "key" "sales_T1"
  = FetchThrows "timeout"
  /\ status <$> db w !! "sales_T1" = Some "WORKING"
  /\ status <$> db after !! "sales_T1" = Some "STOPPED"
  /\ calls after = [WahaGetSession "support_T1";
                    EvolutionConnectionState "http://evo" "key" "sales_T1";
                    EvolutionFetchInstances "http://evo" "key" "sales_T1"].
Proof. vm_compute. repeat split. Qed.

(** C8, amended.  The batch always answers 200 with the sessions read
    back: no exception reaches its caller.  Each loop runs the iteration
    of every session of its list, whatever the earlier ones did.  A WAHA
    session whose status call throws, a Quepasa session whose health call
    throws or answers an error other than 400, and an Evolution session
    of the shared gateway whose status call throws leave the registry as
    it was.  An imported Evolution instance whose status cannot be read
    is written with status [STOPPED], its pairing fields taken from the
    batch's snapshot, and no other session is touched. *)
Theorem C8_failures_are_isolated R quepasaConfig now :
  (forall req w, exists sessions w',
     getSessionsRoute R quepasaConfig now req w
     = (Returned {| code := 200; body := SessionsBody sessions |}, w'))
  /\ (forall l w,
        forEach l (syncWahaOne R now) w
        = (Returned tt, fold_left (fun v s => (syncWahaOne R now s v).2) l w))
  /\ (forall url login l w,
        forEach l (syncQuepasaOne R quepasaConfig now url login) w
        = (Returned tt,
           fold_left (fun v s => (syncQuepasaOne R quepasaConfig now url login s v).2)
                     l w))
  /\ (forall l w,
        forEach l (syncEvolutionOne R now) w
        = (Returned tt, fold_left (fun v s => (syncEvolutionOne R now s v).2) l w))
  /\ (forall s w e,
        wahaGetSession R (s_name s) = Thrown e ->
        db (syncWahaOne R now s w).2 = db w)
  /\ (forall url login s w token,
        Js.orNull (s_quepasaToken s) = Some token ->
        (exists e, quepasaHealthToken R url token = FetchThrows e)
        \/ (exists c t, quepasaHealthToken R url token = Status c t /\ c <> 400) ->
        db (syncQuepasaOne R quepasaConfig now url login s w).2 = db w)
  /\ (forall s w e,
        getEvolutionCredentialsForSession (s_name s) w = (Returned None, w) ->
        evolutionGetInstanceStatus R (s_name s) = Thrown e ->
        db (syncEvolutionOne R now s w).2 = db w)
  /\ (forall s w url apiKey,
        getEvolutionCredentialsForSession (s_name s) w
        = (Returned (Some (url, apiKey)), w) ->
        (forall state, evolutionConnectionState R url apiKey (s_name s) <> OkJson state) ->
        exists new,
          db (syncEvolutionOne R now s w).2 !! s_name s = Some new
          /\ status new = "STOPPED"
          /\ qr new = Js.orNull (s_qr s)
          /\ qrExpiresAt new = s_qrExpiresAt s
          /\ forall n, n <> s_name s ->
               db (syncEvolutionOne R now s w).2 !! n = db w !! n).
Proof.
  split; [apply getSessionsRoute_total|].
  split; [intros; apply forEach_all, syncWahaOne_total|].
  split; [intros; apply forEach_all, syncQuepasaOne_total|].
  split; [intros; apply forEach_all, syncEvolutionOne_total|].
  split; [intros s w e H; by rewrite (syncWahaOne_failed R now s w e H)|].
  split.
  { intros url login s w token Ht H.
    by rewrite (syncQuepasaOne_failed R quepasaConfig now url login s w token Ht H). }
  split; [intros s w e Hc H; by rewrite (syncEvolutionOne_failed R now s w e Hc H)|].
  intros s w url apiKey Hc H.
  destruct (syncEvolutionOne_imported_failed R now s w url apiKey Hc H)
    as (new & w' & -> & Hrest).
  by exists new.
Qed.

Lemma C8_witness :
  let w := Sample.world Sample.mixedRegistry in
  db (syncWahaOne Sample.unreachable 2000
        (toSession "support_T1" (Sample.row WAHA "SCAN_QR_CODE")) w).2 = db w
  /\ exists new,
       db (syncEvolutionOne Sample.unreachable 2000
             (toSession "sales_T1" Sample.imported) w).2 !! "sales_T1" = Some new
       /\ status new = "STOPPED".
Proof.
  destruct (C8_failures_are_isolated Sample.unreachable Sample.quepasa 2000)
    as (_ & _ & _ & _ & Hwaha & _ & _ & Himported).
  split.
  - exact (Hwaha (toSession "support_T1" (Sample.row WAHA "SCAN_QR_CODE"))
                 (Sample.world Sample.mixedRegistry) "timeout" eq_refl).
  - destruct (Himported (toSession "sales_T1" Sample.imported)
                        (Sample.world Sample.mixedRegistry) "http://evo" "key"
                        eq_refl ltac:(intros state; discriminate))
      as (new & Hlook & Hstatus & _).
    exists new. split; [exact Hlook | exact Hstatus].
Defined.

(** ** Concurrent sync triggers *)

(** The interleaving model agrees with [syncSession]: one trigger run
    alone to its end leaves the registry, the result and the calls of
    [syncSession]. *)
Lemma trigger_alone_is_syncSession R now n reg :
  let sys := runSchedule R now [0; 0; 0; 0; 0]%nat (triggered [n] reg) in
  let direct := syncSession R now n (Sample.world reg) in
  registry sys = db direct.2
  /\ triggers sys = [{| t_name := n; t_point := Finished direct.1 |}]
  /\ WahaGetSession <$> issued sys = calls direct.2.
Proof.
  unfold syncSession, syncSessionWrite. run_m.
  cbn. unfold resume, advance. cbn.
  destruct (wahaGetSession R n) as [ws|e]; cbn.
  - unfold readOutcome. destruct (findSession n None reg); cbn;
      destruct (findSession n None _); done.
  - destruct (findSession n None reg); done.
Qed.

Lemma filter_length_insert {A} (P : A -> bool) (l : list A) i t t' :
  l !! i = Some t ->
  (length (List.filter P (<[i := t']> l)) + (if P t then 1 else 0)
   = length (List.filter P l) + (if P t' then 1 else 0))%nat.
Proof.
  revert i. induction l as [|x l IH]; intros i Hi; [done|].
  destruct i as [|i].
  - injection Hi as ->. change (<[0%nat := t']> (t :: l)) with (t' :: l). cbn.
    destruct (P t), (P t'); cbn; lia.
  - specialize (IH i Hi). change (<[S i := t']> (x :: l)) with (x :: <[i := t']> l).
    cbn. destruct (P x); cbn; lia.
Qed.

Lemma filter_length_and {A} (P Q : A -> bool) (l : list A) :
  (length (List.filter (fun x => P x && Q x)%bool l) <= length (List.filter P l))%nat.
Proof.
  induction l as [|x l IH]; [done|]. cbn.
  destruct (P x), (Q x); cbn; lia.
Qed.

Lemma occurrences_snoc n m (l : list string) :
  occurrences n (l ++ [m])
  = (occurrences n l + (if String.eqb n m then 1 else 0))%nat.
Proof.
  unfold occurrences. rewrite List.filter_app, length_app. cbn.
  by destruct (String.eqb n m).
Qed.

Section InterleavingFacts.

Variable R : Remote.
Variable now : Z.

Lemma advance_name t sys : t_name (advance R now t sys).1 = t_name t.
Proof.
  unfold advance. destruct (t_point t); try done.
  by destruct (wahaGetSession R (t_name t)).
Qed.

Lemma advance_triggers t sys : triggers (advance R now t sys).2 = triggers sys.
Proof.
  unfold advance. destruct (t_point t); try done.
  by destruct (wahaGetSession R (t_name t)).
Qed.

Lemma resume_names i sys :
  t_name <$> triggers (resume R now i sys) = t_name <$> triggers sys.
Proof.
  unfold resume. destruct (triggers sys !! i) as [t|] eqn:Hi; [|done].
  pose proof (advance_name t sys) as Hn. pose proof (advance_triggers t sys) as Ht.
  destruct (advance R now t sys) as [t' sys']. cbn in *. rewrite Ht.
  rewrite list_fmap_insert, Hn. apply list_insert_id.
  by rewrite list_lookup_fmap, Hi.
Qed.

Lemma runSchedule_names schedule sys :
  t_name <$> triggers (runSchedule R now schedule sys) = t_name <$> triggers sys.
Proof.
  revert sys. induction schedule as [|i schedule IH]; intros sys; [done|].
  cbn. unfold runSchedule in IH. by rewrite IH, resume_names.
Qed.

Lemma resume_callsMatchTriggers i sys :
  callsMatchTriggers sys -> callsMatchTriggers (resume R now i sys).
Proof.
  intros Hinv n. specialize (Hinv n). unfold resume.
  destruct (triggers sys !! i) as [t|] eqn:Hi; [|done].
  unfold started in *.
  pose proof (filter_length_insert
                (fun t => (String.eqb (t_name t) n
                           && match t_point t with AtStart => false | _ => true end)%bool)
                (triggers sys) i t) as Hins.
  unfold advance. destruct t as [m p].
  destruct p; cbn [t_name t_point];
    try (destruct (wahaGetSession R m)); cbn [registry triggers issued];
    match goal with
    | |- context [<[i := ?t']> _] => specialize (Hins t' Hi)
    end;
    cbn in Hins; rewrite ?occurrences_snoc; rewrite ?(String.eqb_sym n m);
    destruct (String.eqb m n); cbn in Hins |- *; lia.
Qed.

Lemma runSchedule_callsMatchTriggers schedule sys :
  callsMatchTriggers sys -> callsMatchTriggers (runSchedule R now schedule sys).
Proof.
  revert sys. induction schedule as [|i schedule IH]; intros sys Hinv; [done|].
  cbn. apply IH. by apply resume_callsMatchTriggers.
Qed.

End InterleavingFacts.

Lemma started_when_finished n (l : list Trigger) :
  forallb isFinished l = true ->
  length (List.filter
            (fun t => (String.eqb (t_name t) n
                       && match t_point t with AtStart => false | _ => true end)%bool) l)
  = occurrences n (t_name <$> l).
Proof.
  unfold occurrences. induction l as [|t l IH]; [done|].
  cbn. intros [Ht Hl]%andb_prop. specialize (IH Hl).
  unfold isFinished in Ht. rewrite (String.eqb_sym n).
  destruct (t_point t); try discriminate.
  destruct (String.eqb (t_name t) n); cbn; by rewrite IH.
Qed.

Lemma inFlight_bound n sys :
  (inFlight n sys <= occurrences n (t_name <$> triggers sys))%nat.
Proof.
  unfold inFlight, occurrences.
  etransitivity; [apply filter_length_and|].
  induction (triggers sys) as [|t l IH]; [done|]. cbn.
  rewrite (String.eqb_sym n). destruct (String.eqb (t_name t) n); cbn; lia.
Qed.

Lemma triggered_names names reg : t_name <$> triggers (triggered names reg) = names.
Proof.
  unfold triggered. cbn. rewrite <- list_fmap_compose. apply list_fmap_id.
Qed.

Lemma triggered_callsMatchTriggers names reg :
  callsMatchTriggers (triggered names reg).
Proof.
  intros m. unfold started, triggered. cbn.
  induction names as [|x names IH]; [done|]. cbn.
  by rewrite andb_false_r.
Qed.

(** C3, the claim on two triggers for one session: both adapter calls
    are in flight at once. *)
Lemma C3_counterexample :
  let sys := runSchedule Sample.responsive 2000 [0; 1]%nat
               (triggered ["sales_T1"; "sales_T1"] Sample.fullRegistry) in
  inFlight "sales_T1" sys = 2%nat
  /\ issued sys = ["sales_T1"; "sales_T1"].
Proof. vm_compute. split; reflexivity. Qed.

(** C3, amended.  Sync triggers are not coalesced and nothing guards a
    session: under every interleaving each trigger that has started has
    made its own adapter call, so the calls in flight for a name are at
    most the triggers outstanding for it (and can be all of them), and
    when all triggers have finished each has called the adapter once. *)
Theorem C3_one_call_per_trigger R now names reg schedule n :
  let sys := runSchedule R now schedule (triggered names reg) in
  (inFlight n sys <= occurrences n names)%nat
  /\ occurrences n (issued sys) = started n sys
  /\ (forallb isFinished (triggers sys) = true ->
      occurrences n (issued sys) = occurrences n names).
Proof.
  cbn zeta.
  assert (Hnames : t_name <$> triggers (runSchedule R now schedule (triggered names reg))
                   = names)
    by (by rewrite runSchedule_names, triggered_names).
  assert (Hinv : callsMatchTriggers (runSchedule R now schedule (triggered names reg))).
  { apply runSchedule_callsMatchTriggers, triggered_callsMatchTriggers. }
  split; [rewrite <- Hnames at 2; apply inFlight_bound|].
  split; [apply Hinv|].
  intros Hdone. rewrite (Hinv n). unfold started.
  rewrite (started_when_finished n _ Hdone). by rewrite Hnames.
Qed.

Lemma C3_witness :
  let sys := runSchedule Sample.responsive 2000 [0; 1; 0; 1; 0; 1; 0; 1; 0; 1]%nat
               (triggered ["sales_T1"; "sales_T1"] Sample.fullRegistry) in
  (inFlight "sales_T1" sys <= 2)%nat
  /\ occurrences "sales_T1" (issued sys) = 2%nat.
Proof.
  destruct (C3_one_call_per_trigger Sample.responsive 2000 ["sales_T1"; "sales_T1"]
              Sample.fullRegistry [0; 1; 0; 1; 0; 1; 0; 1; 0; 1]%nat "sales_T1")
    as (Hbound & _ & Hdone).
  split; [exact Hbound | exact (Hdone eq_refl)].
Defined.

(** * Properties of the rest of the engine *)

(** ** The registry *)

Lemma newerFirst_total : Total newerFirst.
Proof. intros a b. unfold newerFirst. lia. Qed.

Lemma newerFirst_trans : Transitive newerFirst.
Proof. intros a b c. unfold newerFirst. lia. Qed.

Lemma listedRows_elem tenant (reg : Registry) n r :
  (n, r) ∈ listedRows tenant reg <-> reg !! n = Some r /\ matchesTenant tenant r = true.
Proof.
  unfold listedRows. rewrite merge_sort_Permutation.
  rewrite list_elem_of_In, List.filter_In, <- list_elem_of_In, elem_of_map_to_list.
  reflexivity.
Qed.

Lemma listedRows_NoDup tenant (reg : Registry) : NoDup (listedRows tenant reg).*1.
Proof.
  unfold listedRows. rewrite merge_sort_Permutation.
  assert (Hsub : sublist (List.filter (fun kr => matchesTenant tenant kr.2) (map_to_list reg))
                         (map_to_list reg)).
  { induction (map_to_list reg) as [|x l IH]; [done|]. cbn.
    destruct (matchesTenant tenant x.2); by constructor. }
  apply (sublist_NoDup _ (map_to_list reg).*1); [apply NoDup_fst_map_to_list|].
  by apply fmap_sublist.
Qed.

(** X1.  [getAllSessions(tenantId)] lists exactly the sessions of the
    tenant (every session when no tenant is given), each once, the most
    recently updated first. *)
Theorem X1_listing_is_the_tenants_sessions tenant (reg : Registry) :
  allSessions tenant reg = (fun kr => toSession kr.1 kr.2) <$> listedRows tenant reg
  /\ (forall n r, (n, r) ∈ listedRows tenant reg
                  <-> reg !! n = Some r /\ matchesTenant tenant r = true)
  /\ (forall s t, Js.orNull tenant = Some t -> s ∈ allSessions tenant reg ->
        s_tenantId s = Some t)
  /\ NoDup (s_name <$> allSessions tenant reg)
  /\ StronglySorted newerFirst (listedRows tenant reg).
Proof.
  split; [reflexivity|]. split; [apply listedRows_elem|]. split; [|split].
  - intros s t Ht Hs. unfold allSessions in Hs. fold (listedRows tenant reg) in Hs.
    apply list_elem_of_fmap in Hs as ([n r] & -> & Hin).
    apply listedRows_elem in Hin as [_ Hm]. unfold matchesTenant in Hm.
    rewrite Ht in Hm. cbn. by apply bool_decide_eq_true in Hm.
  - unfold allSessions. fold (listedRows tenant reg).
    rewrite <- list_fmap_compose.
    replace (s_name ∘ (fun kr : string * Row => toSession kr.1 kr.2)) with (@fst string Row)
      by reflexivity.
    apply listedRows_NoDup.
  - unfold listedRows. apply StronglySorted_merge_sort.
    + apply newerFirst_trans.
    + apply newerFirst_total.
Qed.

(** Unfolds the registry operations, then the operations of [M]. *)
Ltac run_registry :=
  unfold deleteSession, updateSessionStatus, updateStatusFast, updateStored,
    requireOwned;
  run_m.

Lemma findSession_Some n tenant (reg : Registry) s :
  findSession n tenant reg = Some s
  <-> exists r, reg !! n = Some r /\ matchesTenant tenant r = true /\ s = toSession n r.
Proof.
  unfold findSession. destruct (reg !! n) as [r|]; [|split; [done|by intros (? & ? & _)]].
  destruct (matchesTenant tenant r) eqn:Hm; split.
  - intros [= <-]. by exists r.
  - by intros (r' & [= <-] & _ & ->).
  - done.
  - intros (r' & [= <-] & Hm' & _). congruence.
Qed.

Lemma findSession_truthy n tenant (reg : Registry) :
  Js.truthy tenant = false -> findSession n tenant reg = toSession n <$> reg !! n.
Proof.
  unfold Js.truthy, findSession, matchesTenant.
  destruct (Js.orNull tenant); [done|]. intros _. by destruct (reg !! n).
Qed.

(** X2.  [deleteSession] removes the named row, and only that row, when
    the session is found under the caller's tenant (under any tenant when
    none is given); after it [getSession] throws for every caller.
    Otherwise it throws and the registry is as it was. *)
Theorem X2_delete_removes_only_the_owned_row n tenant w :
  (is_Some (findSession n tenant (db w)) ->
   exists w', deleteSession n tenant w = (Returned tt, w')
     /\ db w' !! n = None
     /\ (forall m, m <> n -> db w' !! m = db w !! m)
     /\ calls w' = calls w
     /\ forall scope, getSession n scope w' = (Thrown notFound, w'))
  /\ (findSession n tenant (db w) = None ->
      exists e, deleteSession n tenant w = (Thrown e, w)).
Proof.
  split.
  - intros [s Hs]. pose proof Hs as Hfound.
    apply findSession_Some in Hs as (r & Hrow & _ & _).
    exists {| db := delete n (db w); calls := calls w |}.
    split; [|split; [|split; [|split]]].
    + run_registry. destruct (Js.truthy tenant); cbn; rewrite ?Hfound; cbn;
        by rewrite Hrow.
    + apply lookup_delete_eq.
    + intros m Hm. by apply lookup_delete_ne.
    + done.
    + intros scope. run_m. unfold findSession. cbn. by rewrite lookup_delete_eq.
  - intros Hnone. run_registry. destruct (Js.truthy tenant) eqn:Ht; cbn.
    + rewrite Hnone. by eexists.
    + rewrite findSession_truthy in Hnone by done.
      destruct (db w !! n); [done|]. by eexists.
Qed.

Lemma X2_witness :
  exists w', deleteSession "sales_T1" (Some "T1") (Sample.world Sample.fullRegistry)
             = (Returned tt, w')
    /\ db w' !! "sales_T1" = None
    /\ db w' !! "support_T1" = Sample.fullRegistry !! "support_T1".
Proof.
  destruct (X2_delete_removes_only_the_owned_row "sales_T1" (Some "T1")
              (Sample.world Sample.fullRegistry)) as [Hdel _].
  destruct (Hdel ltac:(vm_compute; eauto)) as (w' & Hrun & Hgone & Hframe & _).
  exists w'. split; [exact Hrun|]. split; [exact Hgone|].
  exact (Hframe "support_T1" ltac:(discriminate)).
Defined.


Lemma updateStored_run n f w :
  updateStored n f w
  = match db w !! n with
    | Some old => (Returned tt, {| db := <[n := f old]> (db w); calls := calls w |})
    | None => (Thrown recordNotFound, w)
    end.
Proof. unfold updateStored. run_m. by destruct (db w !! n). Qed.

(** X3.  [updateStatusFast] is a merge: it sets the status, and of the
    other columns only those passed.  An omitted [quepasaToken], [qr] or
    [qrExpiresAt] keeps the stored value, an explicit [null] clears it;
    owner, provider, config and webhook settings are never touched, nor
    is any other row.  On a name that is not stored it throws and writes
    nothing. *)
Theorem X3_updateStatusFast_merges now n st meData fields w :
  (forall old, db w !! n = Some old ->
     exists new w', updateStatusFast now n st meData fields w = (Returned tt, w')
       /\ db w' !! n = Some new
       /\ status new = st
       /\ quepasaToken new = default (quepasaToken old) (f_quepasaToken fields)
       /\ qr new = default (qr old) (f_qr fields)
       /\ qrExpiresAt new = default (qrExpiresAt old) (f_qrExpiresAt fields)
       /\ tenantId new = tenantId old
       /\ provider new = provider old /\ config new = config old
       /\ webhookSecret new = webhookSecret old
       /\ interactiveCampaignEnabled new = interactiveCampaignEnabled old
       /\ forall m, m <> n -> db w' !! m = db w !! m)
  /\ (db w !! n = None ->
      updateStatusFast now n st meData fields w = (Thrown recordNotFound, w)).
Proof.
  unfold updateStatusFast. rewrite updateStored_run. split.
  - intros old ->. do 2 eexists. split; [reflexivity|]. cbn.
    split; [apply lookup_insert_eq|]. repeat (split; [reflexivity|]).
    intros m Hm. by apply lookup_insert_ne.
  - by intros ->.
Qed.

Lemma X3_witness :
  exists new w',
    updateStatusFast 2000 "sales_T1" "STOPPED" None noFields
                     (Sample.world Sample.tokenRegistry) = (Returned tt, w')
    /\ db w' !! "sales_T1" = Some new
    /\ status new = "STOPPED"
    /\ quepasaToken new = Some "tok".
Proof.
  destruct (X3_updateStatusFast_merges 2000 "sales_T1" "STOPPED" None noFields
              (Sample.world Sample.tokenRegistry)) as [Hmerge _].
  destruct (Hmerge Sample.tokenRow ltac:(vm_compute; reflexivity))
    as (new & w' & Hrun & Hlook & Hst & Htok & _).
  exists new, w'. split; [exact Hrun|]. split; [exact Hlook|]. split; [exact Hst|].
  exact Htok.
Defined.

(** X4.  [updateSessionStatus] refuses, without writing, a caller whose
    tenant does not own the session; otherwise it sets the status and the
    fields passed, and keeps the token, the provider, the config, the
    webhook settings and every field it was not given. *)
Theorem X4_updateSessionStatus_guards_and_merges now n st extras tenant w :
  (forall old, db w !! n = Some old -> matchesTenant tenant old = true ->
     exists new w', updateSessionStatus now n st extras tenant w = (Returned tt, w')
       /\ db w' !! n = Some new
       /\ status new = st
       /\ keepsIdentity old new
       /\ qr new = assigned (x_qr extras) (qr old)
       /\ qrExpiresAt new = assigned (x_qrExpiresAt extras) (qrExpiresAt old)
       /\ tenantId new = assigned (x_tenantId extras) (tenantId old)
       /\ forall m, m <> n -> db w' !! m = db w !! m)
  /\ (findSession n tenant (db w) = None ->
      exists e, updateSessionStatus now n st extras tenant w = (Thrown e, w)).
Proof.
  split.
  - intros old Hrow Hscope.
    assert (Hfound : findSession n tenant (db w) = Some (toSession n old))
      by (unfold findSession; by rewrite Hrow, Hscope).
    exists (statusRow now st extras old). eexists. split.
    + run_registry. destruct (Js.truthy tenant); cbn; rewrite ?Hfound; cbn;
        by rewrite Hrow.
    + cbn. split; [apply lookup_insert_eq|]. split; [done|]. split; [by repeat split|].
      repeat (split; [reflexivity|]). intros m Hm. by apply lookup_insert_ne.
  - intros Hnone. run_registry. destruct (Js.truthy tenant) eqn:Ht; cbn.
    + rewrite Hnone. by eexists.
    + rewrite findSession_truthy in Hnone by done.
      destruct (db w !! n); [done|]. by eexists.
Qed.

Lemma X4_witness :
  (exists new w',
     updateSessionStatus 2000 "sales_T1" "STOPPED" noExtras (Some "T1")
                         (Sample.world Sample.tokenRegistry) = (Returned tt, w')
     /\ db w' !! "sales_T1" = Some new
     /\ status new = "STOPPED"
     /\ keepsIdentity Sample.tokenRow new)
  /\ exists e, updateSessionStatus 2000 "sales_T1" "STOPPED" noExtras (Some "T2")
                                   (Sample.world Sample.tokenRegistry)
               = (Thrown e, Sample.world Sample.tokenRegistry).
Proof.
  destruct (X4_updateSessionStatus_guards_and_merges 2000 "sales_T1" "STOPPED"
              noExtras (Some "T1") (Sample.world Sample.tokenRegistry)) as [Hown _].
  destruct (X4_updateSessionStatus_guards_and_merges 2000 "sales_T1" "STOPPED"
              noExtras (Some "T2") (Sample.world Sample.tokenRegistry)) as [_ Hother].
  split.
  - destruct (Hown Sample.tokenRow ltac:(vm_compute; reflexivity) eq_refl)
      as (new & w' & Hrun & Hlook & Hst & Hid & _).
    exists new, w'. split; [exact Hrun|]. split; [exact Hlook|]. split; [exact Hst|].
    exact Hid.
  - exact (Hother ltac:(vm_compute; reflexivity)).
Defined.

Lemma keepsIdentity_refl r : keepsIdentity r r.
Proof. by repeat split. Qed.

Lemma keepsPairing_refl r : keepsPairing r r.
Proof. by repeat split. Qed.

Lemma keepsIdentity_trans a b c :
  keepsIdentity a b -> keepsIdentity b c -> keepsIdentity a c.
Proof.
  unfold keepsIdentity. intros (?&?&?&?&?&?) (?&?&?&?&?&?).
  repeat split; congruence.
Qed.

Lemma keepsPairing_trans a b c :
  keepsPairing a b -> keepsPairing b c -> keepsPairing a c.
Proof.
  unfold keepsPairing. intros (?&?&?&?) (?&?&?&?). repeat split; congruence.
Qed.

Lemma applyBatch_None now updates (reg : Registry) :
  applyBatch now updates reg = None
  <-> exists u, u ∈ updates /\ reg !! u_name u = None.
Proof.
  revert reg. induction updates as [|u rest IH]; intros reg; cbn.
  - split; [done|]. intros (u & Hu & _). by apply elem_of_nil in Hu.
  - destruct (reg !! u_name u) as [old|] eqn:Hrow.
    + rewrite IH. split.
      * intros (v & Hv & Hnone). exists v. split; [by right|].
        destruct (decide (u_name u = u_name v)) as [Heq|Hne].
        -- by rewrite <- Heq, lookup_insert_eq in Hnone.
        -- by rewrite lookup_insert_ne in Hnone.
      * intros (v & Hv & Hnone). apply elem_of_cons in Hv as [->|Hv]; [congruence|].
        exists v. split; [done|].
        destruct (decide (u_name u = u_name v)) as [Heq|Hne]; [congruence|].
        by rewrite lookup_insert_ne.
    + split; [|done]. intros _. exists u. split; [by left|done].
Qed.

Lemma applyBatch_Some now updates (reg reg' : Registry) :
  applyBatch now updates reg = Some reg' ->
  (forall m, m ∉ u_name <$> updates -> reg' !! m = reg !! m)
  /\ (forall m r, reg !! m = Some r ->
        exists r', reg' !! m = Some r' /\ keepsIdentity r r' /\ keepsPairing r r')
  /\ (forall m, reg !! m = None -> reg' !! m = None)
  /\ (forall m r', m ∈ u_name <$> updates -> reg' !! m = Some r' ->
        exists u, u ∈ updates /\ u_name u = m /\ status r' = u_status u).
Proof.
  revert reg. induction updates as [|u rest IH]; intros reg; cbn.
  - intros [= <-]. split; [done|]. split.
    { intros m r Hr. exists r. auto using keepsIdentity_refl, keepsPairing_refl. }
    split; [done|]. intros m r' Hm. by apply elem_of_nil in Hm.
  - destruct (reg !! u_name u) as [old|] eqn:Hrow; [|done]. intros Hrest.
    destruct (IH _ Hrest) as (Hframe & Hkeep & Hnone & Hstatus).
    split; [|split; [|split]].
    + intros m Hm. apply not_elem_of_cons in Hm as [Hne Hm].
      rewrite (Hframe m Hm). by apply lookup_insert_ne.
    + intros m r Hr. destruct (decide (u_name u = m)) as [<-|Hne].
      * destruct (Hkeep (u_name u) (batchRow now u old)) as (r' & Hr' & Hid & Hp);
          [apply lookup_insert_eq|].
        assert (r = old) as -> by congruence.
        exists r'. split; [done|]. split.
        -- eapply keepsIdentity_trans; [|exact Hid]. by repeat split.
        -- eapply keepsPairing_trans; [|exact Hp]. by repeat split.
      * apply Hkeep. by rewrite lookup_insert_ne.
    + intros m Hm. apply Hnone. destruct (decide (u_name u = m)) as [<-|Hne];
        [congruence|]. by rewrite lookup_insert_ne.
    + intros m r' Hm Hr'. destruct (decide (m ∈ u_name <$> rest)) as [Hin|Hout].
      * destruct (Hstatus m r' Hin Hr') as (v & Hv & Hname & Hst).
        exists v. split; [by right|done].
      * apply elem_of_cons in Hm as [->|Hm]; [|done].
        rewrite (Hframe _ Hout), lookup_insert_eq in Hr'. injection Hr' as <-.
        exists u. split; [by left|done].
Qed.

(** X5.  [batchUpdateStatus] is all or nothing: when one of the names is
    not stored it throws and no row is written.  Otherwise every named
    session gets a status of the batch (its own when the names are
    distinct), and nothing else changes: no row appears or disappears,
    rows that are not named are untouched, and the token, pairing
    artifact, owner, provider, config and webhook settings of every row
    are kept. *)
Theorem X5_batch_is_all_or_nothing now updates w :
  ((exists u, u ∈ updates /\ db w !! u_name u = None) ->
   batchUpdateStatus now updates w = (Thrown recordNotFound, w))
  /\ ((forall u, u ∈ updates -> is_Some (db w !! u_name u)) ->
      exists w', batchUpdateStatus now updates w = (Returned tt, w')
        /\ calls w' = calls w
        /\ (forall m, m ∉ u_name <$> updates -> db w' !! m = db w !! m)
        /\ (forall m r, db w !! m = Some r ->
              exists r', db w' !! m = Some r' /\ keepsIdentity r r' /\ keepsPairing r r')
        /\ (forall m, db w !! m = None -> db w' !! m = None)
        /\ (NoDup (u_name <$> updates) ->
            forall u, u ∈ updates ->
              exists r', db w' !! u_name u = Some r' /\ status r' = u_status u)).
Proof.
  split.
  - intros Hmissing. apply (applyBatch_None now) in Hmissing as Hnone.
    unfold batchUpdateStatus. destruct updates as [|u rest].
    { destruct Hmissing as (u & Hu & _). by apply elem_of_nil in Hu. }
    run_m. by rewrite Hnone.
  - intros Hall.
    destruct (applyBatch now updates (db w)) as [reg'|] eqn:Hrun.
    2: { apply applyBatch_None in Hrun as (u & Hu & Hnone).
         destruct (Hall u Hu) as [r Hr]. congruence. }
    destruct (applyBatch_Some now updates (db w) reg' Hrun)
      as (Hframe & Hkeep & Hnone & Hstatus).
    exists {| db := reg'; calls := calls w |}. split.
    { unfold batchUpdateStatus. destruct updates as [|u rest].
      - cbn in Hrun. injection Hrun as <-. by destruct w.
      - run_m. by rewrite Hrun. }
    cbn. split; [done|]. split; [done|]. split; [done|]. split; [done|].
    intros Hdistinct u Hu. destruct (Hall u Hu) as [r Hr].
    destruct (Hkeep _ _ Hr) as (r' & Hr' & _). exists r'. split; [done|].
    destruct (Hstatus (u_name u) r') as (v & Hv & Hname & Hst);
      [by apply list_elem_of_fmap_2|done|].
    assert (v = u) as ->; [|done].
    apply list_elem_of_lookup in Hv as [i Hi]. apply list_elem_of_lookup in Hu as [j Hj].
    assert (i = j) as ->; [|congruence].
    eapply NoDup_lookup; [exact Hdistinct| |];
      rewrite list_lookup_fmap; [by rewrite Hi | by rewrite Hj, Hname].
Qed.

Lemma X5_witness :
  batchUpdateStatus 2000
    (sampleBatch ++ [ {| u_name := "ghost"; u_status := "WORKING"; u_me := None |} ])
    (Sample.world Sample.fullRegistry)
  = (Thrown recordNotFound, Sample.world Sample.fullRegistry)
  /\ exists w' r',
       batchUpdateStatus 2000 sampleBatch (Sample.world Sample.fullRegistry)
       = (Returned tt, w')
       /\ db w' !! "sales_T1" = Some r' /\ status r' = "WORKING".
Proof.
  split.
  - apply X5_batch_is_all_or_nothing.
    exists {| u_name := "ghost"; u_status := "WORKING"; u_me := None |}.
    split; [|vm_compute; reflexivity]. set_solver.
  - destruct (X5_batch_is_all_or_nothing 2000 sampleBatch
                (Sample.world Sample.fullRegistry)) as [_ Hall].
    destruct Hall as (w' & Hrun & _ & _ & _ & _ & Hstatus).
    { intros u Hu. unfold sampleBatch in Hu.
      apply elem_of_cons in Hu as [->|Hu]; [vm_compute; eauto|].
      apply elem_of_cons in Hu as [->|Hu]; [vm_compute; eauto|].
      by apply elem_of_nil in Hu. }
    destruct (Hstatus ltac:(vm_compute; repeat constructor;
                            rewrite ?elem_of_cons, ?elem_of_nil; intros H;
                            repeat destruct H as [H|H]; discriminate || done)
                {| u_name := "sales_T1"; u_status := "WORKING"; u_me := None |}
                ltac:(left)) as (r' & Hr' & Hst).
    exists w', r'. split; [exact Hrun|]. split; [exact Hr'|exact Hst].
Defined.

(** ** The webhook verifier, continued *)

Lemma digitChar_not_s (d : N) : (d < 16)%N -> Hex.digitChar d <> "s"%char.
Proof.
  intros Hd.
  assert (exists k, (k < 16)%nat /\ d = N.of_nat k) as (k & Hk & ->)
    by (exists (N.to_nat d); lia).
  do 16 (destruct k as [|k]; [discriminate|]). lia.
Qed.

Lemma removeFirst_hex (bytes : list N) :
  Forall (fun b => (b < 256)%N) bytes ->
  Js.removeFirst "sha256=" (Hex.encode bytes) = Hex.encode bytes.
Proof.
  induction 1 as [|b bytes Hb _ IH]; [reflexivity|].
  assert (H1 : Hex.digitChar (b / 16) <> "s"%char)
    by (apply digitChar_not_s, N.Div0.div_lt_upper_bound; lia).
  assert (H2 : Hex.digitChar (b mod 16) <> "s"%char)
    by (apply digitChar_not_s, N.mod_lt; lia).
  cbn [Hex.encode]. cbn [Js.removeFirst Js.startsWith].
  apply Ascii.eqb_neq in H1, H2. rewrite (Ascii.eqb_sym _ (Hex.digitChar (b / 16))), H1.
  cbn [andb]. f_equal. cbn [Js.removeFirst Js.startsWith].
  rewrite (Ascii.eqb_sym _ (Hex.digitChar (b mod 16))), H2. cbn [andb]. f_equal.
  exact IH.
Qed.

(** X6.  A signature computed as the hexadecimal HMAC-SHA256 of the body
    under the secret is accepted, with or without the [sha256=] prefix,
    for every body and secret. *)
Theorem X6_computed_signature_is_accepted (body secret : string) :
  let signature := Hex.encode (Sha256.hmac (Sha256.bytesOf secret) (Sha256.bytesOf body)) in
  validateHmacSignature (Some signature) body secret = true
  /\ validateHmacSignature (Some ("sha256=" ++ signature)) body secret = true.
Proof.
  cbn zeta. unfold validateHmacSignature.
  destruct (hmac_bytes (Sha256.bytesOf secret) (Sha256.bytesOf body)) as [Hb Hlen].
  rewrite removeFirst_hex by exact Hb.
  change (Js.removeFirst "sha256=" ("sha256=" ++ ?s)) with s.
  rewrite decode_encode by exact Hb.
  unfold timingSafeEqual. rewrite Nat.eqb_refl.
  split; by apply bool_decide_eq_true.
Qed.

(** ** The quota gate and creation, continued *)

(** X7.  The quota gate never writes and never calls a provider.  It lets
    every SUPERADMIN through; it refuses with 403 a caller without tenant
    or whose tenant has no quota row; for the others it refuses exactly
    the creations whose resource count has reached the cap, and never an
    [update]. *)
Theorem X7_quota_gate_characterised tenantQuota check req w :
  (exists g, quotaMiddleware tenantQuota check req w = (Returned g, w))
  /\ (isSuperadmin req = true ->
      quotaMiddleware tenantQuota check req w = (Returned Next, w))
  /\ (isSuperadmin req = false ->
      (Js.orNull (reqTenantId req) = None
       \/ exists t, Js.orNull (reqTenantId req) = Some t /\ tenantQuota t = None) ->
      exists message,
        quotaMiddleware tenantQuota check req w
        = (Returned (Answer {| code := 403; body := ErrorBody message |}), w))
  /\ (forall t q, isSuperadmin req = false ->
        Js.orNull (reqTenantId req) = Some t -> tenantQuota t = Some q ->
        let '(currentCount, maxAllowed) := usage (resource check) q t (db w) in
        (quotaMiddleware tenantQuota check req w = (Returned Next, w)
         <-> action check = update \/ currentCount < maxAllowed)
        /\ (action check = create -> maxAllowed <= currentCount ->
            exists message,
              quotaMiddleware tenantQuota check req w
              = (Returned (Answer {| code := 403;
                                     body := QuotaBody message currentCount maxAllowed |}),
                 w))).
Proof.
  unfold quotaMiddleware. run_m.
  destruct (isSuperadmin req) eqn:Hrole.
  { split; [by eexists|]. split; [done|]. split; [done|]. by intros. }
  destruct (Js.orNull (reqTenantId req)) as [t|] eqn:Ht.
  2: { split; [by eexists|]. split; [done|]. split; [by eexists|]. by intros. }
  destruct (tenantQuota t) as [q|] eqn:Hq; cbn -[quotaMessage].
  2: { split; [by eexists|]. split; [done|]. split; [by eexists|].
       intros t' q' _ [= <-]. congruence. }
  assert (Hgate : forall current limit,
    (let (o, w') :=
       match action check with
       | create =>
           if limit <=? current
           then fun w0 : World =>
                  (Returned (Answer {| code := 403;
                                       body := QuotaBody
                                         (quotaMessage (resource check) current limit)
                                         current limit |}), w0)
           else fun w0 : World => (Returned Next, w0)
       | update => fun w0 : World => (Returned Next, w0)
       end w in
     match o with
     | Returned a => (Returned a, w')
     | Thrown _ =>
         (Returned (Answer {| code := 500;
                              body := ErrorBody "Erro interno ao verificar quotas" |}), w')
     end)
    = (Returned
         (match action check with
          | create =>
              if limit <=? current
              then Answer {| code := 403;
                             body := QuotaBody
                               (quotaMessage (resource check) current limit)
                               current limit |}
              else Next
          | update => Next
          end), w)).
  { intros current limit. destruct (action check); [|done]. by destruct (_ <=? _). }
  unfold usage.
  destruct (resource check); cbn -[quotaMessage]; rewrite Hgate;
    (split; [by eexists|]); (split; [done|]);
    (split; [intros _ [[=]|(t' & [= <-] & Hnone)]; congruence|]);
    intros t' q' _ [= <-] Hq'; rewrite Hq in Hq'; injection Hq' as <-; cbn;
    (split;
     [ destruct (action check);
       [ destruct (_ <=? _) eqn:Hle;
         [ apply Z.leb_le in Hle; split; [intros [=]|intros [[=]|]; lia]
         | apply Z.leb_gt in Hle; split; [intros _; by right|done] ]
       | split; [intros _; by left|done] ]
     | intros -> Hle; apply Z.leb_le in Hle; rewrite Hle; by eexists ]).
Qed.






Lemma orNull_Some (o : option string) t : Js.orNull o = Some t -> Js.orNull (Some t) = Some t.
Proof. intros <-. apply orNull_idem. Qed.




Lemma upsert_owner now data (reg : Registry) :
  exists new, upsert now data reg !! d_name data = Some new
    /\ tenantId new = Js.orNull (d_tenantId data)
    /\ provider new = Some (d_provider data).
Proof.
  destruct (reg !! d_name data) as [old|] eqn:Hrow.
  - exists (updateRow now data old). split; [by apply upsert_lookup_existing|done].
  - exists (createRow now data). split; [by apply upsert_lookup_fresh|done].
Qed.

(** What [WahaSyncService.createSession] may write: the row of its
    session, nothing else. *)
Lemma wahaCreateSession_frame R now n webhook w :
  exists o w', wahaCreateSession R now n webhook w = (o, w')
    /\ forall m, m <> n -> db w' !! m = db w !! m.
Proof.
  unfold wahaCreateSession. run_m.
  destruct (wahaPostSession R n webhook) as [result|message]; cbn.
  { eexists _, _. split; [reflexivity|]. intros m Hm. cbn.
    by rewrite upsert_lookup_other. }
  destruct (Js.includes "422" message); cbn; [|by eexists _, _].
  destruct (wahaGetSession R n) as [existing|e]; cbn; [|by eexists _, _].
  eexists _, _. split; [reflexivity|]. intros m Hm. cbn.
  by rewrite upsert_lookup_other.
Qed.

(** The handler past its checks: it answers 200 or throws, writes only
    the new name, and a 200 leaves the row of the tenant there. *)
Lemma createFor_outcome R now freshSecret freshToken p realName display tenant
    interactive w :
  Js.orNull (Some tenant) = Some tenant ->
  exists o w',
    createFor R now freshSecret freshToken p realName display tenant interactive w
    = (o, w')
    /\ (forall m, m <> realName -> db w' !! m = db w !! m)
    /\ (exists row, db w' !! realName = Some row)
    /\ match o with
       | Returned r =>
           code r = 200
           /\ exists row, db w' !! realName = Some row
                /\ tenantId row = Some tenant /\ provider row = Some p
       | Thrown _ => True
       end.
Proof.
  intros Htenant. unfold createFor.
  destruct p.
  - (* WAHA *)
    run_m.
    destruct (wahaCreateSession_frame R now realName
                (match interactive, Js.orNull (if interactive then Some freshSecret else None) with
                 | true, Some sec => Some (webhookUrl realName sec)
                 | _, _ => None
                 end)
                {| db := <[realName := newRow now display "SCAN_QR_CODE" WAHA tenant None
                                         interactive
                                         (if interactive then Some freshSecret else None)]>
                           (db w);
                   calls := calls w |})
      as (o & w1 & Hrun & Hframe).
    rewrite Hrun. destruct o as [result|e]; cbn.
    + eexists _, _. split; [reflexivity|]. cbn. split.
      { intros m Hm. rewrite upsert_lookup_other by done.
        rewrite Hframe by done. cbn. by rewrite lookup_insert_ne. }
      destruct (upsert_owner now
                  (createdData realName display WAHA tenant None None interactive
                     (if interactive then Some freshSecret else None)) (db w1))
        as (new & Hnew & Hten & Hprov).
      cbn [createdData d_name d_tenantId d_provider] in Hnew, Hten, Hprov.
      rewrite Htenant in Hten.
      split; [by eexists|]. split; [done|]. by exists new.
    + eexists _, _. split; [reflexivity|]. split.
      { intros m Hm. rewrite Hframe by done. cbn. by rewrite lookup_insert_ne. }
      split; [|done].
      revert Hrun. unfold wahaCreateSession. run_m.
      destruct (wahaPostSession R realName _) as [result|message]; cbn; [by intros [= ]|].
      destruct (Js.includes "422" message); cbn.
      * destruct (wahaGetSession R realName) as [existing|e']; cbn; [by intros [=]|].
        intros [= _ <-]. cbn. rewrite lookup_insert_eq. by eexists.
      * intros [= _ <-]. cbn. rewrite lookup_insert_eq. by eexists.
  - (* EVOLUTION *)
    run_m.
    destruct (evolutionCreateInstance R realName _) as [result|message]; cbn.
    + eexists _, _. split; [reflexivity|]. cbn. split.
      { intros m Hm. rewrite upsert_lookup_other by done. by rewrite lookup_insert_ne. }
      match goal with
      | |- context [upsert now ?d ?reg] =>
          destruct (upsert_owner now d reg) as (new & Hnew & Hten & Hprov)
      end.
      cbn [createdData d_name d_tenantId d_provider] in Hnew, Hten, Hprov.
      rewrite Htenant in Hten.
      split; [by eexists|]. split; [done|]. by exists new.
    + eexists _, _. split; [reflexivity|]. cbn. split.
      { intros m Hm. by rewrite lookup_insert_ne. }
      split; [|done]. rewrite lookup_insert_eq. by eexists.
  - (* QUEPASA *)
    run_m. eexists _, _. split; [reflexivity|]. cbn. split.
    { intros m Hm. by rewrite lookup_insert_ne. }
    rewrite lookup_insert_eq. split; [by eexists|]. split; [done|]. by eexists.
Qed.

(** X10.  [POST /sessions] always answers, with 200, 400, 403, 409 or
    500.  An answer other than 200 and 500 leaves the registry and the
    providers untouched; a 200 leaves a row of the tenant and of the asked
    provider under the new name; whatever the answer, no row under another
    name is changed. *)
Theorem X10_creation_answers_and_frames R now freshSecret freshToken tenantQuota req w :
  exists r w',
    postSessionsRoute R now freshSecret freshToken tenantQuota req w = (Returned r, w')
    /\ (code r = 200 \/ code r = 400 \/ code r = 403 \/ code r = 409 \/ code r = 500)
    /\ (code r <> 200 -> code r <> 500 -> w' = w)
    /\ (code r = 200 ->
        exists n tenant row,
          Js.orNull (bodyName req) = Some n
          /\ Js.orNull (creationTenant req) = Some tenant
          /\ db w !! realNameOf n tenant = None
          /\ db w' !! realNameOf n tenant = Some row
          /\ tenantId row = Some tenant
          /\ provider row = requestedProvider req)
    /\ (forall m,
          (forall n tenant, Js.orNull (bodyName req) = Some n ->
                            Js.orNull (creationTenant req) = Some tenant ->
                            m <> realNameOf n tenant) ->
          db w' !! m = db w !! m).
Proof.
  unfold postSessionsRoute, guarded.
  destruct (gate_outcome tenantQuota req w) as [g Hg].
  unfold bind at 1. rewrite Hg.
  assert (Hgate : forall r, g = Answer r -> code r = 403).
  { intros r ->. revert Hg. unfold checkConnectionQuota, quotaMiddleware. run_m.
    destruct (isSuperadmin req); [by intros [=]|].
    destruct (Js.orNull (reqTenantId req)); [|by intros [= <-]].
    destruct (tenantQuota s); [|by intros [= <-]]. cbn.
    destruct (_ <=? _); [by intros [= <-]|by intros [=]]. }
  destruct g as [|r].
  2: { exists r, w. specialize (Hgate r eq_refl). split; [done|]. split; [tauto|].
       split; [done|]. split; [lia|done]. }
  clear Hgate Hg.
  unfold createSessionHandler. run_m.
  destruct (Js.orNull (bodyName req)) as [n|] eqn:Hname.
  2: { eexists _, w. split; [reflexivity|]. cbn. split; [tauto|]. split; [done|].
       split; [lia|done]. }
  destruct (requestedProvider req) as [p|] eqn:Hprov.
  2: { eexists _, w. split; [reflexivity|]. cbn. split; [tauto|]. split; [done|].
       split; [lia|done]. }
  destruct (Js.orNull (creationTenant req)) as [tenant|] eqn:Htenant.
  2: { eexists _, w. split; [reflexivity|]. cbn. split; [tauto|]. split; [done|].
       split; [lia|done]. }
  destruct (db w !! realNameOf n tenant) as [old|] eqn:Hold.
  { eexists _, w. split; [reflexivity|]. cbn. split; [tauto|]. split; [done|].
    split; [lia|done]. }
  destruct (createFor_outcome R now freshSecret freshToken p (realNameOf n tenant)
              (Js.trim n) tenant (bodyInteractive req) w (orNull_Some _ _ Htenant))
    as (o & w' & Hrun & Hframe & _ & Hout).
  rewrite Hrun. destruct o as [r|e].
  - destruct Hout as (Hcode & row & Hrow & Hten & Hp).
    exists r, w'. split; [done|]. split; [tauto|]. split; [done|]. split.
    + intros _. exists n, tenant, row. by rewrite Hp.
    + intros m Hm. apply Hframe. by apply Hm.
  - eexists _, w'. split; [reflexivity|]. cbn. split; [tauto|]. split; [done|].
    split; [lia|]. intros m Hm. apply Hframe. by apply Hm.
Qed.



(** ** The batch sync, continued *)

Lemma listed_sessions tenant (reg : Registry) s :
  s ∈ allSessions tenant reg
  <-> exists n r, reg !! n = Some r /\ matchesTenant tenant r = true /\ s = toSession n r.
Proof.
  unfold allSessions. fold (listedRows tenant reg). rewrite list_elem_of_fmap. split.
  - intros ([n r] & -> & Hin). apply listedRows_elem in Hin as [Hrow Hm].
    by exists n, r.
  - intros (n & r & Hrow & Hm & ->). exists (n, r). split; [done|].
    by apply listedRows_elem.
Qed.

(** X12.  [GET /sessions] always answers 200, and what it lists is read
    back after the three loops with the caller's tenant as filter: exactly
    the rows the registry then holds for that tenant, and every row when
    the request carries no tenant. *)
Theorem X12_listing_route_is_scoped R quepasaConfig now req w :
  exists sessions w',
    getSessionsRoute R quepasaConfig now req w
    = (Returned {| code := 200; body := SessionsBody sessions |}, w')
    /\ (forall t, Js.orNull (reqTenantId req) = Some t ->
        forall s, s ∈ sessions
                  <-> exists n r, db w' !! n = Some r /\ tenantId r = Some t
                                  /\ s = toSession n r)
    /\ (Js.orNull (reqTenantId req) = None ->
        forall s, s ∈ sessions <-> exists n r, db w' !! n = Some r /\ s = toSession n r).
Proof.
  unfold getSessionsRoute, syncWaha, syncQuepasa, syncEvolution.
  unfold tryCatch at 1. unfold bind at 1.
  destruct (tryCatch_swallow
              (let! wahaSessions := getAllSessions (reqTenantId req) in
               forEach (List.filter (hasProvider WAHA) wahaSessions)
                       (syncWahaOne R now)) w) as [w1 ->].
  unfold bind at 1.
  match goal with
  | |- context [tryCatch ?m (fun _ => ret tt) w1] =>
      destruct (tryCatch_swallow m w1) as [w2 ->]
  end.
  unfold bind at 1.
  match goal with
  | |- context [tryCatch ?m (fun _ => ret tt) w2] =>
      destruct (tryCatch_swallow m w2) as [w3 ->]
  end.
  run_m. eexists _, w3. split; [reflexivity|]. split.
  - intros t Ht s. rewrite listed_sessions. unfold matchesTenant. rewrite Ht.
    split; intros (n & r & Hrow & Hm & ->); exists n, r; (split; [done|]);
      (split; [|done]).
    + by apply bool_decide_eq_true in Hm.
    + by apply bool_decide_eq_true.
  - intros Ht s. rewrite listed_sessions. unfold matchesTenant. rewrite Ht.
    split; [intros (n & r & Hrow & _ & ->)|intros (n & r & Hrow & ->)];
      by exists n, r.
Qed.

Lemma X12_witness :
  exists sessions w',
    getSessionsRoute Sample.unreachable Sample.quepasa 2000 (Sample.request EmptyString)
      (Sample.world Sample.fullRegistry)
    = (Returned {| code := 200; body := SessionsBody sessions |}, w')
    /\ forall s, s ∈ sessions
                 <-> exists n r, db w' !! n = Some r /\ tenantId r = Some "T1"
                                 /\ s = toSession n r.
Proof.
  destruct (X12_listing_route_is_scoped Sample.unreachable Sample.quepasa 2000
              (Sample.request EmptyString) (Sample.world Sample.fullRegistry))
    as (sessions & w' & Hrun & Hscoped & _).
  exists sessions, w'. split; [exact Hrun|]. exact (Hscoped "T1" eq_refl).
Defined.

(** X13.  The Evolution loop does not keep the credentials of an imported
    instance: the write that stores the status it read with them clears
    [config], so afterwards [getEvolutionCredentialsForSession] finds
    none. *)
Theorem X13_sync_drops_imported_credentials R now s w url apiKey :
  getEvolutionCredentialsForSession (s_name s) w = (Returned (Some (url, apiKey)), w) ->
  (forall state,
     evolutionConnectionState R url apiKey (s_name s) = OkJson state ->
     is_Some (isInternalStatus (mapEvolutionState state))) ->
  exists new w',
    syncEvolutionOne R now s w = (Returned tt, w')
    /\ db w' !! s_name s = Some new
    /\ config new = None
    /\ getEvolutionCredentialsForSession (s_name s) w' = (Returned None, w').
Proof.
  intros Hcreds Hknown. unfold syncEvolutionOne.
  unfold tryCatch at 1. unfold bind at 1. rewrite Hcreds.
  unfold customEvolutionStatus, customEvolutionInfo, storeEvolutionStatus.
  run_m.
  assert (Hwritten : forall data reg,
            d_name data = s_name s -> d_config data = None ->
            exists new, upsert now data reg !! s_name s = Some new /\ config new = None).
  { intros data reg Hn Hc. rewrite <- Hn.
    destruct (reg !! d_name data) as [old|] eqn:Hrow.
    - exists (updateRow now data old). split; [by apply upsert_lookup_existing|done].
    - exists (createRow now data). split; [by apply upsert_lookup_fresh|done]. }
  destruct (evolutionConnectionState R url apiKey (s_name s)) as [e|c|state] eqn:Hstate;
    cbn;
    [| |destruct (Hknown state eq_refl) as [st ->]];
    destruct (evolutionFetchInstances R url apiKey (s_name s)) as [?|?|info]; cbn;
    match goal with
    | |- context [upsert now ?data ?reg] =>
        destruct (Hwritten data reg eq_refl eq_refl) as (new & Hlook & Hconfig);
        exists new; eexists; (split; [reflexivity|]); cbn;
        (split; [exact Hlook|]); (split; [exact Hconfig|]);
        unfold getEvolutionCredentialsForSession; run_m;
        rewrite Hlook; cbn; by rewrite Hconfig
    end.
Qed.

Lemma X13_witness :
  let w := Sample.world Sample.mixedRegistry in
  let s := toSession "sales_T1" Sample.imported in
  getEvolutionCredentialsForSession "sales_T1" w
  = (Returned (Some ("http://evo", "key")), w)
  /\ exists new w',
       syncEvolutionOne Sample.responsive 2000 s w = (Returned tt, w')
       /\ db w' !! "sales_T1" = Some new
       /\ config new = None
       /\ getEvolutionCredentialsForSession "sales_T1" w' = (Returned None, w').
Proof.
  split; [vm_compute; reflexivity|].
  apply (X13_sync_drops_imported_credentials Sample.responsive 2000
           (toSession "sales_T1" Sample.imported)
           (Sample.world Sample.mixedRegistry) "http://evo" "key").
  - vm_compute. reflexivity.
  - intros state [= <-]. vm_compute. by eexists.
Defined.

Lemma tokenUsedByOther_false token n (reg : Registry) :
  tokenUsedByOther token n reg = false
  <-> forall m r, reg !! m = Some r -> quepasaToken r = Some token -> m = n.
Proof.
  unfold tokenUsedByOther. split.
  - intros Hnone m r Hrow Htoken.
    destruct (decide (m = n)) as [|Hne]; [done|]. exfalso.
    assert (Hex : existsb (fun kr : string * Row =>
                             (bool_decide (quepasaToken kr.2 = Some token)
                              && negb (String.eqb kr.1 n))%bool)
                          (map_to_list reg) = true).
    { apply existsb_exists. exists (m, r). split.
      - apply list_elem_of_In. by apply elem_of_map_to_list.
      - cbn. rewrite bool_decide_eq_true_2 by done. cbn.
        apply negb_true_iff. by apply String.eqb_neq. }
    congruence.
  - intros Hall. apply not_true_is_false. intros Hex.
    apply existsb_exists in Hex as ([m r] & Hin & Hp). cbn in Hp.
    apply andb_true_iff in Hp as [Ht Hn].
    apply bool_decide_eq_true in Ht. apply negb_true_iff, String.eqb_neq in Hn.
    apply list_elem_of_In, elem_of_map_to_list in Hin. by apply Hn, (Hall m r).
Qed.

Lemma orNull_inv (o : option string) t : Js.orNull o = Some t -> o = Some t.
Proof.
  destruct o as [s|]; [|done]. cbn. by destruct (String.eqb s EmptyString).
Qed.

(** A write of [token] under [n] keeps tokens unique when no other row
    holds it. *)
Lemma uniqueTokens_upsert now data (reg : Registry) token :
  uniqueTokens reg ->
  Js.orNull (d_quepasaToken data) = Some token ->
  (forall m r, reg !! m = Some r -> quepasaToken r = Some token -> m = d_name data) ->
  uniqueTokens (upsert now data reg).
Proof.
  intros Huniq Htoken Hfree n1 n2 r1 r2 t H1 H2 Ht1 Ht2.
  assert (Hnew : forall r, upsert now data reg !! d_name data = Some r ->
                           quepasaToken r = Some token).
  { intros r. destruct (reg !! d_name data) as [old|] eqn:Hrow.
    - rewrite (upsert_lookup_existing _ _ _ old) by done. by intros [= <-].
    - rewrite upsert_lookup_fresh by done. by intros [= <-]. }
  destruct (decide (n1 = d_name data)) as [->|Hn1],
           (decide (n2 = d_name data)) as [->|Hn2]; [done| | |].
  - rewrite upsert_lookup_other in H2 by done.
    apply Hnew in H1. rewrite H1 in Ht1. injection Ht1 as <-.
    symmetry. by apply (Hfree n2 r2).
  - rewrite upsert_lookup_other in H1 by done.
    apply Hnew in H2. rewrite H2 in Ht2. injection Ht2 as <-.
    by apply (Hfree n1 r1).
  - rewrite upsert_lookup_other in H1, H2 by done. by apply (Huniq n1 n2 r1 r2 t).
Qed.

Section TokenFacts.

Variable R : Remote.
Variable quepasaConfig : QuepasaConfig.
Variable now : Z.

Lemma registerWebhook_db n token w : db (registerWebhook R n token w).2 = db w.
Proof.
  unfold registerWebhook. run_m. destruct (db w !! n) as [row|]; [|done].
  destruct (interactiveCampaignEnabled row); [|done].
  destruct (Js.orNull (webhookSecret row)); [|done].
  by destruct (quepasaConfigureWebhook R token _).
Qed.

Lemma adoptReadyServer_keeps session servers w :
  uniqueTokens (db w) ->
  keepsTokens (s_name session) w (adoptReadyServer R now session servers w).2.
Proof.
  intros Huniq. induction servers as [|server rest IH]; [done|].
  cbn [adoptReadyServer].
  destruct (Js.orNull (srv_token server)) as [token|] eqn:Htoken; [|done].
  destruct (isReady server); [|done].
  unfold bind at 1. unfold readDb at 1. cbv beta iota.
  destruct (tokenUsedByOther token (s_name session) (db w)) eqn:Hused; [done|].
  unfold bind at 1. rewrite createOrUpdateSession_run. cbv beta iota.
  match goal with
  | |- context [upsert now ?d (db w)] => set (data := d)
  end.
  pose proof (registerWebhook_db (s_name session) token
                {| db := upsert now data (db w); calls := calls w |}) as Hdb.
  cbn [db] in Hdb. unfold keepsTokens. rewrite Hdb. split.
  - apply (uniqueTokens_upsert _ _ _ token); [done| |].
    + subst data. cbn. by eapply orNull_Some.
    + by apply tokenUsedByOther_false.
  - intros m Hm. by apply upsert_lookup_other.
Qed.

Lemma syncQuepasaOne_keeps url login session w row :
  uniqueTokens (db w) ->
  db w !! s_name session = Some row ->
  quepasaToken row = s_quepasaToken session ->
  keepsTokens (s_name session) w
    (syncQuepasaOne R quepasaConfig now url login session w).2.
Proof.
  intros Huniq Hrow Hheld. unfold syncQuepasaOne.
  destruct (Js.orNull (s_quepasaToken session)) as [sessionToken|] eqn:Htoken; [|done].
  unfold tryCatch at 1. unfold bind at 1.
  destruct (quepasaHealthToken R url sessionToken) as [e|c|statusData] eqn:Hhealth;
    unfold fetch, remote; cbv beta iota; [done| |].
  - destruct (c =? 400); [|done].
    unfold syncQuepasaUnknownToken.
    destruct (String.eqb (s_status session) "SCAN_QR_CODE"); [|done].
    set (w1 := {| db := db w; calls := calls w ++ [QuepasaHealthToken url sessionToken] |}).
    unfold tryCatch at 1. unfold bind at 1.
    destruct (quepasaHealthUser R url login _) as [e|c'|listData]; unfold fetch, remote;
      cbv beta iota; [done|done|].
    destruct (l_success listData); [|done].
    destruct (l_items listData) as [items|]; [|done].
    match goal with
    | |- context [adoptReadyServer R now session items ?v] => set (w2 := v)
    end.
    pose proof (adoptReadyServer_keeps session items w2 Huniq) as Hkeeps.
    destruct (adoptReadyServer R now session items w2) as [[[]|e] w3]; exact Hkeeps.
  - unfold syncQuepasaStatus. unfold bind at 1. rewrite createOrUpdateSession_run.
    cbn [db calls]. cbv beta iota.
    match goal with
    | |- context [upsert now ?d (db w)] => set (data := d)
    end.
    assert (Hgoal : forall l, keepsTokens (s_name session) w
                                {| db := upsert now data (db w); calls := l |}).
    { intros l. split; [|intros m Hm; by apply upsert_lookup_other].
      apply (uniqueTokens_upsert _ _ _ sessionToken); [done| |].
      - subst data. cbn. by eapply orNull_Some.
      - intros m r Hm Hr. apply (Huniq m (s_name session) r row sessionToken); try done.
        rewrite Hheld. by apply orNull_inv. }
    match goal with
    | |- context [if ?b then _ else _] => destruct b
    end; [|apply Hgoal].
    pose proof (registerWebhook_db (s_name session) sessionToken
                  {| db := upsert now data (db w);
                     calls := calls w ++ [QuepasaHealthToken url sessionToken] |}) as Hdb.
    specialize (Hgoal []).
    destruct (registerWebhook R (s_name session) sessionToken _) as [[[]|e] w3];
      unfold ret; cbn [fst snd db] in *; unfold keepsTokens in *; cbn [db] in *;
      by rewrite Hdb.
Qed.

End TokenFacts.

Lemma filter_names_NoDup (P : Session -> bool) (l : list Session) :
  NoDup (s_name <$> l) -> NoDup (s_name <$> List.filter P l).
Proof.
  induction l as [|x l IH]; [done|]. cbn. intros Hnd.
  apply NoDup_cons in Hnd as [Hx Hnd]. destruct (P x); cbn; [|by apply IH].
  apply NoDup_cons. split; [|by apply IH].
  intros Hin. apply Hx. apply list_elem_of_fmap in Hin as (y & Hy & Hin).
  apply list_elem_of_fmap. exists y. split; [done|].
  apply list_elem_of_In, filter_In in Hin as [Hin _]. by apply list_elem_of_In.
Qed.

Lemma allSessions_NoDup tenant (reg : Registry) :
  NoDup (s_name <$> allSessions tenant reg).
Proof.
  unfold allSessions. fold (listedRows tenant reg). rewrite <- list_fmap_compose.
  replace (s_name ∘ (fun kr : string * Row => toSession kr.1 kr.2)) with (@fst string Row)
    by reflexivity.
  apply listedRows_NoDup.
Qed.

Section TokenLoop.

Variable R : Remote.
Variable quepasaConfig : QuepasaConfig.
Variable now : Z.

Lemma quepasaLoop_keeps url login (l : list Session) w :
  NoDup (s_name <$> l) ->
  (forall s, s ∈ l -> exists row, db w !! s_name s = Some row
                                  /\ quepasaToken row = s_quepasaToken s) ->
  uniqueTokens (db w) ->
  uniqueTokens
    (db (forEach l (syncQuepasaOne R quepasaConfig now url login) w).2)
  /\ forall m, m ∉ s_name <$> l ->
       db (forEach l (syncQuepasaOne R quepasaConfig now url login) w).2 !! m
       = db w !! m.
Proof.
  revert w. induction l as [|x l IH]; intros w Hnd Hstored Huniq; [done|].
  cbn [forEach]. cbn in Hnd. apply NoDup_cons in Hnd as [Hx Hnd].
  destruct (Hstored x ltac:(left)) as (row & Hrow & Hheld).
  pose proof (syncQuepasaOne_keeps R quepasaConfig now url login x w row
                Huniq Hrow Hheld) as [Huniq1 Hframe1].
  destruct (syncQuepasaOne_total R quepasaConfig now url login x w) as [w1 Hrun].
  unfold bind. rewrite Hrun in *. cbn [snd] in *.
  destruct (IH w1 Hnd) as [Huniq2 Hframe2]; [|done|].
  - intros s Hs. destruct (Hstored s ltac:(by right)) as (r & Hr & Hh).
    exists r. split; [|done]. rewrite Hframe1; [done|].
    intros Heq. apply Hx. rewrite <- Heq. apply list_elem_of_fmap. by exists s.
  - split; [done|]. intros m Hm. apply not_elem_of_cons in Hm as [Hmx Hml].
    rewrite Hframe2 by done. by apply Hframe1.
Qed.

End TokenLoop.

(** X14.  The Quepasa loop of [GET /sessions] keeps tokens unique: when
    no token is held by two sessions before it runs, none is afterwards,
    also where it adopts the token of a ready server.  The loop changes no
    row other than those of the Quepasa sessions it lists. *)
Theorem X14_quepasa_sync_keeps_tokens_unique R quepasaConfig now tenant w :
  uniqueTokens (db w) ->
  uniqueTokens (db (syncQuepasa R quepasaConfig now tenant w).2)
  /\ forall m,
       (forall s, s ∈ allSessions tenant (db w) -> hasProvider QUEPASA s = true ->
                  s_name s <> m) ->
       db (syncQuepasa R quepasaConfig now tenant w).2 !! m = db w !! m.
Proof.
  intros Huniq. unfold syncQuepasa. unfold tryCatch, bind at 1 2. unfold getAllSessions.
  run_m.
  destruct (Js.orNull (quepasaUrl quepasaConfig)) as [url|]; [|done].
  destruct (Js.orNull (quepasaLogin quepasaConfig)) as [login|]; [|done].
  assert (Hnd : NoDup (s_name <$> List.filter (hasProvider QUEPASA)
                                     (allSessions tenant (db w))))
    by apply filter_names_NoDup, allSessions_NoDup.
  assert (Hstored : forall s,
            s ∈ List.filter (hasProvider QUEPASA) (allSessions tenant (db w)) ->
            exists row, db w !! s_name s = Some row
                        /\ quepasaToken row = s_quepasaToken s).
  { intros s Hs. apply list_elem_of_In, filter_In in Hs as [Hs _].
    apply list_elem_of_In, listed_sessions in Hs as (n & r & Hrow & _ & ->).
    by exists r. }
  destruct (quepasaLoop_keeps R quepasaConfig now url login _ w Hnd Hstored Huniq)
    as [Huniq' Hframe].
  assert (Hsame : forall o v,
              (match o with
               | Returned a => (Returned a, v)
               | Thrown _ => (Returned tt, v)
               end : Outcome unit * World).2 = v) by (by intros [|]).
  destruct (forEach _ _ w) as [o w'] eqn:Hrun. cbn [snd] in *.
  rewrite Hsame. split; [done|]. intros m Hm. apply Hframe.
  intros Hin. apply list_elem_of_fmap in Hin as (s & -> & Hs).
  apply list_elem_of_In, filter_In in Hs as [Hs Hp].
  apply (Hm s); [by apply list_elem_of_In|done|done].
Qed.

Lemma X14_witness :
  let w' := (syncQuepasa adopting Sample.quepasa 2000 (Some "T1")
               (Sample.world twoTokens)).2 in
  uniqueTokens (db w')
  /\ (quepasaToken <$> twoTokens !! "leads_T1") = Some (Some "stale")
  /\ (quepasaToken <$> db w' !! "leads_T1") = Some (Some "free")
  /\ (status <$> db w' !! "leads_T1") = Some "WORKING"
  /\ (quepasaToken <$> db w' !! "sales_T1") = Some (Some "tok")
  /\ calls w'
     = [QuepasaHealthToken "http://quepasa" "stale";
        QuepasaHealthUser "http://quepasa" "admin" "pw";
        QuepasaHealthToken "http://quepasa" "tok"].
Proof.
  split; [|vm_compute; by repeat split].
  apply (X14_quepasa_sync_keeps_tokens_unique adopting Sample.quepasa 2000
           (Some "T1") (Sample.world twoTokens)).
  intros n1 n2 r1 r2 token H1 H2 T1 T2.
  change (db (Sample.world twoTokens)) with twoTokens in H1, H2.
  unfold twoTokens in H1, H2.
  apply lookup_insert_Some in H1 as [[<- <-]|[_ H1]];
    apply lookup_insert_Some in H2 as [[<- <-]|[_ H2]];
    try apply lookup_singleton_Some in H1 as [<- <-];
    try apply lookup_singleton_Some in H2 as [<- <-];
    try reflexivity; cbn in T1, T2; congruence.
Defined.

(** * Properties of the routes of one session *)

(** Unfolds the operations of [L], then those of [M]. *)
Ltac run_l :=
  unfold replyL, reply, lookupSession;
  unfold bindL, tryCatchL, lift, operate, schedule, retL, throwL;
  run_m; cbn [fst snd world operations timers db calls].

Lemma orNull_thrice (o : option string) :
  Js.orNull (Js.orNull (Js.orNull o)) = Js.orNull o.
Proof. by rewrite !orNull_idem. Qed.

Lemma lookupSession_run n tenant w :
  lookupSession n tenant w = (Returned (findSession n tenant (db w)), w).
Proof.
  unfold lookupSession. run_m. by destruct (findSession n tenant (db w)).
Qed.

(** X15.  [GET /sessions/:sessionName] serves a stored session from the
    registry, without a provider call, to a caller whose scope covers it.
    For any other caller the fallback on [syncSession] ignores the tenant:
    as long as the name is stored the answer is still 200 with that
    session, whatever WAHA says.  A name that is not stored and that WAHA
    cannot supply gives 500. *)
Theorem X15_session_route_serves_any_stored_name R now req w :
  (forall s, findSession (sessionName req) (scopeOf req) (db w) = Some s ->
     getSessionRoute R now req w
     = (Returned {| r_code := 200; r_payload := SessionBody s |}, w))
  /\ (forall row, db w !! sessionName req = Some row ->
      exists s w',
        getSessionRoute R now req w
        = (Returned {| r_code := 200; r_payload := SessionBody s |}, w')
        /\ s_name s = sessionName req
        /\ Js.orNull (s_tenantId s) = Js.orNull (tenantId row))
  /\ (forall e, db w !! sessionName req = None ->
      wahaGetSession R (sessionName req) = Thrown e ->
      getSessionRoute R now req w
      = (Returned {| r_code := 500;
                     r_payload := Failure "Erro ao obter informações da sessão" |},
         {| db := db w; calls := calls w ++ [WahaGetSession (sessionName req)] |})).
Proof.
  set (n := sessionName req).
  assert (Hfound : forall s, findSession n (scopeOf req) (db w) = Some s ->
            getSessionRoute R now req w
            = (Returned {| r_code := 200; r_payload := SessionBody s |}, w)).
  { intros s Hs. unfold getSessionRoute. fold n. unfold tryCatch at 1, bind at 1.
    rewrite lookupSession_run, Hs. reflexivity. }
  split; [done|]. split.
  - intros row Hrow.
    destruct (findSession n (scopeOf req) (db w)) as [s|] eqn:Hscope.
    { exists s, w. split; [by apply Hfound|].
      apply findSession_Some in Hscope as (row' & Hrow' & _ & ->).
      rewrite Hrow in Hrow'. by injection Hrow' as <-. }
    unfold getSessionRoute. fold n. unfold tryCatch at 1, bind at 1.
    rewrite lookupSession_run, Hscope.
    unfold syncSession, syncSessionWrite, reply. run_m.
    rewrite !findSession_unscoped, Hrow.
    destruct (wahaGetSession R n) as [ws|e]; cbn.
    + set (data := wahaSessionData ws (Some (toSession n row))).
      destruct (decide (w_name ws = n)) as [Hsame|Hother].
      * assert (Hd : d_name data = n) by done.
        pose proof (upsert_lookup_existing now data (db w) row) as Hnew.
        rewrite Hd in Hnew. rewrite findSession_unscoped, (Hnew Hrow). cbn.
        eexists _, _. split; [reflexivity|]. split; [done|]. cbn.
        apply orNull_thrice.
      * rewrite findSession_unscoped, upsert_lookup_other by (cbn; congruence).
        rewrite Hrow. cbn. eexists _, _. split; [reflexivity|]. done.
    + rewrite findSession_unscoped, Hrow. cbn. eexists _, _.
      split; [reflexivity|]. done.
  - intros e Hnone Hfail.
    unfold getSessionRoute. fold n. unfold tryCatch at 1, bind at 1.
    rewrite lookupSession_run. unfold findSession at 1. rewrite Hnone.
    unfold syncSession, syncSessionWrite, reply. run_m. rewrite Hfail. cbn.
    by rewrite findSession_unscoped, Hnone.
Qed.

Lemma X15_witness :
  let req := requestOf "T2" "sales" "WAHA" in
  let req' := {| role := role req; reqTenantId := reqTenantId req;
                 sessionName := "sales_T1"; bodyName := None; bodyProvider := None;
                 bodyInteractive := false; bodyTenantId := None |} in
  findSession "sales_T1" (scopeOf req') Sample.salesRegistry = None
  /\ exists s w',
       getSessionRoute Sample.unreachable 2000 req' (Sample.world Sample.salesRegistry)
       = (Returned {| r_code := 200; r_payload := SessionBody s |}, w')
       /\ s_name s = "sales_T1"
       /\ Js.orNull (s_tenantId s) = Some "T1".
Proof.
  split; [vm_compute; reflexivity|].
  exact (proj1 (proj2 (X15_session_route_serves_any_stored_name Sample.unreachable 2000
                         {| role := Some "USER"; reqTenantId := Some "T2";
                            sessionName := "sales_T1"; bodyName := None;
                            bodyProvider := None; bodyInteractive := false;
                            bodyTenantId := None |}
                         (Sample.world Sample.salesRegistry)))
               (Sample.row QUEPASA "STOPPED") ltac:(vm_compute; reflexivity)).
Defined.

(** X16.  [assign-tenant] is for a SUPERADMIN only and needs the stored
    session.  It moves the session to the given tenant and keeps its
    status, provider, account and pairing artifact; the display name falls
    back to the stored name, and the configuration, the worker and the
    Quepasa token are cleared. *)
Theorem X16_assign_tenant_rewrites_the_row now req w :
  (isSuperadmin req = false ->
   assignTenantRoute now req w
   = (Returned {| r_code := 403;
                  r_payload := Failure "Apenas SUPERADMIN pode associar sessões a tenants" |},
      w))
  /\ (forall t, isSuperadmin req = true -> Js.orNull (bodyTenantId req) = Some t ->
      db w !! sessionName req = None ->
      assignTenantRoute now req w
      = (Returned {| r_code := 500;
                     r_payload := Failure "Erro ao associar sessão ao tenant" |}, w))
  /\ (forall t row p, isSuperadmin req = true -> Js.orNull (bodyTenantId req) = Some t ->
      db w !! sessionName req = Some row -> provider row = Some p ->
      exists new,
        assignTenantRoute now req w
        = (Returned {| r_code := 200;
                       r_payload := SuccessBody "Sessão associada ao tenant com sucesso" |},
           {| db := <[sessionName req := new]> (db w); calls := calls w |})
        /\ tenantId new = Some t
        /\ status new = status row /\ provider new = Some p
        /\ meId new = Js.orNull (meId row)
        /\ qr new = Js.orNull (qr row) /\ qrExpiresAt new = qrExpiresAt row
        /\ interactiveCampaignEnabled new = interactiveCampaignEnabled row
        /\ webhookSecret new = webhookSecret row
        /\ displayName new = Some (sessionName req)
        /\ config new = None /\ assignedWorker new = None /\ quepasaToken new = None).
Proof.
  split; [|split].
  - intros Hrole. unfold assignTenantRoute, reply. run_m. by rewrite Hrole.
  - intros t Hrole Ht Hnone. unfold assignTenantRoute, reply. run_m.
    rewrite Hrole, Ht. cbn. by rewrite findSession_unscoped, Hnone.
  - intros t row p Hrole Ht Hrow Hp.
    exists (updateRow now (assignedData (sessionName req)
                             (toSession (sessionName req) row) p t) row).
    split.
    + unfold assignTenantRoute, reply. run_m. rewrite Hrole, Ht. cbn.
      rewrite findSession_unscoped, Hrow. cbn. rewrite Hp. cbn.
      unfold upsert. cbn [d_name assignedData]. by rewrite Hrow.
    + cbn -[Js.orNull]. rewrite (orNull_Some _ _ Ht), orNull_idem.
      split; [done|]. split; [done|]. split; [done|]. split; [|done].
      unfold rowMe. destruct (Js.orNull (meId row)) as [i|] eqn:Hme; [|done].
      cbn -[Js.orNull]. by eapply orNull_Some.
Qed.

Lemma X16_witness :
  exists new,
    assignTenantRoute 2000
      {| role := Some "SUPERADMIN"; reqTenantId := None; sessionName := "sales_T1";
         bodyName := None; bodyProvider := None; bodyInteractive := false;
         bodyTenantId := Some "T2" |}
      (Sample.world Sample.tokenRegistry)
    = (Returned {| r_code := 200;
                   r_payload := SuccessBody "Sessão associada ao tenant com sucesso" |},
       {| db := <["sales_T1" := new]> Sample.tokenRegistry; calls := [] |})
    /\ tenantId new = Some "T2" /\ quepasaToken new = None.
Proof.
  destruct (proj2 (proj2 (X16_assign_tenant_rewrites_the_row 2000
              {| role := Some "SUPERADMIN"; reqTenantId := None; sessionName := "sales_T1";
                 bodyName := None; bodyProvider := None; bodyInteractive := false;
                 bodyTenantId := Some "T2" |}
              (Sample.world Sample.tokenRegistry)))
            "T2" Sample.tokenRow QUEPASA eq_refl eq_refl
            ltac:(vm_compute; reflexivity) eq_refl)
    as (new & Hrun & Htenant & _ & _ & _ & _ & _ & _ & _ & _ & _ & _ & Htoken).
  exists new. split; [exact Hrun|]. split; [exact Htenant|exact Htoken].
Defined.

Section LifecycleFacts.

Variable R : Remote.
Variable Lc : Lifecycle.
Variable quepasaConfig : QuepasaConfig.
Variable now : Z.
Variable freshToken : string.

Lemma lift_lookupSession n tenant st :
  lift (lookupSession n tenant) st = (Returned (findSession n tenant (db (world st))), st).
Proof.
  unfold lift. rewrite lookupSession_run. by destruct st as [[] ? ?].
Qed.

End LifecycleFacts.

(** X17.  The routes that start, stop, remove or inspect a session answer
    404 to a caller whose scope does not cover it, a session of another
    tenant included, and then neither write nor ask a provider. *)
Theorem X17_guarded_routes_hide_foreign_sessions R Lc quepasaConfig now freshToken req st :
  findSession (sessionName req) (scopeOf req) (db (world st)) = None ->
  startRoute R Lc quepasaConfig now freshToken req st = (Returned sessionNotFound, st)
  /\ stopRoute Lc now req st = (Returned sessionNotFound, st)
  /\ deleteRoute Lc quepasaConfig req st = (Returned sessionNotFound, st)
  /\ statusRoute Lc req st = (Returned sessionNotFound, st)
  /\ meRoute Lc req st = (Returned sessionNotFound, st).
Proof.
  intros Hhidden.
  unfold startRoute, stopRoute, deleteRoute, statusRoute, meRoute.
  unfold tryCatchL, bindL. rewrite !lift_lookupSession, Hhidden. done.
Qed.

Lemma X17_witness :
  let req := {| role := Some "USER"; reqTenantId := Some "T2"; sessionName := "sales_T1";
                bodyName := None; bodyProvider := None; bodyInteractive := false;
                bodyTenantId := None |} in
  let st := {| world := Sample.world Sample.salesRegistry; operations := []; timers := [] |} in
  is_Some (Sample.salesRegistry !! "sales_T1")
  /\ forall Lc, deleteRoute Lc Sample.quepasa req st = (Returned sessionNotFound, st).
Proof.
  split; [vm_compute; by eexists|]. intros Lc.
  exact (proj1 (proj2 (proj2 (X17_guarded_routes_hide_foreign_sessions
                 Sample.unreachable Lc Sample.quepasa 2000 "token"
                 {| role := Some "USER"; reqTenantId := Some "T2";
                    sessionName := "sales_T1"; bodyName := None; bodyProvider := None;
                    bodyInteractive := false; bodyTenantId := None |}
                 {| world := Sample.world Sample.salesRegistry; operations := [];
                    timers := [] |}
                 ltac:(vm_compute; reflexivity))))).
Defined.

Lemma lift_run {A} (m : M A) st o w' :
  m (world st) = (o, w') ->
  lift m st = (o, {| world := w'; operations := operations st; timers := timers st |}).
Proof. intros Hrun. unfold lift. by rewrite Hrun. Qed.

Lemma deleteSession_found n tenant w s :
  findSession n tenant (db w) = Some s ->
  deleteSession n tenant w
  = (Returned tt, {| db := delete n (db w); calls := calls w |}).
Proof.
  intros Hfound. pose proof Hfound as Hs.
  apply findSession_Some in Hs as (r & Hrow & _ & _).
  run_registry. destruct (Js.truthy tenant); cbn; rewrite ?Hfound; cbn; by rewrite Hrow.
Qed.

Lemma findSession_any n tenant (reg : Registry) s :
  findSession n tenant reg = Some s -> findSession n None reg = Some s.
Proof.
  intros Hs. apply findSession_Some in Hs as (r & Hrow & _ & ->).
  by rewrite findSession_unscoped, Hrow.
Qed.

(** X18.  [DELETE /sessions/:sessionName] of a session in the caller's
    scope always answers 200 and always removes the row, whether or not
    the provider could be told; no other row changes.  The provider is
    asked at most once, through the operation of the session's own
    provider. *)
Theorem X18_removal_does_not_depend_on_the_provider Lc quepasaConfig req st s :
  findSession (sessionName req) (scopeOf req) (db (world st)) = Some s ->
  exists asked,
    deleteRoute Lc quepasaConfig req st
    = (Returned {| r_code := 200;
                   r_payload := SuccessBody "Sessão removida com sucesso" |},
       {| world := {| db := delete (sessionName req) (db (world st));
                      calls := calls (world st) |};
          operations := operations st ++ asked;
          timers := timers st |})
    /\ (length asked <= 1)%nat
    /\ forall c, c ∈ asked -> removalOf (sessionName req) s c.
Proof.
  intros Hfound. set (n := sessionName req) in *.
  pose proof (deleteSession_found n (scopeOf req) (world st) s Hfound) as Hscoped.
  pose proof (deleteSession_found n None (world st) s (findSession_any _ _ _ _ Hfound))
    as Hany.
  assert (Hget : getSession n (scopeOf req) (world st) = (Returned s, world st)).
  { unfold getSession. run_m. by rewrite Hfound. }
  unfold deleteRoute, removalOf. fold n.
  unfold tryCatchL at 1, bindL at 1. rewrite lift_lookupSession, Hfound.
  destruct st as [w ops tm]. cbn [world operations timers] in *.
  destruct (default WAHA (s_provider s)) eqn:Hprovider.
  - (* WAHA *)
    exists [WahaDeleteSession n]. unfold wahaSyncDelete. run_l.
    destruct (wahaDeleteSession Lc n) as [[]|e]; cbn -[deleteSession]; rewrite Hany; cbn;
      (split; [reflexivity|]); (split; [done|]);
      intros c Hc; by apply list_elem_of_singleton in Hc.
  - (* EVOLUTION *)
    exists [EvolutionDeleteInstance n]. run_l.
    destruct (evolutionDeleteInstance Lc n) as [[]|e]; cbn -[deleteSession]; rewrite Hscoped; cbn;
      (split; [reflexivity|]); (split; [done|]);
      intros c Hc; by apply list_elem_of_singleton in Hc.
  - (* QUEPASA *)
    unfold removeFromQuepasa. run_l.
    unfold getSession in Hget. revert Hget. run_m. intros Hget. rewrite Hget. cbn -[deleteSession].
    destruct (Js.orNull (quepasaUrl quepasaConfig)) as [url|]; cbn -[deleteSession].
    2: { exists []. rewrite Hscoped. cbn. rewrite app_nil_r.
         split; [reflexivity|]. split; [cbn; lia|]. by intros c Hc%elem_of_nil. }
    destruct (Js.orNull (quepasaLogin quepasaConfig)) as [login|]; cbn -[deleteSession].
    2: { exists []. rewrite Hscoped. cbn. rewrite app_nil_r.
         split; [reflexivity|]. split; [cbn; lia|]. by intros c Hc%elem_of_nil. }
    destruct (Js.orNull (s_quepasaToken s)) as [token|] eqn:Htoken; cbn -[deleteSession].
    2: { exists []. rewrite Hscoped. cbn. rewrite app_nil_r.
         split; [reflexivity|]. split; [cbn; lia|]. by intros c Hc%elem_of_nil. }
    exists [QuepasaDeleteInfo url token].
    destruct (quepasaDeleteInfo Lc url token) as [[]|e]; cbn -[deleteSession]; rewrite Hscoped; cbn;
      (split; [reflexivity|]); (split; [done|]);
      intros c Hc; apply list_elem_of_singleton in Hc; by exists url, token.
Qed.

Lemma X18_witness :
  exists asked,
    deleteRoute offline Sample.quepasa (visitor "T1" "sales_T1")
      (stageOf Sample.tokenRegistry)
    = (Returned {| r_code := 200;
                   r_payload := SuccessBody "Sessão removida com sucesso" |},
       {| world := {| db := delete "sales_T1" Sample.tokenRegistry; calls := [] |};
          operations := asked; timers := [] |})
    /\ (length asked <= 1)%nat.
Proof.
  destruct (X18_removal_does_not_depend_on_the_provider offline Sample.quepasa
              (visitor "T1" "sales_T1") (stageOf Sample.tokenRegistry)
              (toSession "sales_T1" Sample.tokenRow) ltac:(vm_compute; reflexivity))
    as (asked & Hrun & Hlen & _).
  exists asked. split; [exact Hrun|exact Hlen].
Defined.

Lemma updateSessionStatus_unscoped now n st extras w row :
  db w !! n = Some row ->
  updateSessionStatus now n st extras None w
  = (Returned tt, {| db := <[n := statusRow now st extras row]> (db w);
                     calls := calls w |}).
Proof. intros Hrow. run_registry. cbn. by rewrite Hrow. Qed.

(** X19.  [POST /sessions/:sessionName/stop] has a branch of its own for
    Evolution only: there it asks no provider and rewrites the row as
    stopped, which keeps the tenant but clears the account, the pairing
    artifact, the configuration and the token.  Every other session, a
    Quepasa one included, is stopped through WAHA: when WAHA refuses, the
    answer is 500 and the registry is as it was; when it accepts, only
    the status and the update time of the row change. *)
Theorem X19_stop_by_provider Lc now req st s row :
  findSession (sessionName req) (scopeOf req) (db (world st)) = Some s ->
  db (world st) !! sessionName req = Some row ->
  (default WAHA (s_provider s) = EVOLUTION ->
   exists new,
     stopRoute Lc now req st
     = (Returned {| r_code := 200;
                    r_payload := MessageBody "Sessão Evolution parada (conceitual)" |},
        {| world := {| db := <[sessionName req := new]> (db (world st));
                       calls := calls (world st) |};
           operations := operations st; timers := timers st |})
     /\ status new = "STOPPED"
     /\ tenantId new = Js.orNull (tenantId row)
     /\ displayName new = Some (sessionName req)
     /\ meId new = None /\ qr new = None /\ qrExpiresAt new = None
     /\ config new = None /\ quepasaToken new = None)
  /\ (default WAHA (s_provider s) <> EVOLUTION ->
      (forall e, wahaStopSession Lc (sessionName req) = Thrown e ->
         stopRoute Lc now req st
         = (Returned {| r_code := 500;
                        r_payload := Failure "Erro ao parar sessão WhatsApp" |},
            {| world := world st;
               operations := operations st ++ [WahaStopSession (sessionName req)];
               timers := timers st |}))
      /\ (forall result, wahaStopSession Lc (sessionName req) = Returned result ->
          stopRoute Lc now req st
          = (Returned {| r_code := 200; r_payload := ResultBody result |},
             {| world := {| db := <[sessionName req :=
                                      statusRow now "STOPPED" noExtras row]>
                                    (db (world st));
                            calls := calls (world st) |};
                operations := operations st ++ [WahaStopSession (sessionName req)];
                timers := timers st |})
          /\ statusRow now "STOPPED" noExtras row
             = {| displayName := displayName row; status := "STOPPED";
                  provider := provider row; config := config row;
                  meId := meId row; mePushName := mePushName row;
                  meLid := meLid row; meJid := meJid row; qr := qr row;
                  qrExpiresAt := qrExpiresAt row;
                  assignedWorker := assignedWorker row; tenantId := tenantId row;
                  quepasaToken := quepasaToken row;
                  interactiveCampaignEnabled := interactiveCampaignEnabled row;
                  webhookSecret := webhookSecret row; criadoEm := criadoEm row;
                  atualizadoEm := now |})).
Proof.
  intros Hfound Hrow. set (n := sessionName req) in *.
  pose proof Hfound as Hs. apply findSession_Some in Hs as (r & Hr & _ & ->).
  rewrite Hrow in Hr. injection Hr as <-.
  destruct st as [w ops tm]. cbn [world operations timers] in *.
  split.
  - intros Hprovider. eexists. split.
    + unfold stopRoute. fold n. unfold tryCatchL at 1, bindL at 1.
      rewrite lift_lookupSession. cbn [world]. rewrite Hfound, Hprovider. run_l.
      unfold upsert. cbn [d_name]. rewrite Hrow. reflexivity.
    + done.
  - intros Hprovider.
    assert (Hbranch : forall (evo other : L Reply),
              match default WAHA (s_provider (toSession n row)) with
              | EVOLUTION => evo
              | _ => other
              end = other).
    { intros evo other. by destruct (default WAHA (s_provider (toSession n row))). }
    split.
    + intros e Hfail. unfold stopRoute. fold n. unfold tryCatchL at 1, bindL at 1.
      rewrite lift_lookupSession. cbn [world]. rewrite Hfound, Hbranch.
      unfold wahaSyncStop. run_l. by rewrite Hfail.
    + intros result Hok. split; [|done].
      unfold stopRoute. fold n. unfold tryCatchL at 1, bindL at 1.
      rewrite lift_lookupSession. cbn [world]. rewrite Hfound, Hbranch.
      unfold wahaSyncStop. run_l. rewrite Hok. cbn -[updateSessionStatus].
      by rewrite (updateSessionStatus_unscoped now n "STOPPED" noExtras w row Hrow).
Qed.

Lemma X19_witness :
  stopRoute offline 2000 (visitor "T1" "sales_T1") (stageOf Sample.tokenRegistry)
  = (Returned {| r_code := 500; r_payload := Failure "Erro ao parar sessão WhatsApp" |},
     {| world := Sample.world Sample.tokenRegistry;
        operations := [WahaStopSession "sales_T1"]; timers := [] |}).
Proof.
  exact (proj1 (proj2 (X19_stop_by_provider offline 2000 (visitor "T1" "sales_T1")
                         (stageOf Sample.tokenRegistry)
                         (toSession "sales_T1" Sample.tokenRow) Sample.tokenRow
                         ltac:(vm_compute; reflexivity) ltac:(vm_compute; reflexivity))
                      ltac:(discriminate))
               "timeout" eq_refl).
Defined.

(** X20.  [POST /sessions/:sessionName/restart] checks neither the caller
    nor the tenant.  For an Evolution session that the provider restarts,
    the row is rewritten without tenant: the session then belongs to no
    tenant, and no tenant can look it up.  Any other session is restarted
    through WAHA, with a sync left to a timer and the registry untouched. *)
Theorem X20_restart_detaches_an_evolution_session Lc now req st row result :
  db (world st) !! sessionName req = Some row ->
  (provider row = Some EVOLUTION ->
   evolutionRestartInstance Lc (sessionName req) = Returned result ->
   exists new st',
     restartRoute Lc now req st
     = (Returned {| r_code := 200; r_payload := ResultBody result |}, st')
     /\ db (world st') !! sessionName req = Some new
     /\ status new = "SCAN_QR_CODE"
     /\ tenantId new = None
     /\ (forall t, Js.truthy (Some t) = true ->
           findSession (sessionName req) (Some t) (db (world st')) = None)
     /\ forall m, m <> sessionName req -> db (world st') !! m = db (world st) !! m)
  /\ (provider row <> Some EVOLUTION ->
      wahaRestartSession Lc (sessionName req) = Returned result ->
      restartRoute Lc now req st
      = (Returned {| r_code := 200; r_payload := ResultBody result |},
         {| world := world st;
            operations := operations st ++ [WahaRestartSession (sessionName req)];
            timers := timers st ++ [sessionName req] |})).
Proof.
  intros Hrow. set (n := sessionName req) in *.
  destruct st as [w ops tm]. cbn [world operations timers] in *.
  assert (Hfound : findSession n None (db w) = Some (toSession n row))
    by (by rewrite findSession_unscoped, Hrow).
  split.
  - intros Hprovider Hok.
    exists (updateRow now (sessionData n "SCAN_QR_CODE" EVOLUTION) row). eexists.
    split; [|split; [|split; [|split; [|split]]]].
    + unfold restartRoute. fold n. unfold tryCatchL at 1, bindL at 1.
      rewrite lift_lookupSession. cbn [world]. rewrite Hfound.
      cbn [toSession s_provider]. rewrite Hprovider. run_l. rewrite Hok. cbn.
      reflexivity.
    + cbn. unfold upsert. cbn. rewrite Hrow. apply lookup_insert_eq.
    + done.
    + done.
    + intros t Ht. cbn. unfold findSession, upsert. cbn. rewrite Hrow.
      rewrite lookup_insert_eq. unfold matchesTenant.
      unfold Js.truthy in Ht. destruct (Js.orNull (Some t)); [|done]. done.
    + intros m Hm. cbn. by rewrite upsert_lookup_other.
  - intros Hprovider Hok.
    unfold restartRoute. fold n. unfold tryCatchL at 1, bindL at 1.
    rewrite lift_lookupSession. cbn [world]. rewrite Hfound.
    cbn [toSession s_provider].
    destruct (provider row) as [[]|]; [| done | |];
      unfold wahaSyncRestart; run_l; by rewrite Hok.
Qed.

Lemma X20_witness :
  let req := {| role := None; reqTenantId := None; sessionName := "sales_T1";
                bodyName := None; bodyProvider := None; bodyInteractive := false;
                bodyTenantId := None |} in
  tenantId Sample.pairingRow = Some "T1"
  /\ exists new st',
       restartRoute online 2000 req (stageOf Sample.pairingRegistry)
       = (Returned {| r_code := 200; r_payload := ResultBody "restarted" |}, st')
       /\ db (world st') !! "sales_T1" = Some new
       /\ tenantId new = None
       /\ findSession "sales_T1" (Some "T1") (db (world st')) = None.
Proof.
  split; [reflexivity|].
  destruct (proj1 (X20_restart_detaches_an_evolution_session online 2000
              {| role := None; reqTenantId := None; sessionName := "sales_T1";
                 bodyName := None; bodyProvider := None; bodyInteractive := false;
                 bodyTenantId := None |}
              (stageOf Sample.pairingRegistry) Sample.pairingRow "restarted"
              ltac:(vm_compute; reflexivity)) eq_refl eq_refl)
    as (new & st' & Hrun & Hnew & _ & Htenant & Hhidden & _).
  exists new, st'. split; [exact Hrun|]. split; [exact Hnew|].
  split; [exact Htenant|]. exact (Hhidden "T1" eq_refl).
Defined.

(** X21.  Starting an Evolution session stores the QR code the provider
    hands out, with an expiry five minutes ahead.  Until then the pairing
    route serves that stored artifact to the same caller without another
    provider call.  Starting a WAHA session asks WAHA and leaves the
    registry as it was. *)
Theorem X21_started_artifact_is_served R Lc quepasaConfig now freshToken req st s :
  findSession (sessionName req) (scopeOf req) (db (world st)) = Some s ->
  (forall qrCode later,
     default WAHA (s_provider s) = EVOLUTION ->
     evolutionGetQRCode R (sessionName req) = Returned (Some qrCode) ->
     qrCode <> EmptyString ->
     later < now + qrTtl ->
     exists st',
       startRoute R Lc quepasaConfig now freshToken req st
       = (Returned {| r_code := 200;
                      r_payload := QrStatus (Some qrCode) "SCAN_QR_CODE" |}, st')
       /\ operations st' = operations st
       /\ calls (world st')
          = (calls (world st) ++ [EvolutionGetQRCode (sessionName req)])%list
       /\ getQrRoute R quepasaConfig later freshToken req (world st')
          = (Returned {| code := 200;
                         body := QrBody (Some qrCode) (Some (now + qrTtl))
                                        (Some "SCAN_QR_CODE") None
                                        "QR code retornado do banco de dados" |},
             world st'))
  /\ (forall result,
        default WAHA (s_provider s) = WAHA ->
        wahaStartSession Lc (sessionName req) = Returned result ->
        startRoute R Lc quepasaConfig now freshToken req st
        = (Returned {| r_code := 200; r_payload := ResultBody result |},
           {| world := world st;
              operations := operations st ++ [WahaStartSession (sessionName req)];
              timers := timers st |})).
Proof.
  intros Hfound. set (n := sessionName req) in *.
  pose proof Hfound as Hs. apply findSession_Some in Hs as (row & Hrow & Hmine & ->).
  destruct st as [w ops tm]. cbn [world operations timers] in *.
  split.
  - intros qrCode later Hprovider Hqr Hnonempty Hlater.
    assert (Hcode : Js.orNull (Some qrCode) = Some qrCode).
    { cbn. apply String.eqb_neq in Hnonempty. by rewrite Hnonempty. }
    set (data := {| d_name := n; d_displayName := None; d_status := "SCAN_QR_CODE";
                    d_provider := EVOLUTION; d_config := None; d_me := None;
                    d_qr := Some qrCode; d_qrExpiresAt := Some (now + qrTtl);
                    d_assignedWorker := None;
                    d_tenantId := s_tenantId (toSession n row);
                    d_quepasaToken := None; d_interactiveCampaignEnabled := None;
                    d_webhookSecret := None |}).
    exists {| world := {| db := <[n := updateRow now data row]> (db w);
                          calls := (calls w ++ [EvolutionGetQRCode n])%list |};
              operations := ops; timers := tm |}.
    split.
    { unfold startRoute. fold n. unfold tryCatchL at 1, bindL at 1.
      rewrite lift_lookupSession. cbn [world]. rewrite Hfound, Hprovider.
      unfold startEvolution. run_l. rewrite Hqr. cbn -[Js.orNull]. rewrite Hcode.
      cbn -[Js.orNull]. unfold upsert. cbn [d_name]. rewrite Hrow. reflexivity. }
    split; [done|]. split; [done|]. cbn [world db calls].
    assert (Hvisible :
      findSession n (scopeOf req) (<[n := updateRow now data row]> (db w))
      = Some (toSession n (updateRow now data row))).
    { unfold findSession. rewrite lookup_insert_eq.
      replace (matchesTenant (scopeOf req) _) with true; [done|].
      symmetry. revert Hmine. unfold matchesTenant.
      destruct (Js.orNull (scopeOf req)) as [t|] eqn:Hscope; [|done].
      intros Hmine%bool_decide_eq_true. apply bool_decide_eq_true.
      cbn -[Js.orNull]. rewrite Hmine. by eapply orNull_Some. }
    unfold getQrRoute. fold n. run_m. rewrite Hvisible.
    unfold qrStillValid. cbn -[Js.orNull Z.ltb]. rewrite Hcode.
    apply Z.ltb_lt in Hlater. rewrite Hlater. cbn -[Js.orNull]. by rewrite Hcode.
  - intros result Hprovider Hok.
    unfold startRoute. fold n. unfold tryCatchL at 1, bindL at 1.
    rewrite lift_lookupSession. cbn [world]. rewrite Hfound, Hprovider.
    run_l. by rewrite Hok.
Qed.

Lemma X21_witness :
  exists st',
    startRoute Sample.responsive online Sample.quepasa 2000 "token"
      (visitor "T1" "sales_T1") (stageOf Sample.pairingRegistry)
    = (Returned {| r_code := 200; r_payload := QrStatus (Some "NEW") "SCAN_QR_CODE" |},
       st')
    /\ getQrRoute Sample.responsive Sample.quepasa 301999 "token"
         (visitor "T1" "sales_T1") (world st')
       = (Returned {| code := 200;
                      body := QrBody (Some "NEW") (Some 302000) (Some "SCAN_QR_CODE") None
                                     "QR code retornado do banco de dados" |},
          world st').
Proof.
  destruct (proj1 (X21_started_artifact_is_served Sample.responsive online Sample.quepasa
              2000 "token" (visitor "T1" "sales_T1") (stageOf Sample.pairingRegistry)
              (toSession "sales_T1" Sample.pairingRow) ltac:(vm_compute; reflexivity))
            "NEW" 301999 eq_refl eq_refl ltac:(discriminate) ltac:(vm_compute; reflexivity))
    as (st' & Hrun & _ & _ & Hserved).
  exists st'. split; [exact Hrun|exact Hserved].
Defined.

(** X22.  An import that the Evolution server confirms writes the row of
    the instance for the importing tenant, whatever was stored under that
    name before, a session of another tenant included; no other row
    changes.  The URL is stored without one trailing slash, and the
    stored credentials are what [getEvolutionCredentialsForSession] then
    returns.  An answer that is not [ok] gives 400 and writes nothing. *)
Theorem X22_import_stores_the_credentials R Lc now freshSecret req st url instanceName
    apiKey :
  Js.orNull (i_url req) = Some url ->
  Js.orNull (i_instanceName req) = Some instanceName ->
  Js.orNull (i_apiKey req) = Some apiKey ->
  (forall state mapped,
     evolutionConnectionState R (stripTrailingSlash url) apiKey instanceName
     = OkJson state ->
     mapEvolutionState state = JsString mapped ->
     exists new st',
       importHandler R Lc now freshSecret req st
       = (Returned {| r_code := 200;
                      r_payload :=
                        ImportedBody ("Sessão " ++ instanceName ++ " importada com sucesso")
                                     mapped |}, st')
       /\ db (world st') !! instanceName = Some new
       /\ (forall m, m <> instanceName -> db (world st') !! m = db (world st) !! m)
       /\ tenantId new = Js.orNull (reqTenantId (i_request req))
       /\ provider new = Some EVOLUTION
       /\ status new = mapped
       /\ quepasaToken new = None
       /\ Js.orNull (webhookSecret new) = Js.orNull (Some freshSecret)
       /\ (stripTrailingSlash url <> EmptyString ->
           getEvolutionCredentialsForSession instanceName (world st')
           = (Returned (Some (stripTrailingSlash url, apiKey)), world st')))
  /\ (forall c statusText,
        evolutionConnectionState R (stripTrailingSlash url) apiKey instanceName
        = Status c statusText ->
        exists message st',
          importHandler R Lc now freshSecret req st
          = (Returned {| r_code := 400; r_payload := Failure message |}, st')
          /\ db (world st') = db (world st)).
Proof.
  intros Hurl Hname Hkey.
  destruct st as [w ops tm]. cbn [world operations timers] in *.
  split.
  - intros state mapped Hok Hmapped.
    set (data := importedData freshSecret instanceName (stripTrailingSlash url) apiKey
                              mapped req).
    assert (Hnew : exists new,
              upsert now data (db w) !! instanceName = Some new
              /\ tenantId new = Js.orNull (reqTenantId (i_request req))
              /\ provider new = Some EVOLUTION /\ status new = mapped
              /\ quepasaToken new = None
              /\ Js.orNull (webhookSecret new) = Js.orNull (Some freshSecret)
              /\ config new = Some {| evolutionUrl := Some (stripTrailingSlash url);
                                      evolutionApiKey := Some apiKey;
                                      cfg_rest := "imported" |}).
    { destruct (db w !! instanceName) as [old|] eqn:Hold.
      - exists (updateRow now data old).
        split; [by apply (upsert_lookup_existing now data)|done].
      - exists (createRow now data).
        split; [by apply (upsert_lookup_fresh now data)|].
        cbn -[Js.orNull]. by rewrite orNull_idem. }
    destruct Hnew as (new & Hlook & Htenant & Hprovider & Hstatus & Htoken & Hsecret
                      & Hconfig).
    exists new.
    exists {| world := {| db := upsert now data (db w);
                          calls := (calls w ++ [EvolutionConnectionState
                                                  (stripTrailingSlash url) apiKey
                                                  instanceName])%list |};
              operations := ops; timers := tm |}.
    split.
    { unfold importHandler. run_l. rewrite Hurl, Hname, Hkey. cbn -[Js.orNull].
      rewrite Hok. cbn -[Js.orNull]. by rewrite Hmapped. }
    cbn [world db]. split; [done|].
    split; [intros m Hm; by apply upsert_lookup_other|].
    do 5 (split; [done|]).
    intros Hnonempty. unfold getEvolutionCredentialsForSession. run_m.
    rewrite Hlook. cbn -[Js.orNull]. rewrite Hconfig. cbn -[Js.orNull].
    rewrite (orNull_Some _ _ Hkey).
    replace (Js.orNull (Some (stripTrailingSlash url)))
      with (Some (stripTrailingSlash url)); [done|].
    cbn. apply String.eqb_neq in Hnonempty. by rewrite Hnonempty.
  - intros c statusText Hrefused. eexists _, _. split.
    + unfold importHandler. run_l. rewrite Hurl, Hname, Hkey. cbn -[Js.orNull].
      rewrite Hrefused. reflexivity.
    + done.
Qed.

Lemma X22_witness :
  tenantId <$> Sample.salesRegistry !! "sales_T1" = Some (Some "T1")
  /\ exists new st',
       importHandler Sample.responsive online 2000 "secret"
         (importOf "T2" "http://evo/" "sales_T1" "key") (stageOf Sample.salesRegistry)
       = (Returned {| r_code := 200;
                      r_payload := ImportedBody "Sessão sales_T1 importada com sucesso"
                                                "WORKING" |}, st')
       /\ db (world st') !! "sales_T1" = Some new
       /\ tenantId new = Some "T2"
       /\ getEvolutionCredentialsForSession "sales_T1" (world st')
          = (Returned (Some ("http://evo", "key")), world st').
Proof.
  split; [vm_compute; reflexivity|].
  destruct (proj1 (X22_import_stores_the_credentials Sample.responsive online 2000 "secret"
              (importOf "T2" "http://evo/" "sales_T1" "key")
              (stageOf Sample.salesRegistry) "http://evo/" "sales_T1" "key"
              eq_refl eq_refl eq_refl)
            (Some "open") "WORKING" eq_refl eq_refl)
    as (new & st' & Hrun & Hnew & _ & Htenant & _ & _ & _ & _ & Hcreds).
  exists new, st'. split; [exact Hrun|]. split; [exact Hnew|].
  split; [exact Htenant|]. exact (Hcreds ltac:(discriminate)).
Defined.

Lemma sessionMap_lookup (reg : Registry) n :
  List.find (fun s => String.eqb (s_name s) n) (rev (allSessions None reg))
  = toSession n <$> reg !! n.
Proof.
  destruct (List.find _ _) as [s|] eqn:Hfind.
  - apply find_some in Hfind as [Hin Hname].
    apply in_rev, list_elem_of_In, listed_sessions in Hin as (m & r & Hrow & _ & ->).
    apply String.eqb_eq in Hname. cbn in Hname. subst m. by rewrite Hrow.
  - destruct (reg !! n) as [r|] eqn:Hrow; [|done]. exfalso.
    assert (Hin : In (toSession n r) (rev (allSessions None reg))).
    { rewrite <- in_rev. apply list_elem_of_In, listed_sessions. by exists n, r. }
    pose proof (find_none _ _ Hfind _ Hin) as Hname. cbn in Hname.
    by rewrite String.eqb_refl in Hname.
Qed.

Lemma forEach_ext {A} (f g : A -> M unit) (l : list A) w :
  (forall x v, f x v = g x v) -> forEach l f w = forEach l g w.
Proof.
  intros Hext. revert w. induction l as [|x l IH]; intros w; [done|].
  cbn [forEach]. unfold bind. rewrite Hext. destruct (g x w) as [[[]|e] w1]; [|done].
  apply IH.
Qed.

Lemma wahaLoop_run now (before : Registry) (l : list WahaSession) w :
  exists w',
    forEach l (fun wahaSession =>
                 createOrUpdateSession now
                   (wahaSessionData wahaSession
                      (toSession (w_name wahaSession) <$> before !! w_name wahaSession))) w
    = (Returned tt, w')
    /\ calls w' = calls w
    /\ (forall m, m ∉ w_name <$> l -> db w' !! m = db w !! m)
    /\ forall n, n ∈ w_name <$> l ->
         exists ws new, ws ∈ l /\ w_name ws = n /\ db w' !! n = Some new
                        /\ listedByWaha before ws new.
Proof.
  revert w. induction l as [|x l IH]; intros w.
  { exists w. split; [done|]. split; [done|]. split; [done|].
    by intros n Hn%elem_of_nil. }
  cbn [forEach]. unfold bind at 1. rewrite createOrUpdateSession_run.
  set (data := wahaSessionData x (toSession (w_name x) <$> before !! w_name x)).
  destruct (IH {| db := upsert now data (db w); calls := calls w |})
    as (w' & Hrun & Hcalls & Hframe & Hlisted).
  exists w'. split; [done|]. split; [done|]. split.
  - intros m Hm. cbn in Hm. apply not_elem_of_cons in Hm as [Hmx Hml].
    rewrite Hframe by done. cbn. by apply upsert_lookup_other.
  - intros n Hn. destruct (decide (n ∈ w_name <$> l)) as [Hin|Hout].
    + destruct (Hlisted n Hin) as (ws & new & Hws & Hname & Hnew & Hprops).
      exists ws, new. split; [by right|done].
    + cbn in Hn. apply elem_of_cons in Hn as [->|]; [|done].
      assert (Hnew : exists new, upsert now data (db w) !! w_name x = Some new
                                 /\ listedByWaha before x new).
      { assert (Htenant : Js.orNull (d_tenantId data)
                          = Js.orNull (before !! w_name x ≫= tenantId)).
        { subst data. cbn -[Js.orNull]. rewrite orNull_idem.
          by destruct (before !! w_name x). }
        destruct (db w !! w_name x) as [old|] eqn:Hold.
        - exists (updateRow now data old).
          split; [by apply (upsert_lookup_existing now data)|].
          repeat split; try done; exact Htenant.
        - exists (createRow now data).
          split; [by apply (upsert_lookup_fresh now data)|].
          repeat split; try done; exact Htenant. }
      destruct Hnew as (new & Hlook & Hprops).
      exists x, new. split; [by left|]. split; [done|]. split; [|done].
      rewrite Hframe by done. exact Hlook.
Qed.

(** X23.  [WahaSyncService.syncAllSessions] never throws on a WAHA
    failure: it then answers the registry as it is.  When WAHA lists its
    sessions, every listed name gets a row with the reported status under
    the provider WAHA, with the tenant the row had before and without
    Quepasa token, whatever provider the row belonged to; rows that WAHA
    does not list are unchanged, and the answer is the registry read
    back. *)
Theorem X23_syncAllSessions_reconciles Lc now st :
  (forall e, wahaListSessions Lc = Thrown e ->
     syncAllSessions Lc now st
     = (Returned (allSessions None (db (world st))),
        {| world := world st; operations := operations st ++ [WahaListSessions];
           timers := timers st |}))
  /\ (forall l, wahaListSessions Lc = Returned l ->
      exists st',
        syncAllSessions Lc now st = (Returned (allSessions None (db (world st'))), st')
        /\ calls (world st') = calls (world st)
        /\ (forall m, m ∉ w_name <$> l -> db (world st') !! m = db (world st) !! m)
        /\ forall n, n ∈ w_name <$> l ->
             exists ws new, ws ∈ l /\ w_name ws = n
                            /\ db (world st') !! n = Some new
                            /\ listedByWaha (db (world st)) ws new).
Proof.
  destruct st as [w ops tm]. cbn [world operations timers]. split.
  - intros e Hfail. unfold syncAllSessions. run_l. rewrite Hfail. cbn.
    by destruct w.
  - intros l Hok.
    destruct (wahaLoop_run now (db w) l w) as (w' & Hrun & Hcalls & Hframe & Hlisted).
    exists {| world := w'; operations := ops ++ [WahaListSessions]; timers := tm |}.
    split; [|done].
    unfold syncAllSessions. unfold tryCatchL, bindL at 1. unfold operate at 1.
    rewrite Hok. cbn [world operations timers].
    unfold bindL at 1. unfold lift at 1. unfold getAllSessions at 1. run_m.
    cbn [world operations timers].
    unfold bindL at 1. unfold lift at 1. cbn [world operations timers].
    replace (forEach l _ w) with (Returned tt, w'); [by destruct w'|].
    rewrite <- Hrun. apply forEach_ext. intros ws v. by rewrite sessionMap_lookup.
Qed.

Lemma X23_witness :
  exists st' new,
    syncAllSessions online 2000 (stageOf Sample.mixedRegistry)
    = (Returned (allSessions None (db (world st'))), st')
    /\ db (world st') !! "support_T1" = Some new
    /\ status new = "WORKING"
    /\ db (world st') !! "sales_T1" = Sample.mixedRegistry !! "sales_T1".
Proof.
  destruct (proj2 (X23_syncAllSessions_reconciles online 2000
                     (stageOf Sample.mixedRegistry)) _ eq_refl)
    as (st' & Hrun & _ & Hframe & Hlisted).
  destruct (Hlisted "support_T1" ltac:(vm_compute; left))
    as (ws & new & Hws & _ & Hnew & Hstatus & _).
  exists st', new. split; [exact Hrun|]. split; [exact Hnew|]. split.
  - rewrite Hstatus. apply list_elem_of_singleton in Hws. by rewrite Hws.
  - apply Hframe. intros Hin. apply list_elem_of_singleton in Hin. discriminate.
Defined.

(** X24.  [syncSessionWithExisting] does not throw on a WAHA failure: it
    then writes nothing and answers the session it was given.  When WAHA
    answers, it writes the reported status with the tenant and the
    pairing artifact of the session it was given, not of the stored row,
    and without Quepasa token; other rows are unchanged. *)
Theorem X24_syncSessionWithExisting_trusts_the_loaded_session R now n existing w :
  (forall e, wahaGetSession R n = Thrown e ->
     syncSessionWithExisting R now n existing w
     = (Returned existing, {| db := db w; calls := calls w ++ [WahaGetSession n] |}))
  /\ (forall ws, wahaGetSession R n = Returned ws ->
      exists new w',
        syncSessionWithExisting R now n existing w
        = (Returned (withReported existing ws), w')
        /\ db w' !! w_name ws = Some new
        /\ (forall m, m <> w_name ws -> db w' !! m = db w !! m)
        /\ status new = mapWahaStatus (w_status ws)
        /\ provider new = Some WAHA
        /\ tenantId new = Js.orNull (s_tenantId existing)
        /\ qr new = Js.orNull (s_qr existing)
        /\ qrExpiresAt new = s_qrExpiresAt existing
        /\ quepasaToken new = None).
Proof.
  split.
  - intros e Hfail. unfold syncSessionWithExisting. run_m. by rewrite Hfail.
  - intros ws Hok.
    set (data := wahaSessionData ws (Some existing)).
    assert (Hnew : exists new,
              upsert now data (db w) !! w_name ws = Some new
              /\ status new = mapWahaStatus (w_status ws)
              /\ provider new = Some WAHA
              /\ tenantId new = Js.orNull (s_tenantId existing)
              /\ qr new = Js.orNull (s_qr existing)
              /\ qrExpiresAt new = s_qrExpiresAt existing
              /\ quepasaToken new = None).
    { destruct (db w !! w_name ws) as [old|] eqn:Hold.
      - exists (updateRow now data old).
        split; [by apply (upsert_lookup_existing now data)|].
        cbn -[Js.orNull]. by rewrite !orNull_idem.
      - exists (createRow now data).
        split; [by apply (upsert_lookup_fresh now data)|].
        cbn -[Js.orNull]. by rewrite !orNull_idem. }
    destruct Hnew as (new & Hlook & Hprops).
    exists new, {| db := upsert now data (db w);
                   calls := (calls w ++ [WahaGetSession n])%list |}.
    split; [unfold syncSessionWithExisting; run_m; by rewrite Hok|].
    split; [exact Hlook|]. split; [|exact Hprops].
    intros m Hm. cbn. by apply upsert_lookup_other.
Qed.

Lemma X24_witness :
  let existing := toSession "sales_T1" Sample.tokenRow in
  syncSessionWithExisting Sample.unreachable 2000 "sales_T1" existing
    (Sample.world Sample.tokenRegistry)
  = (Returned existing,
     {| db := Sample.tokenRegistry; calls := [WahaGetSession "sales_T1"] |}).
Proof.
  exact (proj1 (X24_syncSessionWithExisting_trusts_the_loaded_session Sample.unreachable
                  2000 "sales_T1" (toSession "sales_T1" Sample.tokenRow)
                  (Sample.world Sample.tokenRegistry)) "timeout" eq_refl).
Defined.

(** * Properties of the settings and of the WAHA client *)

Lemma mergeSettings_noPatch s : mergeSettings noPatch s = s.
Proof. by destruct s. Qed.

Lemma patched_twice v old : patched v (patched v old) = patched v old.
Proof. by destruct v. Qed.

(** X25.  An update through the service is read back at once: whatever
    was cached before, and however fresh, the next [getSettings] returns
    the row the update wrote.  The update is a merge, so that the empty
    patch changes nothing and applying a patch twice is applying it once.
    When the database fails the update throws, and cache and table are as
    they were. *)
Theorem X25_update_is_read_back columnDefaults data st now :
  (reachable st = true ->
   exists s st1,
     updateSettings data st = (Returned s, st1)
     /\ table st1 = Some s
     /\ (getSettings columnDefaults now st1).1 = s
     /\ (forall stored, table st = Some stored ->
           s = mergeSettings data stored
           /\ mergeSettings data s = s
           /\ (data = noPatch -> s = stored)))
  /\ (reachable st = false ->
      exists e, updateSettings data st = (Thrown e, st)).
Proof.
  split.
  - intros Hup. unfold updateSettings. rewrite Hup.
    eexists _, _. split; [reflexivity|]. split; [reflexivity|]. split; [reflexivity|].
    intros stored ->. split; [done|]. split.
    + unfold mergeSettings. cbn. by rewrite !patched_twice.
    + intros ->. apply mergeSettings_noPatch.
  - intros Hdown. unfold updateSettings. rewrite Hdown. by eexists.
Qed.

Lemma X25_witness :
  let st := {| table := Some wahaSettings; reachable := true;
               cachedSettings := Some wahaSettings; cacheExpiry := 99999 |} in
  exists s st1,
    updateSettings (hostPatch "http://new") st = (Returned s, st1)
    /\ (getSettings wahaSettings 1000 st).1 = wahaSettings
    /\ (getSettings wahaSettings 1000 st1).1 = s
    /\ g_wahaHost s = Some "http://new"
    /\ g_wahaApiKey s = Some "key".
Proof.
  destruct (proj1 (X25_update_is_read_back wahaSettings (hostPatch "http://new")
                     {| table := Some wahaSettings; reachable := true;
                        cachedSettings := Some wahaSettings; cacheExpiry := 99999 |}
                     1000) eq_refl)
    as (s & st1 & Hrun & _ & Hread & Hmerge).
  exists s, st1. split; [exact Hrun|]. split; [reflexivity|]. split; [exact Hread|].
  destruct (Hmerge wahaSettings eq_refl) as [-> _]. split; reflexivity.
Defined.

(** X26.  A read that went to the database is served from the cache for
    the next thirty seconds, whatever happens to the table meanwhile and
    without touching it.  From then on a read goes to the database again;
    when the database is down it still answers, with the stale cache. *)
Theorem X26_settings_are_cached_for_thirty_seconds columnDefaults st now s st1 :
  reachable st = true ->
  (forall c, cachedSettings st = Some c -> cacheExpiry st <= now) ->
  getSettings columnDefaults now st = (s, st1) ->
  forall later changed,
    cachedSettings changed = cachedSettings st1 ->
    cacheExpiry changed = cacheExpiry st1 ->
    (later < now + 30000 ->
     getSettings columnDefaults later changed = (s, changed))
    /\ (now + 30000 <= later -> reachable changed = false ->
        getSettings columnDefaults later changed = (s, changed))
    /\ (forall fresh, now + 30000 <= later -> reachable changed = true ->
          table changed = Some fresh ->
          (getSettings columnDefaults later changed).1 = fresh).
Proof.
  intros Hup Hmiss Hrun later changed Hcache Hexpiry.
  assert (Hst1 : cachedSettings st1 = Some s /\ cacheExpiry st1 = now + 30000).
  { revert Hrun. unfold getSettings. rewrite Hup.
    destruct (cachedSettings st) as [c|] eqn:Hc.
    - specialize (Hmiss c eq_refl). apply Z.ltb_ge in Hmiss. rewrite Hmiss.
      by intros [= <- <-].
    - by intros [= <- <-]. }
  destruct Hst1 as [Hs He]. rewrite Hs in Hcache. rewrite He in Hexpiry.
  unfold getSettings. rewrite Hcache, Hexpiry. split; [|split].
  - intros Hlater. apply Z.ltb_lt in Hlater. by rewrite Hlater.
  - intros Hlater Hdown. apply Z.ltb_ge in Hlater. by rewrite Hlater, Hdown.
  - intros fresh Hlater Hreach Htable. apply Z.ltb_ge in Hlater.
    by rewrite Hlater, Hreach, Htable.
Qed.

Lemma X26_witness :
  let st1 := (getSettings wahaSettings 1000 (storeOf wahaSettings)).2 in
  let changed := {| table := None; reachable := false;
                    cachedSettings := cachedSettings st1;
                    cacheExpiry := cacheExpiry st1 |} in
  getSettings wahaSettings 30999 changed = (wahaSettings, changed).
Proof.
  exact (proj1 (X26_settings_are_cached_for_thirty_seconds wahaSettings
                  (storeOf wahaSettings) 1000 wahaSettings
                  (getSettings wahaSettings 1000 (storeOf wahaSettings)).2
                  eq_refl ltac:(discriminate) eq_refl
                  30999
                  {| table := None; reachable := false;
                     cachedSettings :=
                       cachedSettings (getSettings wahaSettings 1000
                                         (storeOf wahaSettings)).2;
                     cacheExpiry :=
                       cacheExpiry (getSettings wahaSettings 1000
                                      (storeOf wahaSettings)).2 |}
                  eq_refl eq_refl)
               ltac:(reflexivity)).
Defined.

Lemma includes_status statusText : Js.includes "422" (wahaError 422 statusText) = true.
Proof.
  unfold wahaError.
  change (Js.decimal 422) with "422". reflexivity.
Qed.

(** X27.  A 422 from WAHA reaches [WahaSyncService.createSession] as an
    error whose message names the status, and makes it adopt the session
    WAHA already has: the registry gets the row with the status WAHA
    reports.  The test is on the text, so any failure whose message
    contains 422 takes that path, and when WAHA cannot then be read the
    error says that the session, its name between double quotes, exists,
    with the registry untouched. *)
Theorem X27_a_422_adopts_the_existing_session columnDefaults env http at_ st R now n
    webhook w :
  (forall host key statusText payload ws,
     (getWahaConfig columnDefaults at_ st).1 = (host, key) ->
     wahaBaseUrl env host <> EmptyString -> wahaApiKey env key <> EmptyString ->
     http (wahaBaseUrl env host ++ "/api/sessions") (wahaApiKey env key)
     = Responds false 422 statusText payload ->
     wahaPostSession R n webhook
     = (wahaRequest columnDefaults env http at_ "/api/sessions" st).1 ->
     wahaGetSession R n = Returned ws ->
     exists new w',
       wahaCreateSession R now n webhook w = (Returned (w_name ws), w')
       /\ calls w' = (calls w ++ [WahaPostSession n webhook; WahaGetSession n])%list
       /\ db w' !! n = Some new
       /\ status new = mapWahaStatus (w_status ws)
       /\ provider new = Some WAHA)
  /\ (forall message e,
        Js.includes "422" message = true ->
        wahaPostSession R n webhook = Thrown message ->
        wahaGetSession R n = Thrown e ->
        wahaCreateSession R now n webhook w
        = (Thrown ("Sessão " ++ Js.quote ++ n ++ Js.quote
                   ++ " já existe mas não foi possível obter detalhes"),
           {| db := db w;
              calls := (calls w ++ [WahaPostSession n webhook; WahaGetSession n])%list |})).
Proof.
  split.
  - intros host key statusText payload ws Hconfig Hbase Hkey Hanswer Hpost Hget.
    assert (Hthrown : wahaPostSession R n webhook = Thrown (wahaError 422 statusText)).
    { rewrite Hpost. unfold wahaRequest.
      destruct (getWahaConfig columnDefaults at_ st) as [[host' key'] st'].
      cbn in Hconfig. injection Hconfig as -> ->.
      apply String.eqb_neq in Hbase, Hkey. rewrite Hbase, Hkey. cbn [orb].
      by rewrite Hanswer. }
    set (data := withConfig (Some (default (wahaNewConfig webhook) (w_config ws)))
                            (sessionData n (mapWahaStatus (w_status ws)) WAHA)).
    assert (Hnew : exists new, upsert now data (db w) !! n = Some new
                               /\ status new = mapWahaStatus (w_status ws)
                               /\ provider new = Some WAHA).
    { destruct (db w !! n) as [old|] eqn:Hold.
      - exists (updateRow now data old).
        split; [by apply (upsert_lookup_existing now data)|done].
      - exists (createRow now data).
        split; [by apply (upsert_lookup_fresh now data)|done]. }
    destruct Hnew as (new & Hlook & Hprops).
    exists new, {| db := upsert now data (db w);
                   calls := (calls w ++ [WahaPostSession n webhook; WahaGetSession n])%list |}.
    split; [|done].
    unfold wahaCreateSession. run_m. rewrite Hthrown. cbn -[Js.includes wahaError].
    rewrite includes_status. rewrite Hget. cbn. by rewrite <- app_assoc.
  - intros message e Hincludes Hpost Hget.
    unfold wahaCreateSession. run_m. rewrite Hpost. cbn -[Js.includes].
    rewrite Hincludes, Hget. cbn. by rewrite <- app_assoc.
Qed.

Lemma calculateTimeLeft_range now e :
  0 <= calculateTimeLeft now e
  /\ (calculateTimeLeft now e = 0 <-> e <= now)
  /\ (now < e ->
      1000 * (calculateTimeLeft now e - 1) < e - now <= 1000 * calculateTimeLeft now e).
Proof.
  unfold calculateTimeLeft.
  pose proof (Z.div_mod (now - e) 1000 ltac:(lia)).
  pose proof (Z.mod_pos_bound (now - e) 1000 ltac:(lia)).
  lia.
Qed.

Lemma last_cons_default {A} (l : list A) x d : List.last (x :: l) d = List.last l x.
Proof.
  revert x d. induction l as [|y l IH]; intros x d; [done|].
  change (List.last (x :: y :: l) d) with (List.last (y :: l) d).
  by rewrite !IH.
Qed.

(** The state follows the clock: after any firings it holds the value of
    the last instant, and a cleared timer means the expiry has passed. *)
Lemma countdown_follows e firings : forall c t,
  timeLeft c = calculateTimeLeft t e ->
  (ticking c = false -> e <= t) ->
  advances t firings ->
  let c' := fold_left (tick e) firings c in
  timeLeft c' = calculateTimeLeft (List.last firings t) e
  /\ (ticking c' = false -> e <= List.last firings t).
Proof.
  induction firings as [|u rest IH]; intros c t Hvalue Hcleared Hclock; [done|].
  destruct Hclock as [Hle Hrest].
  assert (Hstep : timeLeft (tick e c u) = calculateTimeLeft u e
                  /\ (ticking (tick e c u) = false -> e <= u)).
  { unfold tick. destruct (ticking c) eqn:Hticking; cbn.
    - split; [done|]. intros Hdone. apply negb_false_iff, Z.leb_le in Hdone.
      pose proof (calculateTimeLeft_range u e) as (Hpos & Hzero & _).
      apply Hzero. lia.
    - specialize (Hcleared eq_refl).
      pose proof (calculateTimeLeft_range t e) as (_ & Hzero & _).
      pose proof (calculateTimeLeft_range u e) as (_ & Hzero' & _).
      rewrite Hticking. split; [|intros _; lia].
      rewrite Hvalue. rewrite (proj2 Hzero) by lia. symmetry. apply Hzero'. lia. }
  destruct Hstep as [Hvalue' Hcleared'].
  cbn [fold_left]. rewrite last_cons_default.
  exact (IH (tick e c u) u Hvalue' Hcleared' Hrest).
Qed.

(** X28.  The countdown of the pairing dialog, on the browser's clock.
    Its first paint is [QR Code expirado], whatever the expiry.  After the
    effect and any firings of its timer, on a clock that does not go back,
    it paints what the instant of the last of them gives: [QR Code
    expirado] exactly from the expiry on, and before it the remaining time
    in seconds, rounded up; the timer is cleared only once the expiry has
    passed.  If that instant is the server's [now], seconds are painted
    exactly when the server would still serve the stored artifact.  An
    artifact just issued starts at 300 seconds, and the expiry the dialog
    invents for an answer without one starts at 60. *)
Theorem X28_countdown_agrees_with_validity expiry started firings :
  paint mounted = Expired
  /\ (advances started firings ->
      let now := List.last firings started in
      let c := QRCountdown expiry started firings in
      timeLeft c = calculateTimeLeft now expiry
      /\ (paint c = Expired <-> expiry <= now)
      /\ (ticking c = false -> expiry <= now)
      /\ (forall k, paint c = ExpiresIn k ->
            1000 * (k - 1) < expiry - now <= 1000 * k)
      /\ (forall s q, Js.orNull (s_qr s) = Some q -> s_qrExpiresAt s = Some expiry ->
            (qrStillValid now s = true <-> exists k, paint c = ExpiresIn k)))
  /\ paint (effect (started + qrTtl) started) = ExpiresIn 300
  /\ paint (effect (modalExpiry started None) started) = ExpiresIn 60.
Proof.
  split; [reflexivity|]. split.
  - intros Hclock. cbn zeta.
    destruct (countdown_follows expiry firings (effect expiry started) started
                eq_refl ltac:(discriminate) Hclock) as [Hvalue Hcleared].
    fold (QRCountdown expiry started firings) in Hvalue, Hcleared.
    set (now := List.last firings started) in *.
    set (c := QRCountdown expiry started firings) in *.
    pose proof (calculateTimeLeft_range now expiry) as (Hpos & Hzero & Hceil).
    assert (Hpaint : paint c = if expiry <=? now then Expired
                                else ExpiresIn (calculateTimeLeft now expiry)).
    { unfold paint. rewrite Hvalue.
      destruct (calculateTimeLeft now expiry <=? 0) eqn:Hnone.
      - apply Z.leb_le in Hnone.
        rewrite (proj2 (Z.leb_le expiry now)); [done|]. apply Hzero. lia.
      - apply Z.leb_gt in Hnone.
        rewrite (proj2 (Z.leb_gt expiry now)); [done|].
        destruct (Z.le_gt_cases expiry now) as [Hle|Hgt]; [|done].
        apply Hzero in Hle. lia. }
    split; [exact Hvalue|]. split; [|split; [exact Hcleared|split]].
    + rewrite Hpaint. destruct (expiry <=? now) eqn:Hle.
      * apply Z.leb_le in Hle. by split.
      * apply Z.leb_gt in Hle. split; [done|lia].
    + intros k. rewrite Hpaint. destruct (expiry <=? now) eqn:Hle; [done|].
      apply Z.leb_gt in Hle. intros [= <-]. by apply Hceil.
    + intros s q Hq He. unfold qrStillValid. rewrite Hq, He, Hpaint.
      destruct (expiry <=? now) eqn:Hle.
      * apply Z.leb_le in Hle. rewrite (proj2 (Z.ltb_ge now expiry)) by done.
        split; [done|by intros [k [=]]].
      * apply Z.leb_gt in Hle. rewrite (proj2 (Z.ltb_lt now expiry)) by done.
        split; [by eexists|done].
  - unfold paint, effect, modalExpiry, calculateTimeLeft, qrTtl. cbn [timeLeft default].
    replace (started - (started + 300000)) with (-300 * 1000) by lia.
    replace (started - (started + 60000)) with (-60 * 1000) by lia.
    rewrite !Z.div_mul by lia. done.
Qed.

Lemma X28_witness :
  paint (QRCountdown 2000 500 [1500; 1999]) = ExpiresIn 1
  /\ paint (QRCountdown 2000 500 [1500; 1999; 2000]) = Expired
  /\ ticking (QRCountdown 2000 500 [1500; 1999; 2000]) = false
  /\ qrStillValid 1999 (toSession "sales_T1" Sample.pairingRow) = true.
Proof.
  destruct (proj1 (proj2 (X28_countdown_agrees_with_validity 2000 500 [1500; 1999]))
              ltac:(cbn; lia)) as (_ & _ & _ & _ & Hserver).
  split; [reflexivity|]. split; [reflexivity|]. split; [reflexivity|].
  apply (Hserver (toSession "sales_T1" Sample.pairingRow) "OLD" eq_refl eq_refl).
  by eexists.
Defined.

Lemma X27_witness :
  (exists new w',
     wahaCreateSession behindConflict 2000 "support_T1" None
       (Sample.world Sample.mixedRegistry)
     = (Returned "support_T1", w')
     /\ db w' !! "support_T1" = Some new
     /\ status new = "WORKING")
  /\ (wahaCreateSession unreadable 2000 "support_T1" None
        (Sample.world Sample.mixedRegistry)).1
     = Thrown ("Sessão " ++ Js.quote ++ "support_T1" ++ Js.quote
               ++ " já existe mas não foi possível obter detalhes").
Proof.
  split.
  - destruct (proj1 (X27_a_422_adopts_the_existing_session wahaSettings noEnv conflict
                       1000 (storeOf wahaSettings) behindConflict 2000 "support_T1" None
                       (Sample.world Sample.mixedRegistry))
                (Some "http://waha") (Some "key") "Unprocessable Entity" EmptyString
                {| w_name := "support_T1"; w_status := Some "WORKING"; w_config := None;
                   w_me := None; w_assignedWorker := None |}
                eq_refl ltac:(discriminate) ltac:(discriminate) eq_refl eq_refl eq_refl)
      as (new & w' & Hrun & _ & Hnew & Hstatus & _).
    exists new, w'. split; [exact Hrun|]. split; [exact Hnew|exact Hstatus].
  - rewrite (proj2 (X27_a_422_adopts_the_existing_session wahaSettings noEnv conflict
                      1000 (storeOf wahaSettings) unreadable 2000 "support_T1" None
                      (Sample.world Sample.mixedRegistry))
               (wahaError 422 "Unprocessable Entity") "timeout"
               eq_refl eq_refl eq_refl).
    reflexivity.
Defined.

(** * Properties of the connections *)

Lemma merge_sort_elem {A} (R : relation A) `{forall x y, Decision (R x y)} (l : list A) x :
  x ∈ merge_sort R l <-> x ∈ l.
Proof. by rewrite merge_sort_Permutation. Qed.

Lemma sorted_rows_elem {A} (R : relation (string * A)) `{forall x y, Decision (R x y)}
    (keep : string * A -> bool) (m : gmap string A) k x :
  (k, x) ∈ merge_sort R (List.filter keep (map_to_list m))
  <-> m !! k = Some x /\ keep (k, x) = true.
Proof.
  rewrite merge_sort_Permutation.
  rewrite list_elem_of_In, List.filter_In, <- list_elem_of_In, elem_of_map_to_list.
  reflexivity.
Qed.

Lemma sorted_rows_NoDup {A} (R : relation (string * A)) `{forall x y, Decision (R x y)}
    (keep : string * A -> bool) (m : gmap string A) :
  NoDup (merge_sort R (List.filter keep (map_to_list m))).*1.
Proof.
  rewrite merge_sort_Permutation.
  assert (Hsub : sublist (List.filter keep (map_to_list m)) (map_to_list m)).
  { induction (map_to_list m) as [|x l IH]; [done|]. cbn.
    destruct (keep x); by constructor. }
  apply (sublist_NoDup _ (map_to_list m).*1); [apply NoDup_fst_map_to_list|].
  by apply fmap_sublist.
Qed.

Lemma createdFirst_total : Total createdFirst.
Proof. intros a b. unfold createdFirst. lia. Qed.

Lemma createdFirst_trans : Transitive createdFirst.
Proof. intros a b c. unfold createdFirst. lia. Qed.

Lemma bornFirst_total : Total bornFirst.
Proof. intros a b. unfold bornFirst. lia. Qed.

Lemma bornFirst_trans : Transitive bornFirst.
Proof. intros a b c. unfold bornFirst. lia. Qed.

(** X29.  [listConnections] shows the connections of the tenant, then
    its sessions as connections: exactly the connections and the
    sessions of the tenant (all of them when no tenant is given), each
    once, the most recently created first within each part, and nothing
    of another tenant.  The entry of a session carries the id of its row
    and its name as instance name; it is ACTIVE exactly when the session
    is WORKING; the statuses the engine stores never show as ERROR,
    FAILED included; and it carries no webhook secret and no callback
    URL, whatever the row holds. *)
Theorem X29_sessions_listed_as_connections now sessionId tenant table' (reg : Registry) :
  listConnections now sessionId tenant table' reg
  = ((snd <$> connectionsOf tenant table')
     ++ ((fun kr => sessionAsConnection now sessionId kr.1 kr.2)
           <$> sessionsOf tenant reg))%list
  /\ (forall k c, (k, c) ∈ connectionsOf tenant table'
                  <-> table' !! k = Some c /\ ofTenant tenant c = true)
  /\ (forall n r, (n, r) ∈ sessionsOf tenant reg
                  <-> reg !! n = Some r /\ matchesTenant tenant r = true)
  /\ NoDup (connectionsOf tenant table').*1
  /\ NoDup (sessionsOf tenant reg).*1
  /\ StronglySorted createdFirst (connectionsOf tenant table')
  /\ StronglySorted bornFirst (sessionsOf tenant reg)
  /\ (forall c t, c ∈ listConnections now sessionId tenant table' reg ->
        Js.orNull tenant = Some t -> Js.orNull (c_tenantId c) = Some t)
  /\ (forall n r,
        let c := sessionAsConnection now sessionId n r in
        c_id c = sessionId n
        /\ c_instanceName c = n
        /\ (c_status c = ACTIVE <-> status r = "WORKING")
        /\ (status r ∈ ["WORKING"; "SCAN_QR_CODE"; "STOPPED"; "FAILED"] ->
            c_status c <> ERROR)
        /\ c_webhookSecret c = EmptyString /\ c_callbackUrl c = EmptyString).
Proof.
  split; [reflexivity|].
  split; [intros k c; apply (sorted_rows_elem createdFirst (fun kc => ofTenant tenant kc.2))|].
  split; [intros n r;
          apply (sorted_rows_elem bornFirst (fun kr => matchesTenant tenant kr.2))|].
  split; [apply sorted_rows_NoDup|]. split; [apply sorted_rows_NoDup|].
  split; [apply StronglySorted_merge_sort;
          [apply createdFirst_trans|apply createdFirst_total]|].
  split; [apply StronglySorted_merge_sort;
          [apply bornFirst_trans|apply bornFirst_total]|].
  split.
  - intros c t Hc Ht. unfold listConnections in Hc. apply elem_of_app in Hc as [Hc|Hc].
    + apply list_elem_of_fmap in Hc as ([k c'] & -> & Hin).
      apply (sorted_rows_elem createdFirst (fun kc => ofTenant tenant kc.2)) in Hin
        as [_ Hmine].
      cbn in *. unfold ofTenant in Hmine. rewrite Ht in Hmine.
      apply bool_decide_eq_true in Hmine. rewrite Hmine. by eapply orNull_Some.
    + apply list_elem_of_fmap in Hc as ([n row] & -> & Hin).
      apply (sorted_rows_elem bornFirst (fun kr => matchesTenant tenant kr.2)) in Hin
        as [_ Hmine].
      cbn in *. unfold matchesTenant in Hmine. rewrite Ht in Hmine.
      apply bool_decide_eq_true in Hmine. rewrite Hmine, orNull_idem.
      by eapply orNull_Some.
  - intros n r. cbn. split; [done|]. split; [done|]. split; [|split; [|done]].
    + unfold connectionStatusOf.
      destruct (String.eqb (status r) "WORKING") eqn:Hw.
      * apply String.eqb_eq in Hw. by split.
      * apply String.eqb_neq in Hw. destruct (String.eqb (status r) "ERROR");
          split; (done || by intros).
    + intros Hst. unfold connectionStatusOf.
      repeat (apply elem_of_cons in Hst as [->|Hst]; [done|]).
      by apply elem_of_nil in Hst.
Qed.

Lemma X29_witness :
  (c_id <$> listConnections 2000 sampleId (Some "T1") oneConnection twoTokens)
  = ["c1"; "id-leads_T1"; "id-sales_T1"]
  /\ listConnections 2000 sampleId (Some "T2") oneConnection twoTokens = []
  /\ NoDup (sessionsOf (Some "T1") twoTokens).*1.
Proof.
  split; [vm_compute; reflexivity|]. split; [vm_compute; reflexivity|].
  exact (proj1 (proj2 (proj2 (proj2 (proj2
           (X29_sessions_listed_as_connections 2000 sampleId (Some "T1") oneConnection
              twoTokens)))))).
Defined.

Lemma sessionById_found sessionId (reg : Registry) n row :
  (forall a b, is_Some (reg !! a) -> is_Some (reg !! b) ->
               sessionId a = sessionId b -> a = b) ->
  reg !! n = Some row ->
  sessionById sessionId (sessionId n) reg = Some (n, row).
Proof.
  intros Hunique Hrow. unfold sessionById.
  destruct (List.find _ _) as [[m r]|] eqn:Hfind.
  - apply List.find_some in Hfind as [Hin Hid]. cbn in Hid.
    apply String.eqb_eq in Hid.
    apply list_elem_of_In, elem_of_map_to_list in Hin.
    assert (m = n) as -> by (apply Hunique; [by eexists|by eexists|done]).
    congruence.
  - assert (Hin : In (n, row) (map_to_list reg))
      by by apply list_elem_of_In, elem_of_map_to_list.
    pose proof (List.find_none _ _ Hfind (n, row) Hin) as Hno.
    cbn in Hno. by rewrite String.eqb_refl in Hno.
Qed.

Lemma sessionById_missing sessionId (reg : Registry) id :
  (forall n, is_Some (reg !! n) -> sessionId n <> id) ->
  sessionById sessionId id reg = None.
Proof.
  intros Hnone. unfold sessionById.
  destruct (List.find _ _) as [[m r]|] eqn:Hfind; [|done].
  apply List.find_some in Hfind as [Hin Hid]. cbn in Hid. apply String.eqb_eq in Hid.
  apply list_elem_of_In, elem_of_map_to_list in Hin.
  destruct (Hnone m); [by eexists|done].
Qed.

(** X30.  A connection that [createConnection] stored is found again by
    its id, with the callback URL built from that id, and it is found
    whatever the sessions are, one of the same id included.  An id that
    is no connection falls back on the session whose row has that id,
    shown as a connection, and gives nothing when no row has it: the
    name of a session is not looked at.  The ids of the stored sessions
    are taken to be distinct. *)
Theorem X30_created_connection_is_found now sessionId baseUrl freshId freshSecret p
    instanceName phoneNumber tenant table' (reg : Registry) :
  table' !! freshId = None ->
  (forall a b, is_Some (reg !! a) -> is_Some (reg !! b) ->
               sessionId a = sessionId b -> a = b) ->
  let '(connection, stored) :=
    createConnection now baseUrl freshId freshSecret p instanceName phoneNumber tenant
                     table' in
  getConnection now sessionId freshId stored reg = Some connection
  /\ c_id connection = freshId
  /\ c_callbackUrl connection = baseUrl ++ "/api/webhooks/wa/" ++ freshId ++ "/callback"
  /\ c_status connection = ACTIVE
  /\ c_webhookSecret connection = freshSecret
  /\ (forall n row, reg !! n = Some row -> table' !! sessionId n = None ->
        getConnection now sessionId (sessionId n) table' reg
        = Some (sessionAsConnection now sessionId n row))
  /\ (forall id, table' !! id = None ->
        (forall n, is_Some (reg !! n) -> sessionId n <> id) ->
        getConnection now sessionId id table' reg = None)
  /\ forall id, id <> freshId ->
       getConnection now sessionId id stored reg
       = getConnection now sessionId id table' reg.
Proof.
  intros Hfresh Hunique. cbn. unfold getConnection. rewrite lookup_insert_eq.
  repeat (split; [done|]). split; [|split].
  - intros n row Hrow ->. by rewrite (sessionById_found sessionId reg n row).
  - intros id -> Hnone. by rewrite sessionById_missing.
  - intros id Hid. by rewrite lookup_insert_ne.
Qed.

Lemma X30_witness :
  let '(connection, stored) :=
    createConnection 2000 "http://app" "c1" "secret" WAHA "sales" "5511" (Some "T1")
                     noConnections in
  getConnection 2000 sampleId "c1" stored Sample.salesRegistry = Some connection
  /\ c_callbackUrl connection = "http://app/api/webhooks/wa/c1/callback"
  /\ getConnection 2000 sampleId "id-sales_T1" noConnections Sample.salesRegistry
     = Some (sessionAsConnection 2000 sampleId "sales_T1" (Sample.row QUEPASA "STOPPED"))
  /\ getConnection 2000 sampleId "sales_T1" noConnections Sample.salesRegistry = None.
Proof.
  pose proof (X30_created_connection_is_found 2000 sampleId "http://app" "c1" "secret"
                WAHA "sales" "5511" (Some "T1") noConnections Sample.salesRegistry
                ltac:(apply lookup_empty)
                ltac:(intros a b _ _ [= Hsame]; exact Hsame)) as H.
  cbn in H. cbn. destruct H as (Hfound & _ & Hurl & _ & _ & Hsession & Hnone & _).
  split; [exact Hfound|]. split; [exact Hurl|]. split.
  - apply (Hsession "sales_T1"); [vm_compute; reflexivity|apply lookup_empty].
  - apply Hnone; [apply lookup_empty|].
    intros n [row Hrow]. unfold Sample.salesRegistry in Hrow.
    apply lookup_singleton_Some in Hrow as [<- _]. discriminate.
Defined.

Lemma X1_witness :
  Forall (fun s => s_tenantId s = Some "T1") (allSessions (Some "T1") Sample.fullRegistry).
Proof.
  apply Forall_forall. intros s.
  exact (proj1 (proj2 (proj2 (X1_listing_is_the_tenants_sessions (Some "T1")
                                 Sample.fullRegistry))) s "T1" eq_refl).
Defined.

Lemma X7_witness :
  quotaMiddleware Sample.quota {| resource := connections; action := create |}
    (superadminFor "T1" "sales") (Sample.world Sample.fullRegistry)
  = (Returned Next, Sample.world Sample.fullRegistry).
Proof.
  exact (proj1 (proj2 (X7_quota_gate_characterised Sample.quota
                         {| resource := connections; action := create |}
                         (superadminFor "T1" "sales")
                         (Sample.world Sample.fullRegistry))) eq_refl).
Defined.

Lemma X10_witness :
  exists r,
    postSessionsRoute Sample.unreachable 2000 "secret" "token" Sample.quota
      (Sample.request EmptyString) (Sample.world Sample.fullRegistry)
    = (Returned r, Sample.world Sample.fullRegistry)
    /\ code r = 403.
Proof.
  destruct (X10_creation_answers_and_frames Sample.unreachable 2000 "secret" "token"
              Sample.quota (Sample.request EmptyString)
              (Sample.world Sample.fullRegistry))
    as (r & w' & Hrun & _ & Hsame & _).
  assert (Hcode : code r = 403).
  { pose proof Hrun as Hrun'. vm_compute in Hrun'. by injection Hrun' as <- _. }
  exists r. split; [|exact Hcode].
  rewrite Hrun. f_equal. apply Hsame; rewrite Hcode; discriminate.
Defined.
